(** * POS-SYSTEM: the data-and-integration backbone, embedded and verified

    Source files: [model.py] (class [ProductModel]: connection pools, product
    cache, product repository, sale transaction, attendance), [uipos.py]
    (the cart, the keypad, the payment flow and the Linkly payment-terminal
    client) and [payment_dialog.py].

    Layout of the development:
    - [Py], [PyMore]: the fragment of the Python runtime the code relies on
      (values, truthiness, [str], [float], exceptions);
    - [Driver]: [_validate_mysql_connector];
    - [Linkly]: [_interpret_linkly_response];
    - [Cache]: [load_cache], [save_cache], [_merge_into_cache],
      [_find_in_cache_by_barcode], [fetch_product_by_barcode];
    - [Tx]: a pooled MySQL connection with transactions;
    - [Sale]: [record_sale], [_collect_cart_items];
    - [Attendance]: [clock_out];
    - [Repository]: [search_cache], [search_products], [prime_cache],
      [fetch_all_products], [refresh_cache], [get_cached_product];
    - [Staff]: [clock_in], [get_today_attendance];
    - [Cart]: [_cart_is_empty], [_find_empty_row], [_clear_row],
      [void_selected_item], [void_all_items], [_has_sufficient_stock],
      [_can_use_qty];
    - [Keypad]: the [_pad_...] functions;
    - [Terminal]: [_read_linkly_response], [_send_linkly_payload],
      [_process_card_payment];
    - [Checkout]: [_recalculate_totals], [_current_total],
      [PaymentDialog.accept], [handle_payment];
    - [Runtime], [RuntimeMore]: a concrete runtime (binary64 floats, ASCII
      text, a JSON reader and writer) on which the functions are evaluated. *)

From Stdlib Require Import ZArith String Ascii List Bool Lia Floats.
From stdpp Require Import base option list strings pretty gmap.

Open Scope Z_scope.
Open Scope string_scope.

(* ===================================================================== *)
(** * The Python runtime fragment *)
(* ===================================================================== *)

Module Py.

(** Exceptions that can cross the functions modelled here.
    [MySQLError] is [mysql.connector.Error] (the driver's own error class);
    [DatabaseError] is the class [model.py] declares. *)
Inductive exn :=
| AttributeError
| TypeError
| ValueError
| OverflowError
| OSError
| RecursionError
| JSONDecodeError
| MySQLError (msg : string)
| DatabaseError (msg : string).

(** The outcome of running Python code: a value, or a raised exception. *)
Inductive result (A : Type) :=
| Ok (a : A)
| Raise (e : exn).
Arguments Ok {A} a.
Arguments Raise {A} e.

Definition bind {A B} (r : result A) (k : A -> result B) : result B :=
  match r with
  | Ok a => k a
  | Raise e => Raise e
  end.

Declare Scope py_scope.
Notation "x <- r ;; k" := (bind r (fun x => k))
  (at level 100, r at next level, right associativity) : py_scope.
Delimit Scope py_scope with py.
Open Scope py_scope.

Definition is_ok {A} (r : result A) : bool :=
  match r with Ok _ => true | Raise _ => false end.

(** Python's [float]: the carrier and the operations the code uses.
    [float_of_Z z] is [float(z)] for an int ([None]: OverflowError);
    [f_is_zero x] is [x == 0.0]; [fleb] is [<=] (also the comparison the
    SQL function GREATEST applies to the stock column). *)
Class PyFloat := {
  flt : Type;
  fzero : flt;
  fone : flt;
  fmul : flt -> flt -> flt;
  fsub : flt -> flt -> flt;
  fleb : flt -> flt -> bool;
  f_is_zero : flt -> bool;
  float_of_Z : Z -> option flt;
  fleb_zero : fleb fzero fzero = true
}.

Section Values.
Context `{PyFloat}.

#[local] Set Warnings "-register-all".

(** Python values: what [json.load] returns and what the row and item
    dictionaries hold.  A [dict] has [str] keys and keeps insertion order. *)
Inductive pyval :=
| PNone
| PBool (b : bool)
| PInt (z : Z)
| PFloat (x : flt)
| PStr (s : string)
| PList (l : list pyval)
| PDict (d : list (string * pyval)).

Definition dict := list (string * pyval).

(** [d.get(k)] on the association list: first binding of [k]. *)
Fixpoint dict_get (d : dict) (k : string) : option pyval :=
  match d with
  | [] => None
  | (k', v) :: d' => if String.eqb k k' then Some v else dict_get d' k
  end.

(** [d[k] = v]: overwrite in place when [k] is bound, append otherwise. *)
Fixpoint dict_set (k : string) (v : pyval) (d : dict) : dict :=
  match d with
  | [] => [(k, v)]
  | (k', v') :: d' =>
      if String.eqb k k' then (k', v) :: d' else (k', v') :: dict_set k v d'
  end.

Definition dict_values (d : dict) : list pyval := map snd d.

(** [v.get(k)]: only a dict has the method. *)
Definition py_get (v : pyval) (k : string) : result pyval :=
  match v with
  | PDict d => Ok (default PNone (dict_get d k))
  | _ => Raise AttributeError
  end.

(** [v.get(k, dflt)]. *)
Definition py_get_default (v : pyval) (k : string) (dflt : pyval) : result pyval :=
  match v with
  | PDict d => Ok (default dflt (dict_get d k))
  | _ => Raise AttributeError
  end.

(** Truth value testing ([bool(v)], [if v], [not v]). *)
Definition py_truthy (v : pyval) : bool :=
  match v with
  | PNone => false
  | PBool b => b
  | PInt z => negb (Z.eqb z 0)
  | PFloat x => negb (f_is_zero x)
  | PStr s => negb (String.eqb s "")
  | PList l => match l with [] => false | _ => true end
  | PDict d => match d with [] => false | _ => true end
  end.

(** [a or b]. *)
Definition py_or (a b : pyval) : pyval := if py_truthy a then a else b.

Definition is_dict (v : pyval) : bool :=
  match v with PDict _ => true | _ => false end.

(** Text-level services of the runtime.  A Python [str] is represented by
    its UTF-8 encoding, a [bytes] object by its bytes.
    [json_loads] is [json.loads] on a [str]: it raises [JSONDecodeError] on
    text that is not JSON (and, as CPython does, may raise [RecursionError]
    or [ValueError] on text that is).  [int_of_str] and [float_of_str] are
    [int] and [float] on a [str], [None] standing for [ValueError]. *)
Class PyText := {
  decode_utf8_replace : string -> string;
  str_strip : string -> string;
  str_upper : string -> string;
  json_loads : string -> result pyval;
  int_of_str : string -> option Z;
  float_of_str : string -> option flt;
  float_str : flt -> string;
  str_repr : string -> string
}.

Context `{PyText}.

Definition join (sep : string) (l : list string) : string :=
  match l with
  | [] => ""
  | x :: xs => fold_left (fun acc y => acc +:+ sep +:+ y) xs x
  end.

(** [repr(v)]. *)
Fixpoint py_repr (v : pyval) : string :=
  match v with
  | PNone => "None"
  | PBool true => "True"
  | PBool false => "False"
  | PInt z => pretty z
  | PFloat x => float_str x
  | PStr s => str_repr s
  | PList l => "[" +:+ join ", " (map py_repr l) +:+ "]"
  | PDict d =>
      "{" +:+ join ", " (map (fun kv => str_repr (fst kv) +:+ ": " +:+ py_repr (snd kv)) d)
          +:+ "}"
  end.

(** [str(v)]: the text itself for a [str], [repr] for the rest. *)
Definition py_str (v : pyval) : string :=
  match v with
  | PStr s => s
  | _ => py_repr v
  end.

(** [float(v)]. *)
Definition py_float (v : pyval) : result flt :=
  match v with
  | PFloat x => Ok x
  | PInt z => match float_of_Z z with Some x => Ok x | None => Raise OverflowError end
  | PBool b => Ok (if b then fone else fzero)
  | PStr s => match float_of_str s with Some x => Ok x | None => Raise ValueError end
  | PNone | PList _ | PDict _ => Raise TypeError
  end.

End Values.

(** [needle in hay] for two [str]. *)
Fixpoint contains (needle hay : string) : bool :=
  String.prefix needle hay ||
  match hay with
  | EmptyString => false
  | String _ hay' => contains needle hay'
  end.

(** [s.split(sep)[0]] for a one-character separator: the text before the
    first occurrence of [sep] (all of [s] when there is none). *)
Fixpoint split_head (sep : ascii) (s : string) : string :=
  match s with
  | EmptyString => EmptyString
  | String c s' => if Ascii.eqb c sep then EmptyString else String c (split_head sep s')
  end.

End Py.
Export Py.

(* ===================================================================== *)
(** * model.py: driver check *)
(* ===================================================================== *)

Module Driver.
Section Validate.
Context `{PyFloat} `{!PyText}.

(** The text of the f-string raised for an old driver. *)
Definition unsupported_message (version : string) : string :=
  "MySQL driver " +:+ version +:+ " is unsupported. " +:+
  "Uninstall 'mysql-connector' and install 'mysql-connector-python>=8.0'.".

(** [ProductModel._validate_mysql_connector]; [version] is
    [getattr(mysql.connector, "__version__", "")]. *)
Definition _validate_mysql_connector (version : string) : result unit :=
  if String.eqb version "" then Ok tt
  else
    let major :=
      match int_of_str (split_head "." version) with
      | Some n => n
      | None => 0                      (* except ValueError: major = 0 *)
      end in
    if negb (Z.eqb major 0) && Z.ltb major 8
    then Raise (DatabaseError (unsupported_message version))
    else Ok tt.

End Validate.
End Driver.

(* ===================================================================== *)
(** * uipos.py: interpreting the payment terminal's response *)
(* ===================================================================== *)

Module Linkly.
Section Interpret.
Context `{PyFloat} `{!PyText}.

Definition no_response : string := "No response from Linkly.".
Definition declined : string := "Card payment declined.".
Definition unrecognized (text : string) : string :=
  "Unrecognized Linkly response: " +:+ text.

(** The [except json.JSONDecodeError] branch: keyword scan of the text. *)
Definition keyword_scan (text : string) : bool * option string :=
  let upper := str_upper text in
  if contains "APPROVED" upper || contains "SUCCESS" upper then (true, None)
  else if contains "DECLINED" upper || contains "FAILED" upper || contains "ERROR" upper
  then (false, Some text)
  else (false, Some (unrecognized text)).

(** The code after the [try]: [parsed] is what [json.loads] returned. *)
Definition interpret_parsed (parsed : pyval) : result (bool * option string) :=
  a <- py_get parsed "approved" ;;
  flag <- (if py_truthy a then Ok a else py_get parsed "success") ;;
  if py_truthy flag then Ok (true, None)
  else
    m <- py_get parsed "message" ;;
    reason <- (if py_truthy m then Ok m
               else r <- py_get parsed "responseText" ;;
                    Ok (py_or r (PStr declined))) ;;
    Ok (false, Some (py_str reason)).

(** [response.decode("utf-8", errors="replace").strip()]. *)
Definition response_text (response : string) : string :=
  str_strip (decode_utf8_replace response).

(** [_interpret_linkly_response]; the pair is [(approved, message)]. *)
Definition _interpret_linkly_response (response : string)
  : result (bool * option string) :=
  if String.eqb response "" then Ok (false, Some no_response)
  else
    let text := response_text response in
    match json_loads text with
    | Raise JSONDecodeError => Ok (keyword_scan text)
    | Raise e => Raise e
    | Ok parsed => interpret_parsed parsed
    end.

End Interpret.
End Linkly.

(* ===================================================================== *)
(** * model.py: product cache and product repository *)
(* ===================================================================== *)

Module Cache.
Section CacheDefs.
Context `{PyFloat} `{!PyText}.

(** [products_cache.json] as [load_cache] can observe it: absent; present
    but such that opening, decoding or [json.load] raises; or present and
    holding the JSON text of a value. *)
Inductive cache_file :=
| Missing
| Unparsable
| Stored (data : pyval).

(** [self.cache_path.exists()]. *)
Definition file_exists (f : cache_file) : bool :=
  match f with Missing => false | _ => true end.

(** [with self.cache_path.open("r") as f: data = json.load(f)]. *)
Definition json_load (f : cache_file) : result pyval :=
  match f with
  | Stored data => Ok data
  | Unparsable => Raise ValueError   (* JSONDecodeError, UnicodeDecodeError *)
  | Missing => Raise OSError         (* FileNotFoundError *)
  end.

(** [load_cache]: [except Exception] turns every failure of the [try] body
    into the empty list. *)
Definition load_cache (f : cache_file) : result (list pyval) :=
  if negb (file_exists f) then Ok []
  else
    match json_load f with
    | Ok (PList l) => Ok l            (* isinstance(data, list) *)
    | Ok _ => Ok []
    | Raise _ => Ok []                (* except Exception: return [] *)
    end.

(** What [with self.cache_path.open("w") as f: json.dump(products, f)]
    does to the file: the text of [products] is written; or [json.dump]
    raises after [open] has emptied the file ([TypeError] on a value it
    cannot serialise, such as a [Decimal] or a date of a column that
    [_normalize_product] leaves alone, or an [OSError] of the disk), which
    leaves an empty file or the beginning of the text; or [open] raises and
    the file is not touched. *)
Inductive write :=
| Written
| Truncated
| NotOpened.

(** [save_cache]; [dump products] tells what the write of [products] does.
    Whatever is raised is swallowed ([except Exception: pass]); text cut
    short is not JSON, since the closing bracket of the list comes last. *)
Definition save_cache (dump : list pyval -> write) (f : cache_file)
           (products : list pyval) : cache_file :=
  match dump products with
  | Written => Stored (PList products)
  | Truncated => Unparsable
  | NotOpened => f
  end.

(** The loop of [_find_in_cache_by_barcode]; [barcode] is a [str], so
    [str(barcode)] is [barcode]. *)
Fixpoint find_loop (barcode : string) (l : list pyval) : result (option pyval) :=
  match l with
  | [] => Ok None
  | product :: rest =>
      b <- py_get product "barcode" ;;
      if String.eqb (py_str b) barcode then Ok (Some product)
      else find_loop barcode rest
  end.

Definition _find_in_cache_by_barcode (f : cache_file) (barcode : string)
  : result (option pyval) :=
  if String.eqb barcode "" then Ok None          (* if not barcode *)
  else l <- load_cache f ;; find_loop barcode l.

(** The dict comprehension of [_merge_into_cache]:
    [{str(p.get("barcode")): p for p in load_cache() if p.get("barcode")}]. *)
Fixpoint build_cache (entries : list pyval) (acc : dict) : result dict :=
  match entries with
  | [] => Ok acc
  | p :: rest =>
      b <- py_get p "barcode" ;;
      if py_truthy b then build_cache rest (dict_set (py_str b) p acc)
      else build_cache rest acc
  end.

(** The [for product in products] loop of [_merge_into_cache]. *)
Fixpoint merge_products (products : list pyval) (acc : dict) : result dict :=
  match products with
  | [] => Ok acc
  | product :: rest =>
      b <- py_get product "barcode" ;;
      let barcode := py_str b in
      if negb (String.eqb barcode "")              (* if barcode *)
      then merge_products rest (dict_set barcode product acc)
      else merge_products rest acc
  end.

(** [_merge_into_cache]: returns the cache file after the call. *)
Definition _merge_into_cache (dump : list pyval -> write) (f : cache_file)
           (products : list pyval) : result cache_file :=
  match products with
  | [] => Ok f                                     (* if not products: return *)
  | _ =>
      entries <- load_cache f ;;
      cache <- build_cache entries [] ;;
      cache' <- merge_products products cache ;;
      Ok (save_cache dump f (dict_values cache'))
  end.

(** One key of [_normalize_product]:
    [if key in normalized and normalized[key] is not None:
       try: normalized[key] = float(normalized[key]) except Exception: pass]. *)
Definition normalize_key (d : dict) (key : string) : dict :=
  match dict_get d key with
  | None | Some PNone => d
  | Some v =>
      match py_float v with
      | Ok x => dict_set key (PFloat x) d
      | Raise _ => d
      end
  end.

(** [_normalize_product] on a row of a [dictionary=True] cursor. *)
Definition _normalize_product (row : dict) : dict :=
  match row with
  | [] => []                                        (* if not row: return {} *)
  | _ => fold_left normalize_key ["stock"; "cost_price"; "sell_price"; "gst_rate"] row
  end.

(** What the source of truth answers to
    [SELECT ... FROM products WHERE barcode = %s LIMIT 1]: a row, no row, or
    an error raised while connecting or executing. *)
Inductive db_answer :=
| Row (row : dict)
| NoRow
| QueryFails (e : exn).

(** The repository's surroundings: the cache file, the source of truth, the
    log of the barcodes queried against the source of truth, and what a
    write of the cache file does. *)
Record world := World {
  cache : cache_file;
  source : string -> db_answer;
  queries : list string;
  dump : list pyval -> write
}.

Definition log_query (w : world) (barcode : string) : world :=
  World (cache w) (source w) (queries w ++ [barcode]) (dump w).

Definition set_cache (w : world) (f : cache_file) : world :=
  World f (source w) (queries w) (dump w).

(** The part of [fetch_product_by_barcode] after the cache lookup. *)
Definition fetch_from_source (w : world) (barcode : string)
  : result (option pyval) * world :=
  let w1 := log_query w barcode in
  match source w barcode with
  | QueryFails e => (Raise e, w1)
  | NoRow => (Ok None, w1)
  | Row row =>
      match row with
      | [] => (Ok None, w1)                         (* ... if row else None *)
      | _ =>
          let product := PDict (_normalize_product row) in
          if py_truthy product then
            match _merge_into_cache (dump w1) (cache w1) [product] with
            | Ok f => (Ok (Some product), set_cache w1 f)
            | Raise e => (Raise e, w1)
            end
          else (Ok (Some product), w1)
      end
  end.

(** [fetch_product_by_barcode]: cache first, then the source of truth. *)
Definition fetch_product_by_barcode (w : world) (barcode : string)
  : result (option pyval) * world :=
  match _find_in_cache_by_barcode (cache w) barcode with
  | Raise e => (Raise e, w)
  | Ok None => fetch_from_source w barcode
  | Ok (Some cached) =>
      if py_truthy cached then (Ok (Some cached), w)  (* if cached: return cached *)
      else fetch_from_source w barcode
  end.

(** ** Vocabulary of the statements about the cache *)

(** The list [load_cache] returns. *)
Definition cache_entries (f : cache_file) : list pyval :=
  match f with
  | Stored (PList l) => l
  | _ => []
  end.

(** [p.get("barcode")] and [str(p.get("barcode"))] for an entry [p]. *)
Definition barcode_of (p : pyval) : pyval :=
  match p with
  | PDict d => default PNone (dict_get d "barcode")
  | _ => PNone
  end.
Definition key_of (p : pyval) : string := py_str (barcode_of p).

(** One round of each loop of [_merge_into_cache], on entries that are
    dicts. *)
Definition build_step (acc : dict) (p : pyval) : dict :=
  if py_truthy (barcode_of p) then dict_set (key_of p) p acc else acc.
Definition merge_step (acc : dict) (p : pyval) : dict :=
  if negb (String.eqb (key_of p) "") then dict_set (key_of p) p acc else acc.

(** The entries [_merge_into_cache] saves, from the entries loaded and the
    incoming products. *)
Definition merged (old products : list pyval) : list pyval :=
  dict_values (fold_left merge_step products (fold_left build_step old [])).

(** The last of [products] stored under key [k]. *)
Definition pick (k : string) (acc : option pyval) (p : pyval) : option pyval :=
  if negb (String.eqb (key_of p) "") && String.eqb (key_of p) k then Some p else acc.
Definition last_merged (products : list pyval) (k : string) : option pyval :=
  fold_left (pick k) products None.

Definition all_dicts (l : list pyval) : Prop := Forall (fun p => is_dict p = true) l.

(** The last of the entries [l] the dict comprehension stores under [k]. *)
Definition pick_built (k : string) (acc : option pyval) (p : pyval) : option pyval :=
  if py_truthy (barcode_of p) && String.eqb (key_of p) k then Some p else acc.
Definition last_built (l : list pyval) (k : string) : option pyval :=
  fold_left (pick_built k) l None.

(** A dictionary whose keys are distinct and are the keys of its values. *)
Definition well_keyed (c : dict) : Prop :=
  NoDup (map fst c) /\ Forall (fun kv => key_of (snd kv) = fst kv) c.

(** The barcode of every value is truthy. *)
Definition truthy_values (c : dict) : Prop :=
  Forall (fun kv => py_truthy (barcode_of (snd kv)) = true) c.

End CacheDefs.
End Cache.

(* ===================================================================== *)
(** * A pooled MySQL connection *)
(* ===================================================================== *)

Module Tx.
Section Connection.

(** [D]: the contents of the database; [S]: the statements the code sends;
    [run s d] is the effect of [s] on [d] and the number of affected rows
    ([cursor.rowcount]). *)
Variables D S : Type.
Variable run : S -> D -> D * nat.

(** Calls received by the connection and its cursor, oldest first. *)
Inductive call :=
| CConnect
| CBegin
| CExecute (s : S) (ok : bool)
| CCommit (ok : bool)
| CRollback
| CCursorClose
| CClose.

(** When the driver raises [mysql.connector.Error], with the text of the
    error: on acquiring a connection, on [start_transaction], on the [n]-th
    [execute] of a call (a constraint violation, a parameter that cannot be
    converted, a lost connection, ...), on [commit]. *)
Record faults := Faults {
  connect_fault : option string;
  begin_fault : option string;
  execute_fault : nat -> option string;
  commit_fault : option string
}.

(** The connection: the committed contents (what every other session
    sees), the contents inside the open transaction if there is one, the
    number of [execute] calls so far, [cursor.rowcount], and the call log. *)
Record conn := Conn {
  committed : D;
  pending : option D;
  executed : nat;
  rowcount : nat;
  calls : list call
}.

(** An idle pooled connection over contents [d]. *)
Definition idle (d : D) : conn := Conn d None 0 0 [].

Definition logged (c : conn) (x : call) : list call := calls c ++ [x].

(** Code running against the connection: state passing with exceptions. *)
Definition prog (A : Type) : Type := conn -> result A * conn.

Definition ret {A} (a : A) : prog A := fun c => (Ok a, c).
Definition raise {A} (e : exn) : prog A := fun c => (Raise e, c).
Definition lift {A} (r : result A) : prog A := fun c => (r, c).

Definition pbind {A B} (m : prog A) (k : A -> prog B) : prog B :=
  fun c =>
    match m c with
    | (Ok a, c') => k a c'
    | (Raise e, c') => (Raise e, c')
    end.

(** [try: body  except <handler>]; the handler re-raises what it does not
    catch. *)
Definition try_except {A} (body : prog A) (handler : exn -> prog A) : prog A :=
  fun c =>
    match body c with
    | (Ok a, c') => (Ok a, c')
    | (Raise e, c') => handler e c'
    end.

(** [try: body  finally: cleanup]. *)
Definition try_finally {A} (body : prog A) (cleanup : prog unit) : prog A :=
  fun c =>
    match body c with
    | (r, c') => (r, snd (cleanup c'))
    end.

Variable fl : faults.

(** [self._pool_connect()] / [self._staff_pool_connect()]: driver errors are
    re-raised as [DatabaseError]. *)
Definition pool_connect : prog unit :=
  fun c =>
    match connect_fault fl with
    | Some msg => (Raise (DatabaseError msg), c)
    | None => (Ok tt, Conn (committed c) (pending c) (executed c) (rowcount c)
                           (logged c CConnect))
    end.

(** [conn.start_transaction()]. *)
Definition start_transaction : prog unit :=
  fun c =>
    match begin_fault fl with
    | Some msg => (Raise (MySQLError msg), c)
    | None => (Ok tt, Conn (committed c) (Some (committed c)) (executed c) (rowcount c)
                           (logged c CBegin))
    end.

(** [cur.execute(sql, params)].  Inside a transaction the statement acts on
    the pending contents; outside (the pools are created with
    [autocommit=True]) it acts on the committed contents at once.  A failed
    statement changes no contents. *)
Definition execute (s : S) : prog unit :=
  fun c =>
    match execute_fault fl (executed c) with
    | Some msg =>
        (Raise (MySQLError msg),
         Conn (committed c) (pending c) (Datatypes.S (executed c)) (rowcount c)
              (logged c (CExecute s false)))
    | None =>
        match pending c with
        | Some d =>
            let '(d', n) := run s d in
            (Ok tt, Conn (committed c) (Some d') (Datatypes.S (executed c)) n
                         (logged c (CExecute s true)))
        | None =>
            let '(d', n) := run s (committed c) in
            (Ok tt, Conn d' None (Datatypes.S (executed c)) n
                         (logged c (CExecute s true)))
        end
    end.

(** [conn.commit()]. *)
Definition commit : prog unit :=
  fun c =>
    match commit_fault fl with
    | Some msg =>
        (Raise (MySQLError msg),
         Conn (committed c) (pending c) (executed c) (rowcount c) (logged c (CCommit false)))
    | None =>
        (Ok tt, Conn (default (committed c) (pending c)) None (executed c) (rowcount c)
                     (logged c (CCommit true)))
    end.

(** [conn.rollback()]. *)
Definition rollback : prog unit :=
  fun c => (Ok tt, Conn (committed c) None (executed c) (rowcount c) (logged c CRollback)).

(** [cur.close()]. *)
Definition cursor_close : prog unit :=
  fun c => (Ok tt, Conn (committed c) (pending c) (executed c) (rowcount c)
                        (logged c CCursorClose)).

(** [conn.close()] on a pooled connection: the session is reset and handed
    back to the pool; an open transaction is discarded. *)
Definition close : prog unit :=
  fun c => (Ok tt, Conn (committed c) None (executed c) (rowcount c) (logged c CClose)).

(** The handler shared by [record_sale], [clock_in] and [clock_out]:
    [except mysql.connector.Error as exc:
       conn.rollback(); raise DatabaseError(str(exc)) from exc]. *)
Definition on_mysql_error {A} (e : exn) : prog A :=
  match e with
  | MySQLError msg => pbind rollback (fun _ => raise (DatabaseError msg))
  | _ => raise e
  end.

(** ** Vocabulary of the statements about transactions *)

(** The contents after a list of statements. *)
Definition run_all (stmts : list S) (d : D) : D :=
  fold_left (fun d s => fst (run s d)) stmts d.

(** [execute] on each statement of a list, in order. *)
Fixpoint execute_all (stmts : list S) : prog unit :=
  match stmts with
  | [] => ret tt
  | s :: rest => pbind (execute s) (fun _ => execute_all rest)
  end.

(** The log entries of statements that all succeed. *)
Definition ok_calls (stmts : list S) : list call :=
  map (fun s => CExecute s true) stmts.

(** The frame shared by [record_sale], [clock_in] and [clock_out]: take a
    connection, open a transaction, run [body] under the handler, close the
    cursor and the connection. *)
Definition transaction {A} (body : prog A) : prog A :=
  pbind pool_connect (fun _ =>
  pbind start_transaction (fun _ =>
  try_finally (try_except body on_mysql_error)
              (pbind cursor_close (fun _ => close)))).

(** The connection as [body] finds it. *)
Definition opened (d : D) : conn := Conn d (Some d) 0 0 [CConnect; CBegin].

(** How often the log records a successful commit, and a rollback. *)
Definition is_commit (x : call) : bool :=
  match x with CCommit true => true | _ => false end.
Definition is_rollback (x : call) : bool :=
  match x with CRollback => true | _ => false end.
Definition count_commits (l : list call) : nat :=
  length (filter (fun x => is_commit x = true) l).
Definition count_rollbacks (l : list call) : nat :=
  length (filter (fun x => is_rollback x = true) l).
Definition commits (c : conn) : nat := count_commits (calls c).
Definition rollbacks (c : conn) : nat := count_rollbacks (calls c).

End Connection.

Arguments CConnect {S}.
Arguments CBegin {S}.
Arguments CExecute {S} s ok.
Arguments CCommit {S} ok.
Arguments CRollback {S}.
Arguments CCursorClose {S}.
Arguments CClose {S}.
Arguments Conn {D S}.
Arguments committed {D S}.
Arguments pending {D S}.
Arguments executed {D S}.
Arguments rowcount {D S}.
Arguments calls {D S}.
Arguments idle {D S}.
Arguments ret {D S A}.
Arguments raise {D S A}.
Arguments lift {D S A}.
Arguments pbind {D S A B}.
Arguments try_except {D S A}.
Arguments try_finally {D S A}.
Arguments pool_connect {D S}.
Arguments start_transaction {D S}.
Arguments execute {D S}.
Arguments commit {D S}.
Arguments rollback {D S}.
Arguments cursor_close {D S}.
Arguments close {D S}.
Arguments on_mysql_error {D S A}.
Arguments logged {D S}.
Arguments is_commit {S}.
Arguments is_rollback {S}.
Arguments run_all {D S}.
Arguments ok_calls {S}.
Arguments transaction {D S} fl {A}.
Arguments opened {D S}.
Arguments count_commits {S}.
Arguments count_rollbacks {S}.
Arguments execute_all {D S}.
Arguments commits {D S}.
Arguments rollbacks {D S}.

Declare Scope tx_scope.
Notation "x <- m ;; k" := (pbind m (fun x => k))
  (at level 100, m at next level, right associativity) : tx_scope.
Notation "m ;;; k" := (pbind m (fun _ => k))
  (at level 100, right associativity) : tx_scope.
Delimit Scope tx_scope with tx.

End Tx.

(* ===================================================================== *)
(** * model.py / uipos.py: recording a sale *)
(* ===================================================================== *)

Module Sale.
Import Tx.
Section SaleDefs.
Context `{PyFloat} `{!PyText}.

(** A row of [products]; [record_sale] reads and writes [id] and [stock]
    only, the other columns are left out. *)
Record product_row := ProductRow {
  prod_id : Z;
  stock : flt
}.

(** A row of [sales], with the values as the driver received them. *)
Record sale_row := SaleRow {
  sale_id : Z;
  sale_prod_id : pyval;
  method_type : string;
  amount : pyval;
  qty : pyval
}.

Record db := Db {
  products : list product_row;
  sales : list sale_row
}.

(** The two statements of [record_sale]. *)
Inductive stmt :=
| InsertSale (r : sale_row)
| UpdateStock (x : flt) (id : pyval).

(** The comparison MySQL makes in [WHERE id = %s] between the parameter and
    the [id] column of a row. *)
Variable id_eq : pyval -> Z -> bool.

(** SQL [GREATEST(a, b)]. *)
Definition greatest (a b : flt) : flt := if fleb a b then b else a.

(** [SET stock = GREATEST(0, stock - x)] on one row. *)
Definition decrement (x : flt) (r : product_row) : product_row :=
  ProductRow (prod_id r) (greatest fzero (fsub (stock r) x)).

(** [UPDATE products SET stock = GREATEST(0, stock - x) WHERE id = id]. *)
Definition update_stock (x : flt) (id : pyval) (ps : list product_row)
  : list product_row :=
  map (fun r => if id_eq id (prod_id r) then decrement x r else r) ps.

Definition run (s : stmt) (d : db) : db * nat :=
  match s with
  | InsertSale r => (Db (products d) (sales d ++ [r]), 1%nat)
  | UpdateStock x id =>
      (Db (update_stock x id (products d)) (sales d),
       length (filter (fun r => id_eq id (prod_id r) = true) (products d)))
  end.

(** What [record_sale] takes from outside: the driver's faults, and the
    clock and random draws [_generate_id] reads for the [i]-th item. *)
Record env := Env {
  db_faults : faults;
  time_ms : nat -> Z;
  randint : nat -> Z
}.

(** [_generate_id]: [int(time.time() * 1000) + random.randint(1, 999)]. *)
Definition _generate_id (e : env) (i : nat) : Z := time_ms e i + randint e i.

Definition sale_prog := prog db stmt.

Open Scope tx_scope.

(** The row [record_sale] inserts for [item]. *)
Definition sale_row_of (e : env) (method : string) (i : nat) (item : pyval)
  : result sale_row :=
  (pid <- py_get item "id" ;;
   a <- py_get_default item "amount" (PFloat fzero) ;;
   q <- py_get_default item "qty" (PFloat fzero) ;;
   Ok (SaleRow (_generate_id e i) pid method a q))%py.

(** The parameters of the stock update for [item]:
    [qty * deduct_unit] and [item.get("id")]. *)
Definition stock_update_of (item : pyval) : result stmt :=
  (du <- py_get item "deduct_unit" ;;
   deduct_unit <- py_float (py_or du (PFloat fone)) ;;
   q <- py_get item "qty" ;;
   qty <- py_float (py_or q (PFloat fzero)) ;;
   pid <- py_get item "id" ;;
   Ok (UpdateStock (fmul qty deduct_unit) pid))%py.

(** The body of the [for item in items] loop, for the [i]-th item. *)
Definition sale_item (e : env) (method : string) (i : nat) (item : pyval)
  : sale_prog unit :=
  r <- lift (sale_row_of e method i item) ;;
  execute run (db_faults e) (InsertSale r) ;;;
  u <- lift (stock_update_of item) ;;
  execute run (db_faults e) u.

Fixpoint sale_loop (e : env) (method : string) (i : nat) (items : list pyval)
  : sale_prog unit :=
  match items with
  | [] => ret tt
  | item :: rest => sale_item e method i item ;;; sale_loop e method (S i) rest
  end.

(** [record_sale(items, method)]. *)
Definition record_sale (e : env) (items : list pyval) (method : string)
  : sale_prog bool :=
  match items with
  | [] => ret false                                   (* if not items: return False *)
  | _ =>
      pool_connect (db_faults e) ;;;
      start_transaction (db_faults e) ;;;
      try_finally
        (try_except
           (sale_loop e method 0 items ;;;
            commit (db_faults e) ;;;
            ret true)
           on_mysql_error)
        (cursor_close ;;; close)
  end.

(** ** Vocabulary of the statements about [record_sale] *)

(** The statements [record_sale] sends for [items] when no conversion of an
    item raises: an insert and a stock update per item, in input order. *)
Fixpoint planned (e : env) (method : string) (i : nat) (items : list pyval)
  : result (list stmt) :=
  match items with
  | [] => Ok []
  | item :: rest =>
      (r <- sale_row_of e method i item ;;
       u <- stock_update_of item ;;
       l <- planned e method (S i) rest ;;
       Ok (InsertSale r :: u :: l))%py
  end.

(** The rows a list of statements inserts, and the stock updates it makes. *)
Definition inserted_rows (stmts : list stmt) : list sale_row :=
  flat_map (fun s => match s with InsertSale r => [r] | _ => [] end) stmts.
Definition stock_updates (stmts : list stmt) : list (flt * pyval) :=
  flat_map (fun s => match s with UpdateStock x id => [(x, id)] | _ => [] end) stmts.

(** An item [record_sale] can use: an object, whose [deduct_unit] (or 1.0)
    and whose [qty] (or 0.0) [float] accepts. *)
Definition usable (item : pyval) : bool :=
  match item with
  | PDict d =>
      is_ok (py_float (py_or (default PNone (dict_get d "deduct_unit")) (PFloat fone))) &&
      is_ok (py_float (py_or (default PNone (dict_get d "qty")) (PFloat fzero)))
  | _ => false
  end.

(** The stock asked for after a decrement by [x]: [max(0, s - x)]. *)
Definition floored_sub (s x : flt) : flt :=
  if fleb fzero (fsub s x) then fsub s x else fzero.

(** The stock asked for in the row of id [pid], from the stock [s] it had,
    after the decrements [updates] (amount and id parameter), applied in
    order, each to the rows its parameter matches. *)
Definition stock_after (updates : list (flt * pyval)) (pid : Z) (s : flt) : flt :=
  fold_left (fun s u => if id_eq (snd u) pid then floored_sub s (fst u) else s)
            updates s.

(** The products table asked for after the decrements [updates]. *)
Definition products_after (updates : list (flt * pyval)) (ps : list product_row)
  : list product_row :=
  map (fun p => ProductRow (prod_id p) (stock_after updates (prod_id p) (stock p))) ps.

(** ** The cart ([uipos.py]) *)

(** A row of the cart table: the text of the items in columns 0, 1 and 2
    ([None] when [table.item(row, col)] is [None]). *)
Record cart_row := CartRow {
  desc_item : option string;
  qty_item : option string;
  price_item : option string
}.

(** [_safe_float]. *)
Definition _safe_float (value : string) : flt :=
  default fzero (float_of_str value).

Definition cell_float (cell : option string) : flt :=
  match cell with
  | Some text => _safe_float text
  | None => fzero
  end.

(** The dict appended for one row with a description. *)
Definition cart_item (row_products : gmap nat pyval) (row : nat) (r : cart_row)
  : result pyval :=
  let qty := cell_float (qty_item r) in
  let price := cell_float (price_item r) in
  let amount := fmul qty price in
  let product := default (PDict []) (row_products !! row) in
  (pid <- py_get product "id" ;;
   name <- py_get product "name" ;;
   barcode <- py_get product "barcode" ;;
   du <- py_get product "deduct_unit" ;;
   Ok (PDict [("id", pid); ("name", name); ("barcode", barcode);
              ("qty", PFloat qty); ("price", PFloat price);
              ("amount", PFloat amount);
              ("deduct_unit", py_or du (PFloat fone))]))%py.

Definition has_description (r : cart_row) : bool :=
  match desc_item r with
  | Some text => negb (String.eqb (str_strip text) "")
  | None => false
  end.

Fixpoint collect_rows (row_products : gmap nat pyval) (row : nat) (rows : list cart_row)
  : result (list pyval) :=
  match rows with
  | [] => Ok []
  | r :: rest =>
      if has_description r then
        (item <- cart_item row_products row r ;;
         items <- collect_rows row_products (S row) rest ;;
         Ok (item :: items))%py
      else collect_rows row_products (S row) rest
  end.

(** [_collect_cart_items]: [table] is the cart table, row 0 first. *)
Definition _collect_cart_items (table : list cart_row) (row_products : gmap nat pyval)
  : result (list pyval) :=
  collect_rows row_products 0 table.

End SaleDefs.
End Sale.

(* ===================================================================== *)
(** * model.py: attendance *)
(* ===================================================================== *)

Module Attendance.
Import Tx.

(** A row of [attendance] (columns read or written by the attendance
    queries; times and dates as numbers of seconds and days). *)
Record attendance_row := AttendanceRow {
  att_id : Z;
  staff_id : Z;
  att_date : Z;
  time_in : Z;
  time_out : option Z
}.

Abbreviation db := (list attendance_row).

(** [UPDATE attendance SET time_out = CURTIME() WHERE id = %s], with the
    value [CURTIME()] has when the statement runs. *)
Inductive stmt :=
| SetTimeOut (now : Z) (id : Z).

Definition set_time_out (now : Z) (r : attendance_row) : attendance_row :=
  AttendanceRow (att_id r) (staff_id r) (att_date r) (time_in r) (Some now).

(** The rows the statement changes: MySQL counts as affected the rows whose
    content changes. *)
Definition affected (now id : Z) (r : attendance_row) : bool :=
  Z.eqb (att_id r) id && negb (bool_decide (time_out r = Some now)).

Definition run (s : stmt) (d : db) : db * nat :=
  match s with
  | SetTimeOut now id =>
      (map (fun r => if Z.eqb (att_id r) id then set_time_out now r else r) d,
       length (filter (fun r => affected now id r = true) d))
  end.

(** The number of rows the update of [clock_out] affects. *)
Definition rows_affected (now id : Z) (d : db) : nat :=
  length (filter (fun r => affected now id r = true) d).

(** The driver's faults and the server's clock. *)
Record env := Env {
  db_faults : faults;
  curtime : Z
}.

(** The row [r] with its time-out at [now], as the claim asks for it. *)
Definition clocked_out (now : Z) (r : attendance_row) : attendance_row :=
  {| att_id := att_id r; staff_id := staff_id r; att_date := att_date r;
     time_in := time_in r; time_out := Some now |}.

(** The rows with the given id whose time-out is not [now] already: those
    an update of the time-out to [now] changes. *)
Definition changed_rows (now id : Z) (d : db) : list attendance_row :=
  filter (fun r => att_id r = id /\ time_out r <> Some now) d.

Open Scope tx_scope.

(** [clock_out(attendance_id)]. *)
Definition clock_out (e : env) (attendance_id : Z) : prog db stmt bool :=
  pool_connect (db_faults e) ;;;
  start_transaction (db_faults e) ;;;
  try_finally
    (try_except
       (execute run (db_faults e) (SetTimeOut (curtime e) attendance_id) ;;;
        commit (db_faults e) ;;;
        (fun c => (Ok (0 <? rowcount c)%nat, c)))     (* return cur.rowcount > 0 *)
       on_mysql_error)
    (cursor_close ;;; close).

End Attendance.

(* ===================================================================== *)
(** * More of the Python runtime *)
(* ===================================================================== *)

Module PyMore.

(** Float operations beyond those of [PyFloat]: [x + y], [x / y] ([None]
    standing for ZeroDivisionError), [x < y], the literal [1e-6],
    [cents x] for [int(round(x * 100))], which raises on a NaN and on an
    infinity, and [format_2f x] for [f"{x:.2f}"]. *)
Class PyFloatOps `{PyFloat} := {
  fadd : flt -> flt -> flt;
  fdiv : flt -> flt -> option flt;
  fltb : flt -> flt -> bool;
  f_1e_6 : flt;
  cents : flt -> result Z;
  format_2f : flt -> string
}.

(** Text services beyond those of [PyText]: [str.lower], [bytes.strip] and
    [json.dumps] with its default arguments. *)
Class PyTextOps `{PyFloat} := {
  str_lower : string -> string;
  bytes_strip : string -> string;
  json_dumps : pyval -> string
}.

End PyMore.
Export PyMore.

(* ===================================================================== *)
(** * model.py: the rest of the product repository *)
(* ===================================================================== *)

Module Repository.
Import Cache.
Section RepositoryDefs.
Context `{PyFloat} `{!PyText} `{!PyTextOps}.

(** [get_cached_product]. *)
Definition get_cached_product (f : cache_file) (barcode : string)
  : result (option pyval) :=
  _find_in_cache_by_barcode f barcode.

(** The test [search_cache] makes on one entry:
    [query_lower in name or query_lower in barcode]. *)
Definition matches (query_lower : string) (product : pyval) : result bool :=
  n <- py_get_default product "name" (PStr "") ;;
  b <- py_get_default product "barcode" (PStr "") ;;
  let name := str_lower (py_str n) in
  let barcode := str_lower (py_str b) in
  Ok (contains query_lower name || contains query_lower barcode).

(** The loop of [search_cache]; the length test follows the append, so the
    loop stops after the entry that fills [results]. *)
Fixpoint search_loop (query_lower : string) (limit : Z) (l results : list pyval)
  : result (list pyval) :=
  match l with
  | [] => Ok results
  | product :: rest =>
      m <- matches query_lower product ;;
      let results' := if m then (results ++ [product])%list else results in
      if Z.leb limit (Z.of_nat (length results')) then Ok results'   (* break *)
      else search_loop query_lower limit rest results'
  end.

(** [search_cache(query, limit)]. *)
Definition search_cache (f : cache_file) (query : string) (limit : Z)
  : result (list pyval) :=
  if String.eqb query "" then Ok []                  (* if not query *)
  else l <- load_cache f ;; search_loop (str_lower query) limit l [].

(** The two SELECT statements of [search_products] and [fetch_all_products],
    with their parameters. *)
Inductive select :=
| SelectLike (like : string) (limit : Z)
| SelectAll.

(** The repository's surroundings: the cache file, what the products table
    answers to a SELECT through [self._cursor()] (the rows, or the error
    raised while connecting or executing), the log of the statements sent,
    and what a write of the cache file does. *)
Record store := Store {
  file : cache_file;
  rows_of : select -> result (list dict);
  selects : list select;
  dump_of : list pyval -> write
}.

Definition log_select (s : store) (q : select) : store :=
  Store (file s) (rows_of s) (selects s ++ [q]) (dump_of s).

Definition set_file (s : store) (f : cache_file) : store :=
  Store f (rows_of s) (selects s) (dump_of s).

(** [[self._normalize_product(row) for row in rows]]. *)
Definition normalize_rows (rows : list dict) : list pyval :=
  map (fun row => PDict (_normalize_product row)) rows.

(** [fetch_all_products]. *)
Definition fetch_all_products (s : store) : result (list pyval) * store :=
  let s1 := log_select s SelectAll in
  match rows_of s SelectAll with
  | Raise e => (Raise e, s1)
  | Ok rows => (Ok (normalize_rows rows), s1)
  end.

(** [prime_cache(force_refresh)]. *)
Definition prime_cache (s : store) (force_refresh : bool)
  : result (list pyval) * store :=
  if file_exists (file s) && negb force_refresh then (load_cache (file s), s)
  else
    match fetch_all_products s with
    | (Raise e, s1) => (Raise e, s1)
    | (Ok products, s1) =>
        (Ok products, set_file s1 (save_cache (dump_of s1) (file s1) products))
    end.


(** [search_products(query, limit)]: cache first, then the table. *)
Definition search_products (s : store) (query : string) (limit : Z)
  : result (list pyval) * store :=
  let query := str_strip query in
  match search_cache (file s) query limit with
  | Raise e => (Raise e, s)
  | Ok (p :: ps) => (Ok (p :: ps), s)               (* if cached_results *)
  | Ok [] =>
      let like := "%" +:+ query +:+ "%" in
      let s1 := log_select s (SelectLike like limit) in
      match rows_of s (SelectLike like limit) with
      | Raise e => (Raise e, s1)
      | Ok rows =>
          match normalize_rows rows with
          | [] => (Ok [], s1)
          | products =>                                (* if products *)
              match _merge_into_cache (dump_of s1) (file s1) products with
              | Ok f => (Ok products, set_file s1 f)
              | Raise e => (Raise e, s1)
              end
          end
      end
  end.

(** ** Vocabulary of the statements about the repository *)

(** The entry passes the test of [search_cache]. *)
Definition hit (query_lower : string) (product : pyval) : bool :=
  match matches query_lower product with
  | Ok b => b
  | Raise _ => false
  end.

(** The keys [_normalize_product] converts. *)
Definition numeric_keys : list string :=
  ["stock"; "cost_price"; "sell_price"; "gst_rate"].

Definition is_numeric_key (k : string) : bool :=
  existsb (String.eqb k) numeric_keys.

(** What [_normalize_product] leaves under a key it converts. *)
Definition normalized_value (v : pyval) : pyval :=
  match v with
  | PNone => PNone
  | _ => match py_float v with Ok x => PFloat x | Raise _ => v end
  end.

End RepositoryDefs.
End Repository.

(* ===================================================================== *)
(** * model.py: clocking in, and the attendance of the day *)
(* ===================================================================== *)

Module Staff.
Import Tx Attendance.
Section StaffDefs.
Context `{PyFloat} `{!PyTextOps}.

(** A row of [attendance] with all the columns [clock_in] writes: those of
    [attendance_row], and [paid], [salary] and [job]. *)
Record shift := Shift {
  core : attendance_row;
  paid : Z;
  salary : flt;
  job : string
}.

(** [INSERT INTO attendance (staff_id, time_in, date, paid, salary, job)
     VALUES (%s, CURTIME(), CURDATE(), 0, %s, %s)], with the values
    [CURTIME()] and [CURDATE()] have when the statement runs. *)
Inductive stmt :=
| InsertShift (staff : Z) (now today : Z) (salary : flt) (job : string).

(** The effect of the insert; [id] is the value the server gives the [id]
    column of the new row (the column is AUTO_INCREMENT), [time_out] is
    left NULL. *)
Definition run (id : Z) (s : stmt) (d : list shift) : list shift * nat :=
  match s with
  | InsertShift staff now today salary job =>
      ((d ++ [Shift (AttendanceRow id staff today now None) 0 salary job])%list, 1%nat)
  end.

(** The driver's faults, the server's clock and calendar, and the id the
    server assigns to the next row of [attendance] ([cursor.lastrowid]
    after the insert). *)
Record env := Env {
  db_faults : faults;
  curtime : Z;
  curdate : Z;
  new_id : Z
}.

Open Scope tx_scope.

(** [clock_in(staff_id, role, salary)]. *)
Definition clock_in (e : env) (staff : Z) (role : string) (salary : flt)
  : prog (list shift) stmt Z :=
  let job_json := json_dumps (PDict [("role", PStr role)]) in
  pool_connect (db_faults e) ;;;
  start_transaction (db_faults e) ;;;
  try_finally
    (try_except
       (execute (run (new_id e)) (db_faults e)
                (InsertShift staff (curtime e) (curdate e) salary job_json) ;;;
        let attendance_id := new_id e in               (* cur.lastrowid *)
        commit (db_faults e) ;;;
        ret attendance_id)
       on_mysql_error)
    (cursor_close ;;; close).

Close Scope tx_scope.

(** [WHERE staff_id = %s AND date = CURDATE()]. *)
Definition of_today (today staff : Z) (r : shift) : bool :=
  Z.eqb (staff_id (core r)) staff && Z.eqb (att_date (core r)) today.

(** [ORDER BY id DESC LIMIT 1]: the row of greatest id. *)
Definition latest (best : option shift) (r : shift) : option shift :=
  match best with
  | None => Some r
  | Some b => if Z.ltb (att_id (core b)) (att_id (core r)) then Some r else Some b
  end.

Definition select_today (today staff : Z) (d : list shift) : option shift :=
  fold_left latest (filter (fun r => of_today today staff r = true) d) None.

(** [get_today_attendance(staff_id)], through [self._staff_cursor()]: a
    failure to connect is raised as [DatabaseError], a failure of the query
    as the driver raised it. *)
Definition get_today_attendance (e : env) (staff : Z) (d : list shift)
  : result (option shift) :=
  match connect_fault (db_faults e) with
  | Some msg => Raise (DatabaseError msg)
  | None =>
      match execute_fault (db_faults e) 0 with
      | Some msg => Raise (MySQLError msg)
      | None => Ok (select_today (curdate e) staff d)
      end
  end.

(** The environment of a later [clock_out] on the same server. *)
Definition clock_out_env (e : env) : Attendance.env :=
  Attendance.Env (db_faults e) (curtime e).

End StaffDefs.
End Staff.

(* ===================================================================== *)
(** * uipos.py: the cart *)
(* ===================================================================== *)

Module Cart.
Import Sale.
Section CartDefs.
Context `{PyFloat} `{!PyText} `{!PyFloatOps}.

(** [_cart_is_empty]: no row of the table has a description. *)
Fixpoint _cart_is_empty (table : list cart_row) : bool :=
  match table with
  | [] => true
  | r :: rest => if has_description r then false else _cart_is_empty rest
  end.

(** The loop of [_find_empty_row], from row [row] on. *)
Fixpoint find_empty_from (row : nat) (rows : list cart_row) : option nat :=
  match rows with
  | [] => None
  | r :: rest => if has_description r then find_empty_from (S row) rest else Some row
  end.

(** [_find_empty_row]. *)
Definition _find_empty_row (table : list cart_row) : option nat :=
  find_empty_from 0 table.

(** The cart: the table (its columns 0, 1 and 2; the amount column is
    written and never read by the functions modelled here) and
    [self.row_products]. *)
Record cart := Cart {
  table : list cart_row;
  row_products : gmap nat pyval
}.

(** A row whose cells hold the empty text. *)
Definition blank_row : cart_row := CartRow (Some "") (Some "") (Some "").

(** [_clear_row(row)]: every cell of the row is set to the empty text and
    the product of the row is forgotten; [setItem] does nothing on a row
    the table does not have. *)
Definition _clear_row (c : cart) (row : nat) : cart :=
  Cart (<[row := blank_row]> (table c)) (delete row (row_products c)).

(** [void_selected_item]; [current_row] is [self.table.currentRow()], which
    is [-1] when no row is selected. *)
Definition void_selected_item (c : cart) (current_row : Z) : cart :=
  if Z.ltb current_row 0 then c
  else _clear_row c (Z.to_nat current_row).

(** [void_all_items]. *)
Definition void_all_items (c : cart) : cart :=
  fold_left _clear_row (seq 0 (length (table c))) c.

(** The [try] block of [_has_sufficient_stock]: [stock_val / deduct_val],
    or [None] when [float] or the division raises. *)
Definition available_units (stock deduct_unit : pyval) : option flt :=
  match py_float stock, py_float deduct_unit with
  | Ok stock_val, Ok d =>
      let deduct_val := if negb (f_is_zero d) then d else fone in
      fdiv stock_val deduct_val
  | _, _ => None
  end.

(** [_has_sufficient_stock(product, qty)]. *)
Definition _has_sufficient_stock (product : pyval) (qty : flt) : result bool :=
  if negb (py_truthy product) then Ok true                   (* if not product *)
  else
    stock <- py_get product "stock" ;;
    du <- py_get product "deduct_unit" ;;
    let deduct_unit := py_or du (PFloat fone) in
    match stock with
    | PNone => Ok true                                       (* if stock is None *)
    | _ =>
        match available_units stock deduct_unit with
        | None => Ok true                                    (* except Exception *)
        | Some a => Ok (fleb qty (fadd a f_1e_6))
        end
    end.

(** [_can_use_qty(product, qty)]; [override] is the answer to the question
    "Insufficient stock" ([True] for Yes), asked only when the stock does
    not suffice. *)
Definition _can_use_qty (product : pyval) (qty : flt) (override : bool) : result bool :=
  sufficient <- _has_sufficient_stock product qty ;;
  if sufficient then Ok true
  else
    _ <- py_get_default product "name" (PStr "Item") ;;
    Ok override.

(** ** Vocabulary of the statements about the cart *)

(** The rows of the table that have a description. *)
Definition described (table : list cart_row) : list cart_row :=
  filter (fun r => has_description r = true) table.

(** Every product of the cart is an object. *)
Definition products_are_dicts (row_products : gmap nat pyval) : Prop :=
  forall row p, row_products !! row = Some p -> is_dict p = true.

End CartDefs.
End Cart.

(* ===================================================================== *)
(** * uipos.py: the keypad *)
(* ===================================================================== *)

Module Keypad.

(** [self.pad_mode] and [self.pad_buffer]. *)
Record pad := Pad {
  pad_mode : option string;
  pad_buffer : string
}.

(** The keypad as [__init__] leaves it. *)
Definition initial : pad := Pad None "".

(** [_pad_set_mode(mode)]. *)
Definition _pad_set_mode (mode : string) (p : pad) : pad := Pad (Some mode) "".

(** [_pad_append(char)]. *)
Definition _pad_append (char : string) (p : pad) : pad :=
  Pad (pad_mode p) (pad_buffer p +:+ char).

(** [_pad_toggle_sign]. *)
Definition _pad_toggle_sign (p : pad) : pad :=
  match pad_buffer p with
  | String c rest =>
      if Ascii.eqb c "-"
      then Pad (pad_mode p) rest                       (* startswith("-"): buffer[1:] *)
      else Pad (pad_mode p) ("-" +:+ pad_buffer p)     (* elif self.pad_buffer *)
  | EmptyString => p
  end.

(** [_pad_clear]. *)
Definition _pad_clear (p : pad) : pad := Pad None "".

(** What [_pad_apply] does to the keypad; [current_row] is
    [self.table.currentRow()].  The three refusals leave the keypad as it
    is; otherwise the buffer is emptied, whether the value was applied or
    the quantity refused. *)
Definition _pad_apply (current_row : Z) (p : pad) : pad :=
  match pad_mode p with
  | None => p                                          (* if not self.pad_mode *)
  | Some mode =>
      if String.eqb mode "" then p
      else if String.eqb (pad_buffer p) "" then p      (* if not self.pad_buffer *)
      else if Z.ltb current_row 0 then p               (* if row < 0 *)
      else Pad (pad_mode p) ""
  end.

(** The buttons [_build_keypad] wires to the keypad state. *)
Inductive key :=
| KText (text : string)
| KSign
| KClear
| KQty
| KPrice
| KEnter (current_row : Z).

(** The texts of the buttons wired to [_pad_append]. *)
Definition number_texts : list string :=
  ["1"; "2"; "3"; "4"; "5"; "6"; "7"; "8"; "9"; "0"; "."].

Definition press (p : pad) (k : key) : pad :=
  match k with
  | KText text => _pad_append text p
  | KSign => _pad_toggle_sign p
  | KClear => _pad_clear p
  | KQty => _pad_set_mode "qty" p
  | KPrice => _pad_set_mode "price" p
  | KEnter row => _pad_apply row p
  end.

(** ** Vocabulary of the statements about the keypad *)

(** A key the window has. *)
Definition wired (k : key) : Prop :=
  match k with
  | KText text => In text number_texts
  | _ => True
  end.

(** Digits and points only. *)
Fixpoint plain (b : string) : bool :=
  match b with
  | EmptyString => true
  | String c rest => existsb (String.eqb (String c EmptyString)) number_texts && plain rest
  end.

(** Digits and points, after one minus sign at most, which does not stand
    alone. *)
Definition signed_number_text (b : string) : bool :=
  match b with
  | String c rest =>
      if Ascii.eqb c "-" then negb (String.eqb rest "") && plain rest else plain b
  | EmptyString => true
  end.

End Keypad.

(* ===================================================================== *)
(** * uipos.py: talking to the payment terminal *)
(* ===================================================================== *)

Module Terminal.
Import Linkly Sale Cart.
Section TerminalDefs.
Context `{PyFloat} `{!PyText} `{!PyFloatOps} `{!PyTextOps}.

(** The byte [\n]. *)
Definition newline : string := String (ascii_of_nat 10) EmptyString.

(** What a call of [sock.recv(4096)] does: it raises [socket.timeout], it
    returns bytes (none when the peer has closed the connection), or it
    raises another [OSError], with the given text. *)
Inductive recv_result :=
| Timeout
| Data (data : string)
| Broken (msg : string).

(** The terminal as the client meets it: whether [create_connection] and
    [sendall] raise (with the text of the error), and what the [i]-th call
    of [recv] does. *)
Record terminal := Terminal {
  connect_error : option string;
  send_error : option string;
  recv : nat -> recv_result
}.

(** How reading ends: with the chunks received, or with an [OSError]. *)
Inductive reading :=
| Chunks (chunks : list string)
| ReadError (msg : string).

(** The loop of [_read_linkly_response], after [i] calls of [recv];
    [None]: the loop is still running after [fuel] rounds. *)
Fixpoint read_loop (fuel : nat) (t : terminal) (i : nat) (chunks : list string)
  : option reading :=
  match fuel with
  | O => None
  | S fuel' =>
      match recv t i with
      | Timeout => Some (Chunks chunks)                    (* except socket.timeout: break *)
      | Broken msg => Some (ReadError msg)
      | Data data =>
          if String.eqb data "" then Some (Chunks chunks)  (* if not data: break *)
          else
            let chunks' := (chunks ++ [data])%list in
            if contains newline data then Some (Chunks chunks')
            else read_loop fuel' t (S i) chunks'
      end
  end.

(** [b"".join(chunks).strip()]. *)
Definition joined (chunks : list string) : string :=
  bytes_strip (String.concat "" chunks).

(** What [_send_linkly_payload] ends with: the response, or [LinklyError]
    with its text. *)
Inductive sent :=
| Response (response : string)
| LinklyError (msg : string).

Definition connection_failed (msg : string) : string :=
  "Linkly connection failed: " +:+ msg.

(** [_send_linkly_payload], from the terminal's side: connect, send the
    message, read the response; every [OSError] becomes [LinklyError]. *)
Definition _send_linkly_payload (fuel : nat) (t : terminal) : option sent :=
  match connect_error t with
  | Some msg => Some (LinklyError (connection_failed msg))
  | None =>
      match send_error t with
      | Some msg => Some (LinklyError (connection_failed msg))
      | None =>
          match read_loop fuel t 0 [] with
          | None => None
          | Some (ReadError msg) => Some (LinklyError (connection_failed msg))
          | Some (Chunks chunks) => Some (Response (joined chunks))
          end
      end
  end.

(** The part of [_process_card_payment] after the payload was sent. *)
Definition card_outcome (s : sent) : result (bool * option string) :=
  match s with
  | LinklyError msg => Ok (false, Some msg)              (* return False, str(exc) *)
  | Response response =>
      r <- _interpret_linkly_response response ;;
      let '(approved, message) := r in
      if negb approved then
        Ok (false,
            Some (match message with
                  | Some m => if String.eqb m "" then declined else m
                  | None => declined                     (* message or "Card ..." *)
                  end))
      else Ok (true, None)
  end.

(** [_process_card_payment(total)]: the items are collected and the payload
    is built first; of [_build_linkly_sale_payload] only
    [int(round(total * 100))] can raise, and what the payload holds does not
    matter to what the terminal model does. *)
Definition _process_card_payment (fuel : nat) (t : terminal) (c : cart) (total : flt)
  : option (result (bool * option string)) :=
  match _collect_cart_items (table c) (row_products c) with
  | Raise e => Some (Raise e)
  | Ok items =>
      match cents total with
      | Raise e => Some (Raise e)
      | Ok amount_cents => option_map card_outcome (_send_linkly_payload fuel t)
      end
  end.

(** ** Vocabulary of the statements about the terminal *)

(** A chunk that does not end the reading. *)
Definition goes_on (r : recv_result) : Prop :=
  exists data, r = Data data /\ data <> "" /\ contains newline data = false.

(** The bytes a call of [recv] contributes to the response. *)
Definition bytes_of (r : recv_result) : list string :=
  match r with
  | Data data => if String.eqb data "" then [] else [data]
  | _ => []
  end.

(** The call of [recv] ends the reading without an error. *)
Definition ends (r : recv_result) : Prop :=
  match r with
  | Timeout => True
  | Data data => data = "" \/ contains newline data = true
  | Broken _ => False
  end.

End TerminalDefs.
End Terminal.

(* ===================================================================== *)
(** * uipos.py, payment_dialog.py: totals and payment *)
(* ===================================================================== *)

Module Checkout.
Import Tx Sale Cart Terminal.
Section CheckoutDefs.
Context `{PyFloat} `{!PyText} `{!PyFloatOps} `{!PyTextOps}.
Variable id_eq : pyval -> Z -> bool.

(** What [_recalculate_totals] writes: the cells of column 3 (row and
    text, in the order written) and the texts of the four labels. *)
Record totals := Totals {
  amount_cells : list (nat * string);
  amount_label : string;
  total_label : string;
  gst_label : string;
  items_label : string
}.

(** The loop of [_recalculate_totals], from row [row] on. *)
Fixpoint totals_from (row : nat) (rows : list cart_row) (total : flt) (item_count : Z)
         (cells : list (nat * string)) : flt * Z * list (nat * string) :=
  match rows with
  | [] => (total, item_count, cells)
  | r :: rest =>
      if has_description r then
        let qty := cell_float (qty_item r) in
        let price := cell_float (price_item r) in
        let line_total := fmul qty price in
        totals_from (S row) rest (fadd total line_total) (item_count + 1)
                    (cells ++ [(row, format_2f line_total)])%list
      else totals_from (S row) rest total item_count cells    (* continue *)
  end.

(** [_recalculate_totals]: the three money labels get [f"${total:.2f}"],
    the items label [str(item_count)]. *)
Definition _recalculate_totals (table : list cart_row) : totals :=
  let '(total, item_count, cells) := totals_from 0 table fzero 0 [] in
  let money := "$" +:+ format_2f total in
  Totals cells money money money (pretty item_count).

(** [text.replace("$", "")]. *)
Fixpoint without_dollar (text : string) : string :=
  match text with
  | EmptyString => EmptyString
  | String c rest =>
      if Ascii.eqb c "$" then without_dollar rest else String c (without_dollar rest)
  end.

(** [_current_total]; [label] is [self.total_label.text()]. *)
Definition _current_total (label : string) : flt :=
  _safe_float (without_dollar label).

(** [PaymentDialog.accept]; [cash_checked] is [self.cash_radio.isChecked()],
    [cash_value] is [float(self.cash_input.value())].  The result is
    [(selected_method, tendered_amount)] when the dialog is accepted, and
    [None] when it warns and stays open. *)
Definition accept (total : flt) (cash_checked : bool) (cash_value : flt)
  : option (string * option flt) :=
  if cash_checked then
    if fltb cash_value total then None
    else Some ("cash", Some cash_value)
  else Some ("card", None).

(** The message boxes of [handle_payment], by their texts:
    "Add items before payment.", "Cash received is insufficient.",
    "Cash drawer opened.", the reason of a failed card payment,
    "Could not store sale." (with the text of the [DatabaseError] when there
    is one) and "Payment successful. Change: $..." *)
Inductive notice :=
| AddItemsFirst
| CashInsufficient
| DrawerOpened
| PaymentFailed (reason : string)
| StoreFailed (detail : option string)
| Paid (change : flt).

(** The window as [handle_payment] changes it: the cart and the message
    boxes shown, oldest first. *)
Definition screen : Type := cart * list notice.

(** The part of [handle_payment] after the payment went through;
    [model_ready] tells whether [self.model] is there. *)
Definition store_sale (e : env) (model_ready : bool) (method : string) (change : flt)
           (c : cart) (shown : list notice) (db : conn Sale.db stmt)
  : result unit * screen * conn Sale.db stmt :=
  match _collect_cart_items (table c) (row_products c) with
  | Raise ex => (Raise ex, (c, shown), db)
  | Ok items =>
      let '(saved, db') :=
        if model_ready then record_sale id_eq e items method db
        else (Ok false, db) in
      match saved with
      | Ok true => (Ok tt, (void_all_items c, shown ++ [Paid change])%list, db')
      | Ok false => (Ok tt, (c, shown ++ [StoreFailed None])%list, db')
      | Raise (DatabaseError msg) =>
          (Ok tt, (c, shown ++ [StoreFailed (Some msg)])%list, db')
      | Raise ex => (Raise ex, (c, shown), db')
      end
  end.

(** [error_message or "Payment failed."]. *)
Definition failure_text (message : option string) : string :=
  match message with
  | Some m => if String.eqb m "" then "Payment failed." else m
  | None => "Payment failed."
  end.

(** [handle_payment]; [total] is what [self._current_total()] returns and
    [dialog] what the payment dialog ends with: [None] when it is
    cancelled, [(selected_method, tendered_amount)] when it is accepted.
    [None]: the terminal is still being read after [fuel] rounds. *)
Definition handle_payment (e : env) (model_ready : bool) (fuel : nat) (t : terminal)
           (total : flt) (dialog : option (string * option flt))
           (c : cart) (db : conn Sale.db stmt)
  : option (result unit * screen * conn Sale.db stmt) :=
  if _cart_is_empty (table c) then Some (Ok tt, (c, [AddItemsFirst]), db)
  else
    match dialog with
    | None => Some (Ok tt, (c, []), db)
    | Some (method, tendered) =>
        if String.eqb method "cash" then
          match tendered with
          | None => Some (Ok tt, (c, [CashInsufficient]), db)
          | Some x =>
              if fltb x total then Some (Ok tt, (c, [CashInsufficient]), db)
              else Some (store_sale e model_ready method (fsub x total) c [DrawerOpened] db)
          end
        else
          match _process_card_payment fuel t c total with
          | None => None
          | Some (Raise ex) => Some (Raise ex, (c, []), db)
          | Some (Ok (false, message)) =>
              Some (Ok tt, (c, [PaymentFailed (failure_text message)]), db)
          | Some (Ok (true, _)) => Some (store_sale e model_ready method fzero c [] db)
          end
    end.

(** ** Vocabulary of the statements about the payment *)

(** The amount of a collected item. *)
Definition amount_of (item : pyval) : flt :=
  match py_get_default item "amount" (PFloat fzero) with
  | Ok (PFloat a) => a
  | _ => fzero
  end.

(** The payment went through: cash that is not less than the total, or a
    card payment the terminal approved. *)
Definition paid (fuel : nat) (t : terminal) (total : flt) (c : cart)
           (method : string) (tendered : option flt) : Prop :=
  (method = "cash" /\ exists x, tendered = Some x /\ fltb x total = false) \/
  (method <> "cash" /\
   exists message, _process_card_payment fuel t c total = Some (Ok (true, message))).

Definition is_paid_notice (n : notice) : bool :=
  match n with Paid _ => true | _ => false end.

(** The sale was stored: the cart is not empty, the model is there, the
    dialog was accepted, the payment went through, and [record_sale]
    returned [True] for the items collected. *)
Definition sale_stored (e : env) (model_ready : bool) (fuel : nat) (t : terminal)
           (total : flt) (dialog : option (string * option flt))
           (c : cart) (db : conn Sale.db stmt) : Prop :=
  _cart_is_empty (table c) = false /\
  model_ready = true /\
  exists method tendered items,
    dialog = Some (method, tendered) /\
    paid fuel t total c method tendered /\
    _collect_cart_items (table c) (row_products c) = Ok items /\
    fst (record_sale id_eq e items method db) = Ok true.

(** The sum of the amounts of the items, added up in order from [0.0]. *)
Definition sum_of_amounts (items : list pyval) : flt :=
  fold_left (fun acc item => fadd acc (amount_of item)) items fzero.

End CheckoutDefs.
End Checkout.

(* ===================================================================== *)
(** * A concrete runtime *)
(* ===================================================================== *)

(** The instances below are the runtime the evaluation lemmas run on:
    IEEE 754 binary64 for [float], and CPython's text functions on ASCII
    text.  The theorems of the development hold for every runtime. *)

Module Runtime.

(** ** binary64 *)

(** [float(z)]: the nearest binary64, [None] (OverflowError) beyond the range. *)
Definition b64_of_Z (z : Z) : option float :=
  let x := SF2Prim (SpecFloat.binary_normalize prec emax z 0 false) in
  if PrimFloat.is_infinity x then None else Some x.

Definition binary64 : PyFloat := {|
  flt := float;
  fzero := 0%float;
  fone := 1%float;
  fmul := PrimFloat.mul;
  fsub := PrimFloat.sub;
  fleb := PrimFloat.leb;
  f_is_zero := fun x => PrimFloat.eqb x 0%float;
  float_of_Z := b64_of_Z;
  fleb_zero := eq_refl
|}.

(** ** Characters *)

Definition code (c : ascii) : Z := Z.of_N (N_of_ascii c).
Definition chr (n : Z) : ascii := ascii_of_N (Z.to_N n).
Definition str1 (n : Z) : string := String (chr n) EmptyString.

(** The double quote, the backslash and the apostrophe. *)
Definition dquote : string := str1 34.
Definition backslash : string := str1 92.
Definition squote : string := str1 39.

Definition between (lo hi n : Z) : bool := Z.leb lo n && Z.leb n hi.

(** [str.isspace] on an ASCII character. *)
Definition is_space (c : ascii) : bool :=
  between 9 13 (code c) || between 28 32 (code c).

Fixpoint lstrip (s : string) : string :=
  match s with
  | EmptyString => EmptyString
  | String c s' => if is_space c then lstrip s' else s
  end.

Definition rev_string (s : string) : string :=
  string_of_list_ascii (rev (list_ascii_of_string s)).

(** [str.strip()]. *)
Definition strip (s : string) : string :=
  rev_string (lstrip (rev_string (lstrip s))).

Definition map_string (f : ascii -> ascii) (s : string) : string :=
  string_of_list_ascii (map f (list_ascii_of_string s)).

Definition upper_char (c : ascii) : ascii :=
  if between 97 122 (code c) then chr (code c - 32) else c.
Definition lower_char (c : ascii) : ascii :=
  if between 65 90 (code c) then chr (code c + 32) else c.

(** [str.upper()], [str.lower()]. *)
Definition upper (s : string) : string := map_string upper_char s.
Definition lower (s : string) : string := map_string lower_char s.

(** ** Decimal numerals *)

Definition digit_of (c : ascii) : option Z :=
  if between 48 57 (code c) then Some (code c - 48) else None.

(** Digits after a first one; [underscores] allows one [_] between two
    digits, as [int] and [float] do.  Returns the value, the number of
    digits read and the unread text. *)
Fixpoint digits_from (underscores : bool) (acc : Z) (n : Z) (s : string)
  : Z * Z * string :=
  match s with
  | EmptyString => (acc, n, s)
  | String c s' =>
      match digit_of c with
      | Some d => digits_from underscores (10 * acc + d) (n + 1) s'
      | None =>
          if underscores && Ascii.eqb c "_" then
            match s' with
            | String c2 s'' =>
                match digit_of c2 with
                | Some d => digits_from underscores (10 * acc + d) (n + 1) s''
                | None => (acc, n, s)
                end
            | EmptyString => (acc, n, s)
            end
          else (acc, n, s)
      end
  end.

(** A run of at least one digit. *)
Definition digit_run (underscores : bool) (s : string) : option (Z * Z * string) :=
  match s with
  | String c s' =>
      match digit_of c with
      | Some d => Some (digits_from underscores d 1 s')
      | None => None
      end
  | EmptyString => None
  end.

(** An optional sign: [true] for [-]. *)
Definition read_sign (s : string) : bool * string :=
  match s with
  | String "-" s' => (true, s')
  | String "+" s' => (false, s')
  | _ => (false, s)
  end.

(** [int(s)]. *)
Definition int_of_string (s : string) : option Z :=
  let '(neg, body) := read_sign (strip s) in
  match digit_run true body with
  | Some (v, _, EmptyString) => Some (if neg then - v else v)
  | _ => None
  end.

(** The binary64 nearest to [(-1)^neg * m * 10^e10] (ties to even), for
    [0 <= m].  A quotient is cut with a sticky bit below 64 significant
    bits, so the single rounding of [binary_normalize] is the rounding of
    the exact value. *)
Definition b64_of_decimal (neg : bool) (m e10 : Z) : float :=
  let sgn (z : Z) := if neg then - z else z in
  let zero := SF2Prim (SpecFloat.S754_zero neg) in
  let inf := if neg then neg_infinity else infinity in
  if Z.eqb m 0 then zero
  else if Z.leb 0 e10 then
    if Z.ltb 400 e10 then inf
    else SF2Prim (SpecFloat.binary_normalize prec emax (sgn (m * 10 ^ e10)) 0 false)
  else
    let k := - e10 in
    if Z.ltb (Z.log2 m + 1) (3 * k - 1400) then zero
    else
      let den := 10 ^ k in
      let s := Z.max 0 (64 + Z.log2 den - Z.log2 m) in
      let num := m * 2 ^ s in
      let q := num / den in
      let sticky := if Z.eqb (num mod den) 0 then 0 else 1 in
      SF2Prim (SpecFloat.binary_normalize prec emax (sgn (2 * q + sticky)) (- (s + 1)) false).

(** The unsigned part of a [float] literal: digits, an optional fraction,
    an optional exponent.  Returns mantissa, decimal exponent, unread text. *)
Definition read_decimal (underscores : bool) (s : string) : option (Z * Z * string) :=
  let '(ip, s1) :=
    match digit_run underscores s with
    | Some (v, n, r) => (Some (v, n), r)
    | None => (None, s)
    end in
  let '(fp, s2) :=
    match s1 with
    | String "." r =>
        match digit_run underscores r with
        | Some (v, n, r') => (Some (v, n), r')
        | None => (Some (0, 0), r)
        end
    | _ => (None, s1)
    end in
  let mant :=
    match ip, fp with
    | Some (vi, _), Some (vf, nf) => Some (vi * 10 ^ nf + vf, nf)
    | Some (vi, _), None => Some (vi, 0)
    | None, Some (vf, nf) => if Z.eqb nf 0 then None else Some (vf, nf)
    | None, None => None
    end in
  match mant with
  | None => None
  | Some (m, nf) =>
      match s2 with
      | String c r =>
          if Ascii.eqb c "e" || Ascii.eqb c "E" then
            let '(eneg, r1) := read_sign r in
            match digit_run underscores r1 with
            | Some (ev, _, r2) => Some (m, (if eneg then - ev else ev) - nf, r2)
            | None => None
            end
          else Some (m, - nf, s2)
      | EmptyString => Some (m, - nf, s2)
      end
  end.

(** [float(s)]. *)
Definition float_of_string (s : string) : option float :=
  let '(neg, body) := read_sign (strip s) in
  let name := lower body in
  if String.eqb name "inf" || String.eqb name "infinity"
  then Some (if neg then neg_infinity else infinity)
  else if String.eqb name "nan" then Some nan
  else
    match read_decimal true body with
    | Some (m, e10, EmptyString) => Some (b64_of_decimal neg m e10)
    | _ => None
    end.

(** ** [repr] of a float *)

(** The largest [k] in [lo, lo + fuel] with [10^k <= num / den]. *)
Fixpoint floor_log10 (fuel : nat) (k : Z) (num den : Z) : Z :=
  match fuel with
  | O => k
  | S fuel' =>
      let fits :=
        if Z.leb 0 k then Z.leb (10 ^ k * den) num else Z.leb den (num * 10 ^ (- k)) in
      if fits then k else floor_log10 fuel' (k - 1) num den
  end.

(** [num / den] divided by [10^p], as a floor and a remainder flag. *)
Definition scaled_floor (num den p : Z) : Z * bool :=
  let '(n, d) := if Z.leb 0 p then (num, den * 10 ^ p) else (num * 10 ^ (- p), den) in
  (n / d, negb (Z.eqb (n mod d) 0)).

(** Is [a * 10^p] nearer to [num / den] than [b * 10^p] (for [a < b])? *)
Definition nearer_low (num den p a b : Z) : bool :=
  let '(n, d) := if Z.leb 0 p then (num, den * 10 ^ p) else (num * 10 ^ (- p), den) in
  (* n/d - a  versus  b - n/d *)
  let lhs := 2 * n - 2 * a * d in
  let rhs := (b - a) * d in
  Z.ltb lhs rhs || (Z.eqb lhs rhs && Z.even a).

(** The shortest decimal [digits * 10^p] that reads back as [x], the
    nearest to [x] among the shortest: search over 1..17 digits. *)
Fixpoint shortest_from (fuel : nat) (d : Z) (x : float) (num den p10 : Z) : Z * Z :=
  let p := p10 - d + 1 in
  let '(lo, inexact) := scaled_floor num den p in
  let hi := lo + 1 in
  let back (m : Z) := PrimFloat.eqb (b64_of_decimal false m p) x in
  match fuel with
  | O => (lo, p)
  | S fuel' =>
      if negb inexact then
        if back lo then (lo, p) else shortest_from fuel' (d + 1) x num den p10
      else
        match back lo, back hi with
        | true, true => if nearer_low num den p lo hi then (lo, p) else (hi, p)
        | true, false => (lo, p)
        | false, true => (hi, p)
        | false, false => shortest_from fuel' (d + 1) x num den p10
        end
  end.

Fixpoint strip_zeros (fuel : nat) (m p : Z) : Z * Z :=
  match fuel with
  | O => (m, p)
  | S fuel' =>
      if Z.eqb (m mod 10) 0 && negb (Z.eqb m 0) then strip_zeros fuel' (m / 10) (p + 1)
      else (m, p)
  end.

Definition zeros (n : Z) : string :=
  string_of_list_ascii (repeat "0"%char (Z.to_nat n)).

Definition take (n : Z) (s : string) : string := String.substring 0 (Z.to_nat n) s.
Definition drop (n : Z) (s : string) : string :=
  String.substring (Z.to_nat n) (String.length s - Z.to_nat n) s.

(** Layout of [repr]: fixed notation while the decimal point falls within
    [-4 < decpt <= 16], exponent notation otherwise. *)
Definition layout (digits : string) (p : Z) : string :=
  let nd := Z.of_nat (String.length digits) in
  let decpt := nd + p in
  if Z.ltb (-4) decpt && Z.leb decpt 16 then
    if Z.leb decpt 0 then "0." +:+ zeros (- decpt) +:+ digits
    else if Z.leb nd decpt then digits +:+ zeros (decpt - nd) +:+ ".0"
    else take decpt digits +:+ "." +:+ drop decpt digits
  else
    let e := decpt - 1 in
    let mant := if Z.eqb nd 1 then digits else take 1 digits +:+ "." +:+ drop 1 digits in
    let ea := pretty (Z.abs e) in
    mant +:+ "e" +:+ (if Z.ltb e 0 then "-" else "+")
         +:+ (if Z.ltb (Z.abs e) 10 then "0" +:+ ea else ea).

(** [repr(x)] (and [str(x)]) for a float. *)
Definition float_repr (x : float) : string :=
  match Prim2SF x with
  | SpecFloat.S754_nan => "nan"
  | SpecFloat.S754_infinity s => if s then "-inf" else "inf"
  | SpecFloat.S754_zero s => if s then "-0.0" else "0.0"
  | SpecFloat.S754_finite s m e =>
      let '(num, den) := if Z.leb 0 e then (Z.pos m * 2 ^ e, 1) else (Z.pos m, 2 ^ (- e)) in
      let p10 := floor_log10 700 310 num den in
      let '(d0, p0) := shortest_from 17 1 (PrimFloat.abs x) num den p10 in
      let '(d1, p1) := strip_zeros 20 d0 p0 in
      (if s then "-" else "") +:+ layout (pretty d1) p1
  end.

(** ** [repr] of a str *)

Definition hex_digit (n : Z) : string :=
  str1 (if Z.ltb n 10 then 48 + n else 87 + n).

Definition escape_char (quote : ascii) (c : ascii) : string :=
  let n := code c in
  if Z.eqb n 92 then backslash +:+ backslash
  else if Ascii.eqb c quote then backslash +:+ String quote EmptyString
  else if Z.eqb n 10 then backslash +:+ "n"
  else if Z.eqb n 13 then backslash +:+ "r"
  else if Z.eqb n 9 then backslash +:+ "t"
  else if Z.ltb n 32 || Z.eqb n 127
       then backslash +:+ "x" +:+ hex_digit (n / 16) +:+ hex_digit (n mod 16)
  else String c EmptyString.

(** [repr(s)]: single quotes, unless [s] has one and no double quote. *)
Definition string_repr (s : string) : string :=
  let quote := if contains squote s && negb (contains dquote s) then chr 34 else chr 39 in
  let q := String quote EmptyString in
  q +:+ String.concat "" (map (escape_char quote) (list_ascii_of_string s)) +:+ q.

(** ** UTF-8 *)

Definition utf8_encode (cp : Z) : string :=
  if Z.ltb cp 128 then str1 cp
  else if Z.ltb cp 2048 then str1 (192 + cp / 64) +:+ str1 (128 + cp mod 64)
  else if Z.ltb cp 65536 then
    str1 (224 + cp / 4096) +:+ str1 (128 + (cp / 64) mod 64) +:+ str1 (128 + cp mod 64)
  else
    str1 (240 + cp / 262144) +:+ str1 (128 + (cp / 4096) mod 64)
      +:+ str1 (128 + (cp / 64) mod 64) +:+ str1 (128 + cp mod 64).

(** U+FFFD, the replacement character. *)
Definition replacement : string := utf8_encode 65533.

Definition is_cont (c : ascii) : bool := between 128 191 (code c).

(** The second byte a three-byte (resp. four-byte) lead allows. *)
Definition second_ok3 (lead : Z) (c : ascii) : bool :=
  if Z.eqb lead 224 then between 160 191 (code c)
  else if Z.eqb lead 237 then between 128 159 (code c)
  else is_cont c.
Definition second_ok4 (lead : Z) (c : ascii) : bool :=
  if Z.eqb lead 240 then between 144 191 (code c)
  else if Z.eqb lead 244 then between 128 143 (code c)
  else is_cont c.

(** [bytes.decode("utf-8", errors="replace")]: well-formed sequences are
    kept, every maximal ill-formed run is replaced by U+FFFD. *)
Fixpoint decode_replace (s : string) : string :=
  match s with
  | EmptyString => EmptyString
  | String b0 s1 =>
      let n0 := code b0 in
      if Z.ltb n0 128 then String b0 (decode_replace s1)
      else if between 194 223 n0 then
        match s1 with
        | String b1 s2 =>
            if is_cont b1 then String b0 (String b1 (decode_replace s2))
            else replacement +:+ decode_replace s1
        | EmptyString => replacement
        end
      else if between 224 239 n0 then
        match s1 with
        | String b1 s2 =>
            if second_ok3 n0 b1 then
              match s2 with
              | String b2 s3 =>
                  if is_cont b2
                  then String b0 (String b1 (String b2 (decode_replace s3)))
                  else replacement +:+ decode_replace s2
              | EmptyString => replacement
              end
            else replacement +:+ decode_replace s1
        | EmptyString => replacement
        end
      else if between 240 244 n0 then
        match s1 with
        | String b1 s2 =>
            if second_ok4 n0 b1 then
              match s2 with
              | String b2 s3 =>
                  if is_cont b2 then
                    match s3 with
                    | String b3 s4 =>
                        if is_cont b3
                        then String b0 (String b1 (String b2 (String b3 (decode_replace s4))))
                        else replacement +:+ decode_replace s3
                    | EmptyString => replacement
                    end
                  else replacement +:+ decode_replace s2
              | EmptyString => replacement
              end
            else replacement +:+ decode_replace s1
        | EmptyString => replacement
        end
      else replacement +:+ decode_replace s1
  end.

(** ** [json.loads] *)

#[local] Existing Instance binary64.

Definition json_space (c : ascii) : bool :=
  let n := code c in Z.eqb n 32 || Z.eqb n 9 || Z.eqb n 10 || Z.eqb n 13.

Fixpoint skip_ws (s : string) : string :=
  match s with
  | EmptyString => EmptyString
  | String c s' => if json_space c then skip_ws s' else s
  end.

Definition hex_val (c : ascii) : option Z :=
  let n := code c in
  if between 48 57 n then Some (n - 48)
  else if between 97 102 n then Some (n - 87)
  else if between 65 70 n then Some (n - 55)
  else None.

(** Four hexadecimal digits. *)
Definition hex4 (s : string) : option (Z * string) :=
  match s with
  | String a (String b (String c (String d r))) =>
      match hex_val a, hex_val b, hex_val c, hex_val d with
      | Some x, Some y, Some z, Some w => Some (((x * 16 + y) * 16 + z) * 16 + w, r)
      | _, _, _, _ => None
      end
  | _ => None
  end.

Definition simple_escape (c : ascii) : option string :=
  let n := code c in
  if Z.eqb n 34 || Z.eqb n 92 || Z.eqb n 47 then Some (String c EmptyString)
  else if Ascii.eqb c "b" then Some (str1 8)
  else if Ascii.eqb c "f" then Some (str1 12)
  else if Ascii.eqb c "n" then Some (str1 10)
  else if Ascii.eqb c "r" then Some (str1 13)
  else if Ascii.eqb c "t" then Some (str1 9)
  else None.

(** The text of a JSON string, from after its opening quote. *)
Fixpoint scan_string (fuel : nat) (s : string) (acc : string) : option (string * string) :=
  match fuel with
  | O => None
  | S fuel' =>
      match s with
      | EmptyString => None
      | String c s' =>
          let n := code c in
          if Z.eqb n 34 then Some (acc, s')
          else if Z.ltb n 32 then None
          else if Z.eqb n 92 then
            match s' with
            | EmptyString => None
            | String e s'' =>
                match simple_escape e with
                | Some ch => scan_string fuel' s'' (acc +:+ ch)
                | None =>
                    if Ascii.eqb e "u" then
                      match hex4 s'' with
                      | None => None
                      | Some (u, r) =>
                          if between 55296 56319 u then
                            match r with
                            | String b1 (String b2 r') =>
                                if Z.eqb (code b1) 92 && Ascii.eqb b2 "u" then
                                  match hex4 r' with
                                  | None => None
                                  | Some (u2, r'') =>
                                      if between 56320 57343 u2
                                      then scan_string fuel' r''
                                             (acc +:+ utf8_encode
                                                (65536 + (u - 55296) * 1024 + (u2 - 56320)))
                                      else scan_string fuel' r (acc +:+ utf8_encode u)
                                  end
                                else scan_string fuel' r (acc +:+ utf8_encode u)
                            | _ => scan_string fuel' r (acc +:+ utf8_encode u)
                            end
                          else scan_string fuel' r (acc +:+ utf8_encode u)
                      end
                    else None
                end
            end
          else scan_string fuel' s' (acc +:+ String c EmptyString)
      end
  end.

(** A JSON number: an optional minus, an integer part without leading
    zero, an optional fraction, an optional exponent; an int when it has
    neither fraction nor exponent, a float otherwise. *)
Definition scan_number (s : string) : option (pyval * string) :=
  let '(neg, s0) :=
    match s with
    | String "-" r => (true, r)
    | _ => (false, s)
    end in
  let ip :=
    match s0 with
    | String "0" r => Some (0, 1, r)
    | _ => digit_run false s0
    end in
  match ip with
  | None => None
  | Some (vi, _, s1) =>
      let '(fp, s2) :=
        match s1 with
        | String "." r =>
            match digit_run false r with
            | Some (vf, nf, r') => (Some (vf, nf), r')
            | None => (None, s1)
            end
        | _ => (None, s1)
        end in
      let '(ep, s3) :=
        match s2 with
        | String c r =>
            if Ascii.eqb c "e" || Ascii.eqb c "E" then
              let '(eneg, r1) := read_sign r in
              match digit_run false r1 with
              | Some (ev, _, r2) => (Some (if eneg then - ev else ev), r2)
              | None => (None, s2)
              end
            else (None, s2)
        | EmptyString => (None, s2)
        end in
      match fp, ep with
      | None, None => Some (PInt (if neg then - vi else vi), s3)
      | _, _ =>
          let '(vf, nf) := default (0, 0) fp in
          Some (PFloat (b64_of_decimal neg (vi * 10 ^ nf + vf) (default 0 ep - nf)), s3)
      end
  end.

Definition literal (name : string) (v : pyval) (s : string) : option (pyval * string) :=
  if String.prefix name s
  then Some (v, String.substring (String.length name)
                                 (String.length s - String.length name) s)
  else None.

Definition first_some {A} (l : list (option A)) : option A :=
  fold_right (fun x acc => match x with Some _ => x | None => acc end) None l.

(** A JSON value at the head of [s]; duplicate keys of an object keep the
    position of the first and the value of the last, as [dict] does. *)
Fixpoint parse_value (fuel : nat) (s : string) : option (pyval * string) :=
  match fuel with
  | O => None
  | S fuel' =>
      match s with
      | EmptyString => None
      | String c r =>
          if Z.eqb (code c) 34 then
            match scan_string (S (String.length r)) r "" with
            | Some (t, r') => Some (PStr t, r')
            | None => None
            end
          else if Ascii.eqb c "{" then
            match skip_ws r with
            | String "}" r' => Some (PDict [], r')
            | r1 => parse_members fuel' r1 []
            end
          else if Ascii.eqb c "[" then
            match skip_ws r with
            | String "]" r' => Some (PList [], r')
            | r1 => parse_elements fuel' r1 []
            end
          else
            first_some
              [literal "null" PNone s; literal "true" (PBool true) s;
               literal "false" (PBool false) s; literal "NaN" (PFloat nan) s;
               literal "Infinity" (PFloat infinity) s;
               literal "-Infinity" (PFloat neg_infinity) s;
               scan_number s]
      end
  end
with parse_members (fuel : nat) (s : string) (acc : dict) : option (pyval * string) :=
  match fuel with
  | O => None
  | S fuel' =>
      match s with
      | String q r =>
          if Z.eqb (code q) 34 then
            match scan_string (S (String.length r)) r "" with
            | Some (k, r1) =>
                match skip_ws r1 with
                | String ":" r2 =>
                    match parse_value fuel' (skip_ws r2) with
                    | Some (v, r3) =>
                        let acc' := dict_set k v acc in
                        match skip_ws r3 with
                        | String "}" r4 => Some (PDict acc', r4)
                        | String "," r4 => parse_members fuel' (skip_ws r4) acc'
                        | _ => None
                        end
                    | None => None
                    end
                | _ => None
                end
            | None => None
            end
          else None
      | EmptyString => None
      end
  end
with parse_elements (fuel : nat) (s : string) (acc : list pyval) : option (pyval * string) :=
  match fuel with
  | O => None
  | S fuel' =>
      match parse_value fuel' s with
      | Some (v, r) =>
          match skip_ws r with
          | String "]" r' => Some (PList (acc ++ [v]), r')
          | String "," r' => parse_elements fuel' (skip_ws r') (acc ++ [v])
          | _ => None
          end
      | None => None
      end
  end.

(** [json.loads(s)]: one value, white space around it, nothing else. *)
Definition loads (s : string) : result pyval :=
  match parse_value (S (String.length s)) (skip_ws s) with
  | Some (v, r) =>
      match skip_ws r with
      | EmptyString => Ok v
      | _ => Raise JSONDecodeError
      end
  | None => Raise JSONDecodeError
  end.

(** ** The text runtime *)

Definition ascii_text : PyText := {|
  decode_utf8_replace := decode_replace;
  str_strip := strip;
  str_upper := upper;
  json_loads := loads;
  int_of_str := int_of_string;
  float_of_str := float_of_string;
  float_str := float_repr;
  str_repr := string_repr
|}.

End Runtime.

(* ===================================================================== *)
(** * The concrete runtime, continued *)
(* ===================================================================== *)

Module RuntimeMore.
Import Runtime.

#[local] Existing Instance binary64.

(** [x / y]: ZeroDivisionError on a zero divisor. *)
Definition b64_div (x y : float) : option float :=
  if PrimFloat.eqb y 0%float then None else Some (PrimFloat.div x y).

(** [int(round(x))]: the nearest integer, ties to the even one. *)
Definition b64_round (x : float) : result Z :=
  match Prim2SF x with
  | SpecFloat.S754_nan => Raise ValueError
  | SpecFloat.S754_infinity _ => Raise OverflowError
  | SpecFloat.S754_zero _ => Ok 0
  | SpecFloat.S754_finite s m e =>
      let n :=
        if Z.leb 0 e then Z.pos m * 2 ^ e
        else
          let d := 2 ^ (- e) in
          let q := Z.pos m / d in
          let r := Z.pos m mod d in
          if Z.ltb (2 * r) d then q
          else if Z.ltb d (2 * r) then q + 1
          else if Z.even q then q else q + 1 in
      Ok (if s then - n else n)
  end.

Definition two_digits (k : Z) : string :=
  (if Z.ltb k 10 then "0" else "") +:+ pretty k.

(** [f"{x:.2f}"]: the decimal with two places nearest to the exact value of
    [x], ties to the even one. *)
Definition b64_format_2f (x : float) : string :=
  match Prim2SF x with
  | SpecFloat.S754_nan => "nan"
  | SpecFloat.S754_infinity s => if s then "-inf" else "inf"
  | SpecFloat.S754_zero s => if s then "-0.00" else "0.00"
  | SpecFloat.S754_finite s m e =>
      let n :=
        if Z.leb 0 e then Z.pos m * 2 ^ e * 100
        else
          let d := 2 ^ (- e) in
          let q := (Z.pos m * 100) / d in
          let r := (Z.pos m * 100) mod d in
          if Z.ltb (2 * r) d then q
          else if Z.ltb d (2 * r) then q + 1
          else if Z.even q then q else q + 1 in
      (if s then "-" else "") +:+ pretty (n / 100) +:+ "." +:+ two_digits (n mod 100)
  end.

Definition binary64_ops : PyFloatOps := {|
  fadd := PrimFloat.add;
  fdiv := b64_div;
  fltb := PrimFloat.ltb;
  f_1e_6 := b64_of_decimal false 1 (-6);
  cents := fun x => b64_round (PrimFloat.mul x 100%float);
  format_2f := b64_format_2f
|}.

(** [bytes.isspace] on one byte. *)
Definition is_bytes_space (c : ascii) : bool :=
  between 9 13 (code c) || Z.eqb (code c) 32.

Fixpoint bytes_lstrip (s : string) : string :=
  match s with
  | EmptyString => EmptyString
  | String c s' => if is_bytes_space c then bytes_lstrip s' else s
  end.

(** [bytes.strip()]. *)
Definition bytes_strip_ascii (s : string) : string :=
  rev_string (bytes_lstrip (rev_string (bytes_lstrip s))).

(** An ASCII character inside a JSON string, as [json.dumps] writes it. *)
Definition json_escape_char (c : ascii) : string :=
  let n := code c in
  if Z.eqb n 34 then backslash +:+ dquote
  else if Z.eqb n 92 then backslash +:+ backslash
  else if Z.eqb n 10 then backslash +:+ "n"
  else if Z.eqb n 13 then backslash +:+ "r"
  else if Z.eqb n 9 then backslash +:+ "t"
  else if Z.eqb n 8 then backslash +:+ "b"
  else if Z.eqb n 12 then backslash +:+ "f"
  else if Z.ltb n 32 || Z.eqb n 127
       then backslash +:+ "u00" +:+ hex_digit (n / 16) +:+ hex_digit (n mod 16)
  else String c EmptyString.

Definition json_string (s : string) : string :=
  dquote +:+ String.concat "" (map json_escape_char (list_ascii_of_string s)) +:+ dquote.

Definition json_float (x : float) : string :=
  match Prim2SF x with
  | SpecFloat.S754_nan => "NaN"
  | SpecFloat.S754_infinity s => if s then "-Infinity" else "Infinity"
  | _ => float_repr x
  end.

(** [json.dumps(v)] with the default separators. *)
Fixpoint dumps (v : pyval) : string :=
  match v with
  | PNone => "null"
  | PBool true => "true"
  | PBool false => "false"
  | PInt z => pretty z
  | PFloat x => json_float x
  | PStr s => json_string s
  | PList l => "[" +:+ Py.join ", " (map dumps l) +:+ "]"
  | PDict d =>
      "{" +:+ Py.join ", " (map (fun kv => json_string (fst kv) +:+ ": " +:+ dumps (snd kv)) d)
          +:+ "}"
  end.

Definition ascii_ops : PyTextOps := {|
  str_lower := lower;
  bytes_strip := bytes_strip_ascii;
  json_dumps := dumps
|}.

End RuntimeMore.

(* ===================================================================== *)
(** * Sample data *)
(* ===================================================================== *)

(** Inputs on which the functions are evaluated in the last section. *)

Module Samples.
Import Runtime Tx.

#[local] Existing Instance binary64.
#[local] Existing Instance ascii_text.

(** MySQL's [WHERE id = %s] for an integer parameter ([None] is NULL and
    matches no row). *)
Definition id_eq_int (param : pyval) (id : Z) : bool :=
  match param with
  | PInt z => Z.eqb z id
  | _ => false
  end.

Definition quoted (s : string) : string := dquote +:+ s +:+ dquote.

(** ** Terminal responses *)

Definition approved_json : string := "{" +:+ quoted "approved" +:+ ": true}".
Definition declined_json : string :=
  "{" +:+ quoted "success" +:+ ": false, " +:+ quoted "message" +:+ ": "
      +:+ quoted "insufficient funds" +:+ "}".
Definition declined_text : string := "DECLINED BY ISSUER" +:+ str1 10.
Definition approved_as_json_string : string := quoted "APPROVED".

(** ** Products and cache files *)

Definition tea (stock : float) : pyval :=
  PDict [("id", PInt 1); ("name", PStr "tea"); ("barcode", PStr "b1");
         ("stock", PFloat stock)].
Definition milk : pyval :=
  PDict [("id", PInt 2); ("name", PStr "milk"); ("barcode", PStr "b2");
         ("stock", PFloat 3%float)].
Definition loose (name : string) : pyval := PDict [("name", PStr name)].
Definition loose_none (name : string) : pyval :=
  PDict [("name", PStr name); ("barcode", PNone)].
Definition bag : pyval :=
  PDict [("id", PInt 7); ("name", PStr "paper bag"); ("barcode", PStr "");
         ("stock", PFloat 9%float)].

(** A source of truth with one product, whose barcode is empty. *)
Definition bag_source (barcode : string) : Cache.db_answer :=
  if String.eqb barcode ""
  then Cache.Row [("id", PInt 7); ("name", PStr "paper bag"); ("stock", PInt 9);
                  ("barcode", PStr "")]
  else Cache.NoRow.

(** A disk that takes every write; one that runs full while [json.dump]
    writes; one on which the cache file cannot be opened for writing. *)
Definition disk_ok (products : list pyval) : Cache.write := Cache.Written.

Definition bag_world : Cache.world :=
  Cache.World (Cache.Stored (PList [bag])) bag_source [] disk_ok.
Definition shelf_world : Cache.world :=
  Cache.World (Cache.Stored (PList [tea 5%float; milk])) bag_source [] disk_ok.

(** ** Sales *)

Definition item (id : Z) (qty price amount : float) (deduct_unit : pyval) : pyval :=
  PDict [("id", PInt id); ("qty", PFloat qty); ("price", PFloat price);
         ("amount", PFloat amount); ("deduct_unit", deduct_unit)].

Definition shop : Sale.db :=
  Sale.Db [Sale.ProductRow 1 5%float; Sale.ProductRow 2 3%float] [].

Definition no_faults : faults := Faults None None (fun _ => None) None.

(** The third statement of the call (the insert of the second item) fails. *)
Definition third_fails : faults :=
  Faults None None
         (fun k => if Nat.eqb k 2 then Some "1062 (23000): Duplicate entry" else None)
         None.

Definition sale_env (fl : faults) : Sale.env :=
  Sale.Env fl (fun _ => 1700000000000) (fun i => 1 + Z.of_nat i).

Definition three_items : list pyval :=
  [item 1 2%float 3%float 6%float (PFloat 2%float);
   item 2 10%float 1.5%float 15%float PNone;
   item 1 1%float 3%float 3%float (PFloat 1%float)].

(** The statements of a sale of [three_items]. *)
Definition three_items_stmts : list Sale.stmt :=
  [Sale.InsertSale
     (Sale.SaleRow 1700000000001 (PInt 1) "cash" (PFloat 6%float) (PFloat 2%float));
   Sale.UpdateStock 4%float (PInt 1);
   Sale.InsertSale
     (Sale.SaleRow 1700000000002 (PInt 2) "cash" (PFloat 15%float) (PFloat 10%float));
   Sale.UpdateStock 10%float (PInt 2);
   Sale.InsertSale
     (Sale.SaleRow 1700000000003 (PInt 1) "cash" (PFloat 3%float) (PFloat 1%float));
   Sale.UpdateStock 1%float (PInt 1)].

(** Two items, the second with a quantity that is no number. *)
Definition items_bad_qty : list pyval :=
  [item 1 2%float 3%float 6%float (PFloat 2%float);
   PDict [("id", PInt 2); ("qty", PStr "abc"); ("amount", PFloat 1%float)]].

(** A cart of three rows, the second without description. *)
Definition cart_table : list Sale.cart_row :=
  [Sale.CartRow (Some "tea") (Some "2") (Some "3.50");
   Sale.CartRow (Some "  ") (Some "9") (Some "9");
   Sale.CartRow (Some "milk") (Some "1") (Some "1.25")].
Definition cart_products : gmap nat pyval :=
  {[ 0%nat := PDict [("id", PInt 1); ("name", PStr "tea"); ("barcode", PStr "b1");
                     ("deduct_unit", PInt 2)];
     2%nat := PDict [("id", PInt 2); ("name", PStr "milk"); ("barcode", PStr "b2")] ]}.

(** ** Attendance *)

Definition shifts : Attendance.db :=
  [Attendance.AttendanceRow 1 10 19700 28800 (Some 61200);
   Attendance.AttendanceRow 2 11 19700 30600 None].

Definition staff_env : Attendance.env := Attendance.Env no_faults 63000.

(** A table in which two rows have the same id. *)
Definition twins : Attendance.db :=
  [Attendance.AttendanceRow 2 11 19700 30600 None;
   Attendance.AttendanceRow 2 12 19700 30700 None].

(** The update fails (the connection is lost). *)
Definition staff_env_down : Attendance.env :=
  Attendance.Env (Faults None None (fun _ => Some "2013: Lost connection") None) 63000.

End Samples.

(* ===================================================================== *)
(** * More sample data *)
(* ===================================================================== *)

Module MoreSamples.
Import Runtime RuntimeMore Tx Samples.

#[local] Existing Instance binary64.
#[local] Existing Instance ascii_text.
#[local] Existing Instance binary64_ops.
#[local] Existing Instance ascii_ops.

(** ** The repository *)

Definition shelf : Cache.cache_file := Cache.Stored (PList [tea 5%float; milk]).

(** A cache file with an entry that is no object. *)
Definition broken_world : Cache.world :=
  Cache.World (Cache.Stored (PList [tea 5%float; PStr "oops"; milk])) bag_source []
              disk_ok.

(** A row of the products table, as the cursor returns it. *)
Definition soap_row : dict :=
  [("id", PInt 3); ("sku", PNone); ("name", PStr "soap"); ("stock", PInt 12);
   ("sell_price", PStr "2.50"); ("barcode", PStr "b3"); ("gst_rate", PStr "n/a")].

Definition soap_source (barcode : string) : Cache.db_answer :=
  if String.eqb barcode "b3" then Cache.Row soap_row else Cache.NoRow.

Definition soap_world : Cache.world := Cache.World shelf soap_source [] disk_ok.

Definition soap_rows (q : Repository.select) : result (list dict) :=
  match q with
  | Repository.SelectLike like _ =>
      if String.eqb like "%soap%" then Ok [soap_row] else Ok []
  | Repository.SelectAll => Ok [soap_row]
  end.

Definition soap_store : Repository.store :=
  Repository.Store shelf soap_rows [] disk_ok.
Definition unreadable_store : Repository.store :=
  Repository.Store Cache.Unparsable soap_rows [] disk_ok.

(** ** Attendance *)

Definition crew : list Staff.shift :=
  [Staff.Shift (Attendance.AttendanceRow 1 10 19700 28800 (Some 61200)) 0 0%float "{}";
   Staff.Shift (Attendance.AttendanceRow 2 11 19700 30600 None) 0 0%float "{}";
   Staff.Shift (Attendance.AttendanceRow 3 10 19700 64800 None) 0 0%float "{}"].

Definition crew_env (fl : faults) : Staff.env := Staff.Env fl 70000 19700 4.

Definition insert_fails : faults :=
  Faults None None (fun _ => Some "1048 (23000): Column cannot be null") None.

(** ** The cart *)

Definition basket : Cart.cart :=
  Cart.Cart cart_table cart_products.

(** ** The keypad *)

Definition some_keys : list Keypad.key :=
  [Keypad.KQty; Keypad.KText "1"; Keypad.KText "."; Keypad.KSign; Keypad.KText "5";
   Keypad.KSign; Keypad.KSign; Keypad.KEnter (-1); Keypad.KText "."].

(** ** The terminal *)

(** The response arrives in two chunks and is followed by more bytes. *)
Definition two_chunks (i : nat) : Terminal.recv_result :=
  match i with
  | 0%nat => Terminal.Data "DECLINED BY"
  | 1%nat => Terminal.Data (" ISSUER" +:+ str1 10)
  | _ => Terminal.Data "APPROVED"
  end.

Definition slow_terminal : Terminal.terminal :=
  Terminal.Terminal None None two_chunks.
Definition slow_terminal' : Terminal.terminal :=
  Terminal.Terminal None None
    (fun i => if Nat.leb i 1 then two_chunks i else Terminal.Broken "reset").
Definition silent_terminal : Terminal.terminal :=
  Terminal.Terminal None None (fun _ => Terminal.Timeout).
Definition absent_terminal : Terminal.terminal :=
  Terminal.Terminal (Some "[Errno 111] Connection refused") None (fun _ => Terminal.Timeout).

(** ** Payment *)

(** The payment dialog accepted with 20.00 in cash for a total of 8.25. *)
Definition cash_20 : option (string * option float) :=
  Checkout.accept (H := binary64) 8.25%float true 20%float.

End MoreSamples.

(* ===================================================================== *)
(** * Theorems *)
(* ===================================================================== *)

Open Scope list_scope.

(** Destructs the scrutinee of the first [match] or [if] of the goal. *)
Ltac case_head :=
  match goal with
  | |- context [match ?x with _ => _ end] => destruct x eqn:?
  end.

(** ** Driver check *)

Section DriverFacts.
Context `{PyFloat} `{!PyText}.
Import Driver.

Lemma validate_empty : _validate_mysql_connector "" = Ok tt.
Proof. reflexivity. Qed.

Lemma validate_not_integer (version : string) :
  int_of_str (split_head "." version) = None ->
  _validate_mysql_connector version = Ok tt.
Proof.
  intros Hint. unfold _validate_mysql_connector.
  destruct (String.eqb version ""); [reflexivity|].
  rewrite Hint. reflexivity.
Qed.

(** C10, as the code has it: the check raises [DatabaseError] exactly when
    the version is not empty and its first dot-separated component reads as
    an integer [n] with [n <> 0] and [n < 8] (negative majors included);
    it raises nothing else, and otherwise returns normally. *)
Theorem validate_raises_iff (version : string) :
  (_validate_mysql_connector version = Raise (DatabaseError (unsupported_message version))
   <-> version <> "" /\
       exists n, int_of_str (split_head "." version) = Some n /\ n <> 0 /\ n < 8)
  /\ (_validate_mysql_connector version = Ok tt
      \/ _validate_mysql_connector version
         = Raise (DatabaseError (unsupported_message version))).
Proof.
  unfold _validate_mysql_connector.
  destruct (String.eqb_spec version "") as [->|Hne].
  - split; [split|left; reflexivity].
    + discriminate.
    + intros [Hv _]. now contradiction Hv.
  - destruct (int_of_str (split_head "." version)) as [n|] eqn:Hint.
    + destruct (Z.eqb_spec n 0) as [->|Hn0]; simpl.
      * split; [split|left; reflexivity]; [discriminate|].
        intros (_ & m & Hm & Hm0 & _). congruence.
      * destruct (Z.ltb_spec n 8) as [Hlt|Hge].
        -- split; [split|right; reflexivity]; [|reflexivity].
           intros _. split; [assumption|]. exists n. auto.
        -- split; [split|left; reflexivity]; [discriminate|].
           intros (_ & m & Hm & _ & Hm8). assert (m = n) by congruence. lia.
    + simpl. split; [split|left; reflexivity]; [discriminate|].
      intros (_ & m & Hm & _). discriminate.
Qed.

End DriverFacts.

(** ** Payment response *)

Section LinklyFacts.
Context `{PyFloat} `{!PyText}.
Import Linkly.

Lemma interpret_empty :
  _interpret_linkly_response "" = Ok (false, Some no_response).
Proof. reflexivity. Qed.

(** A response that is not JSON: the keyword scan decides, approval
    keywords first. *)
Lemma interpret_not_json (response : string) :
  response <> "" ->
  json_loads (response_text response) = Raise JSONDecodeError ->
  let text := response_text response in
  let upper := str_upper text in
  _interpret_linkly_response response =
    Ok (if contains "APPROVED" upper || contains "SUCCESS" upper then (true, None)
        else if contains "DECLINED" upper || contains "FAILED" upper
                || contains "ERROR" upper
             then (false, Some text)
             else (false, Some ("Unrecognized Linkly response: " +:+ text))).
Proof.
  intros Hne Hjson. unfold _interpret_linkly_response.
  destruct (String.eqb_spec response "") as [->|_]; [contradiction|].
  rewrite Hjson. reflexivity.
Qed.

(** A response that is a JSON object: approved when [approved] or [success]
    is truthy; otherwise the reason is the first truthy of [message],
    [responseText] and the generic text, passed through [str]. *)
Lemma interpret_json_object (response : string) (d : dict) :
  response <> "" ->
  json_loads (response_text response) = Ok (PDict d) ->
  let field k := default PNone (dict_get d k) in
  _interpret_linkly_response response =
    if py_truthy (field "approved") || py_truthy (field "success")
    then Ok (true, None)
    else Ok (false,
             Some (py_str (py_or (field "message")
                                 (py_or (field "responseText") (PStr declined))))).
Proof.
  intros Hne Hjson. unfold _interpret_linkly_response.
  destruct (String.eqb_spec response "") as [->|_]; [contradiction|].
  rewrite Hjson.
  unfold interpret_parsed, py_or; simpl.
  destruct (py_truthy (default PNone (dict_get d "approved"))) eqn:Ha; simpl.
  - rewrite Ha. reflexivity.
  - destruct (py_truthy (default PNone (dict_get d "success"))); simpl; [reflexivity|].
    destruct (py_truthy (default PNone (dict_get d "message"))); reflexivity.
Qed.

(** A response that is JSON but not an object: [parsed.get] raises. *)
Lemma interpret_json_not_object (response : string) (v : pyval) :
  response <> "" ->
  json_loads (response_text response) = Ok v ->
  is_dict v = false ->
  _interpret_linkly_response response = Raise AttributeError.
Proof.
  intros Hne Hjson Hv. unfold _interpret_linkly_response.
  destruct (String.eqb_spec response "") as [->|_]; [contradiction|].
  rewrite Hjson.
  destruct v; try discriminate; reflexivity.
Qed.

End LinklyFacts.

(** ** Insertion-ordered dictionaries *)

Section DictFacts.
Context `{PyFloat}.

Lemma dict_get_set (k k' : string) (v : pyval) (c : dict) :
  dict_get (dict_set k v c) k' = if String.eqb k' k then Some v else dict_get c k'.
Proof.
  induction c as [|[k0 v0] c IH]; simpl.
  - reflexivity.
  - destruct (String.eqb_spec k k0) as [->|Hk]; simpl.
    + destruct (String.eqb k' k0); reflexivity.
    + rewrite IH. destruct (String.eqb_spec k' k0) as [->|Hk'].
      * destruct (String.eqb_spec k0 k); [congruence|reflexivity].
      * reflexivity.
Qed.

Lemma dict_get_set_eq (k : string) (v : pyval) (c : dict) :
  dict_get (dict_set k v c) k = Some v.
Proof. rewrite dict_get_set, String.eqb_refl. reflexivity. Qed.

Lemma dict_get_set_ne (k k' : string) (v : pyval) (c : dict) :
  k' <> k -> dict_get (dict_set k v c) k' = dict_get c k'.
Proof.
  intros Hne. rewrite dict_get_set.
  destruct (String.eqb_spec k' k); [contradiction|reflexivity].
Qed.

(** Assigning to a bound key keeps the order of the keys. *)
Lemma dict_set_keys_bound (k : string) (v : pyval) (c : dict) :
  In k (map fst c) -> map fst (dict_set k v c) = map fst c.
Proof.
  induction c as [|[k0 v0] c IH]; simpl; intros Hin.
  - contradiction.
  - destruct (String.eqb_spec k k0) as [->|Hk]; simpl.
    + reflexivity.
    + f_equal. apply IH. destruct Hin; [congruence|assumption].
Qed.

(** Assigning to a fresh key appends the binding. *)
Lemma dict_set_fresh (k : string) (v : pyval) (c : dict) :
  ~ In k (map fst c) -> dict_set k v c = c ++ [(k, v)].
Proof.
  induction c as [|[k0 v0] c IH]; simpl; intros Hin.
  - reflexivity.
  - destruct (String.eqb_spec k k0) as [->|Hk].
    + exfalso. apply Hin. now left.
    + f_equal. apply IH. intros Hc. apply Hin. now right.
Qed.

Lemma dict_set_keys (k : string) (v : pyval) (c : dict) :
  map fst (dict_set k v c) = map fst c
  \/ (~ In k (map fst c) /\ map fst (dict_set k v c) = map fst c ++ [k]).
Proof.
  destruct (in_dec string_dec k (map fst c)) as [Hin|Hout].
  - left. now apply dict_set_keys_bound.
  - right. split; [assumption|].
    rewrite dict_set_fresh by assumption. rewrite map_app. reflexivity.
Qed.



Lemma dict_set_NoDup (k : string) (v : pyval) (c : dict) :
  NoDup (map fst c) -> NoDup (map fst (dict_set k v c)).
Proof.
  intros Hnd. destruct (dict_set_keys k v c) as [->|[Hout ->]]; [assumption|].
  apply NoDup_app. repeat split.
  - assumption.
  - intros x Hx Hx'. apply list_elem_of_In in Hx, Hx'.
    destruct Hx' as [<-|[]]. contradiction.
  - apply NoDup_singleton.
Qed.

Lemma dict_set_Forall (P : string * pyval -> Prop) (k : string) (v : pyval) (c : dict) :
  Forall P c -> P (k, v) -> Forall P (dict_set k v c).
Proof.
  induction c as [|[k0 v0] c IH]; simpl; intros Hc Hp.
  - constructor; [assumption|constructor].
  - inversion Hc as [|? ? Hh Ht]; subst.
    destruct (String.eqb_spec k k0) as [->|Hk].
    + constructor; assumption.
    + constructor; [assumption|]. now apply IH.
Qed.

Lemma dict_get_In (k : string) (v : pyval) (c : dict) :
  dict_get c k = Some v -> In (k, v) c.
Proof.
  induction c as [|[k0 v0] c IH]; simpl; [discriminate|].
  destruct (String.eqb_spec k k0) as [->|Hk].
  - intros [= ->]. now left.
  - intros Hget. right. now apply IH.
Qed.

Lemma dict_get_None (k : string) (c : dict) :
  dict_get c k = None <-> ~ In k (map fst c).
Proof.
  induction c as [|[k0 v0] c IH]; simpl.
  - split; [intros _ []|reflexivity].
  - destruct (String.eqb_spec k k0) as [->|Hk].
    + split; [discriminate|]. intros Hn. exfalso. apply Hn. now left.
    + rewrite IH. split.
      * intros Hn [Heq|Hin]; [congruence|contradiction].
      * intros Hn Hin. apply Hn. now right.
Qed.

Lemma In_dict_get (k : string) (v : pyval) (c : dict) :
  NoDup (map fst c) -> In (k, v) c -> dict_get c k = Some v.
Proof.
  induction c as [|[k0 v0] c IH]; simpl; intros Hnd Hin; [contradiction|].
  apply NoDup_cons in Hnd as [Hout Hnd].
  destruct Hin as [[= -> ->]|Hin].
  - now rewrite String.eqb_refl.
  - destruct (String.eqb_spec k k0) as [->|Hk].
    + exfalso. apply Hout. apply list_elem_of_In.
      change k0 with (fst (k0, v)). now apply in_map.
    + now apply IH.
Qed.


(** Dictionaries with the same bindings hold the same values, up to order. *)
Lemma dict_values_Permutation (c c' : dict) :
  NoDup (map fst c) -> NoDup (map fst c') ->
  (forall k, dict_get c k = dict_get c' k) ->
  Permutation (dict_values c) (dict_values c').
Proof.
  intros Hnd Hnd' Hget. unfold dict_values.
  apply Permutation_map.
  apply NoDup_Permutation.
  - eapply NoDup_fmap_1. exact Hnd.
  - eapply NoDup_fmap_1. exact Hnd'.
  - intros [k v]. rewrite !list_elem_of_In. split; intros Hin.
    + apply dict_get_In. rewrite <- Hget. now apply In_dict_get.
    + apply dict_get_In. rewrite Hget. now apply In_dict_get.
Qed.

End DictFacts.

(** ** Product cache *)

Section CacheFacts.
Context `{PyFloat} `{!PyText}.
Import Cache.

Lemma load_cache_entries (f : cache_file) : load_cache f = Ok (cache_entries f).
Proof. destruct f as [| |[]]; reflexivity. Qed.


Lemma py_get_barcode (p : pyval) :
  is_dict p = true -> py_get p "barcode" = Ok (barcode_of p).
Proof. destruct p; try discriminate. reflexivity. Qed.



Lemma merge_into_cache_nil (dump : list pyval -> write) (f : cache_file) :
  _merge_into_cache dump f [] = Ok f.
Proof. reflexivity. Qed.




(** *** The invariant of the dictionary the merge builds *)

Lemma well_keyed_nil : well_keyed [].
Proof. split; constructor. Qed.

Lemma well_keyed_set (p : pyval) (c : dict) :
  well_keyed c -> well_keyed (dict_set (key_of p) p c).
Proof.
  intros [Hnd Hk]. split.
  - now apply dict_set_NoDup.
  - now apply dict_set_Forall.
Qed.

Lemma well_keyed_build (l : list pyval) (c : dict) :
  well_keyed c -> well_keyed (fold_left build_step l c).
Proof.
  revert c. induction l as [|p l IH]; intros c Hc; [assumption|].
  simpl. apply IH. unfold build_step.
  destruct (py_truthy (barcode_of p)); [now apply well_keyed_set|assumption].
Qed.

Lemma well_keyed_merge (l : list pyval) (c : dict) :
  well_keyed c -> well_keyed (fold_left merge_step l c).
Proof.
  revert c. induction l as [|p l IH]; intros c Hc; [assumption|].
  simpl. apply IH. unfold merge_step.
  destruct (negb (String.eqb (key_of p) "")); [now apply well_keyed_set|assumption].
Qed.


Lemma merged_well_keyed (old products : list pyval) :
  well_keyed (fold_left merge_step products (fold_left build_step old [])).
Proof. apply well_keyed_merge, well_keyed_build, well_keyed_nil. Qed.



(** *** Which product ends under a key *)

Lemma pick_fold_acc (k : string) (l : list pyval) (a : option pyval) :
  fold_left (pick k) l a
  = match fold_left (pick k) l None with Some p => Some p | None => a end.
Proof.
  revert a. induction l as [|p l IH]; intros a; [reflexivity|].
  simpl. rewrite (IH (pick k a p)), (IH (pick k None p)).
  destruct (fold_left (pick k) l None); [reflexivity|].
  unfold pick. destruct (negb (String.eqb (key_of p) "") && String.eqb (key_of p) k);
    reflexivity.
Qed.

Lemma last_merged_cons (k : string) (p : pyval) (l : list pyval) :
  last_merged (p :: l) k
  = match last_merged l k with Some q => Some q | None => pick k None p end.
Proof. unfold last_merged. simpl. apply (pick_fold_acc k l (pick k None p)). Qed.


Lemma merge_fold_get (l : list pyval) (c : dict) (k : string) :
  dict_get (fold_left merge_step l c) k
  = match last_merged l k with Some p => Some p | None => dict_get c k end.
Proof.
  revert c. induction l as [|p l IH]; intros c; [reflexivity|].
  simpl. rewrite IH, last_merged_cons.
  destruct (last_merged l k); [reflexivity|].
  unfold merge_step, pick.
  destruct (String.eqb_spec (key_of p) ""); simpl; [reflexivity|].
  rewrite dict_get_set, String.eqb_sym.
  destruct (String.eqb (key_of p) k); reflexivity.
Qed.




(** *** Keys of the merged dictionary *)






(** *** Reloading the saved entries *)


Lemma pick_built_fold_acc (k : string) (l : list pyval) (a : option pyval) :
  fold_left (pick_built k) l a
  = match fold_left (pick_built k) l None with Some p => Some p | None => a end.
Proof.
  revert a. induction l as [|p l IH]; intros a; [reflexivity|].
  simpl. rewrite (IH (pick_built k a p)), (IH (pick_built k None p)).
  destruct (fold_left (pick_built k) l None); [reflexivity|].
  unfold pick_built. destruct (py_truthy (barcode_of p) && String.eqb (key_of p) k);
    reflexivity.
Qed.

Lemma last_built_cons (k : string) (p : pyval) (l : list pyval) :
  last_built (p :: l) k
  = match last_built l k with Some q => Some q | None => pick_built k None p end.
Proof. unfold last_built. simpl. apply (pick_built_fold_acc k l (pick_built k None p)). Qed.

Lemma build_fold_get (l : list pyval) (c : dict) (k : string) :
  dict_get (fold_left build_step l c) k
  = match last_built l k with Some p => Some p | None => dict_get c k end.
Proof.
  revert c. induction l as [|p l IH]; intros c; [reflexivity|].
  simpl. rewrite IH, last_built_cons.
  destruct (last_built l k); [reflexivity|].
  unfold build_step, pick_built.
  destruct (py_truthy (barcode_of p)); simpl; [|reflexivity].
  rewrite dict_get_set, String.eqb_sym.
  destruct (String.eqb (key_of p) k); reflexivity.
Qed.

(** Reloading keeps exactly the bindings whose value has a truthy barcode. *)
Lemma last_built_values (c : dict) (k : string) :
  well_keyed c ->
  last_built (map snd c) k
  = match dict_get c k with
    | Some v => if py_truthy (barcode_of v) then Some v else None
    | None => None
    end.
Proof.
  intros [Hnd Hk]. induction c as [|[k0 v0] c IH]; [reflexivity|].
  inversion Hk as [|? ? Hkv Hk']; subst. simpl in Hkv, Hnd.
  apply NoDup_cons in Hnd as [Hout Hnd].
  simpl map. rewrite last_built_cons, (IH Hnd Hk'). simpl dict_get.
  unfold pick_built. rewrite Hkv.
  destruct (String.eqb_spec k k0) as [->|Hne].
  - assert (dict_get c k0 = None) as ->.
    { apply dict_get_None. intros Hin. apply Hout. now apply list_elem_of_In. }
    rewrite String.eqb_refl, andb_true_r. reflexivity.
  - destruct (String.eqb_spec k0 k); [congruence|]. rewrite andb_false_r.
    destruct (dict_get c k) as [v|]; [|reflexivity].
    destruct (py_truthy (barcode_of v)); reflexivity.
Qed.

(** *** Truthy barcodes *)

Lemma build_fold_truthy (l : list pyval) (c : dict) :
  truthy_values c -> truthy_values (fold_left build_step l c).
Proof.
  revert c. induction l as [|p l IH]; intros c Hc; [assumption|].
  simpl. apply IH. unfold build_step.
  destruct (py_truthy (barcode_of p)) eqn:Hp; [|assumption].
  now apply dict_set_Forall.
Qed.


(** *** A second merge of the same list *)


(** In general the saved entries are the same up to their order. *)
Lemma merged_idempotent_perm (old products : list pyval) :
  Permutation (merged (merged old products) products) (merged old products).
Proof.
  unfold merged at 1 3.
  set (c0 := fold_left build_step old []).
  set (c1 := fold_left merge_step products c0).
  assert (well_keyed c0) as Hw0 by apply well_keyed_build, well_keyed_nil.
  assert (well_keyed c1) as Hw1 by now apply well_keyed_merge.
  assert (truthy_values c0) as Ht0 by (apply build_fold_truthy; constructor).
  apply dict_values_Permutation.
  - apply merged_well_keyed.
  - apply Hw1.
  - intros k. unfold merged. fold c0. fold c1. unfold c1 at 2.
    rewrite !merge_fold_get.
    destruct (last_merged products k) as [p|] eqn:Hlast; [reflexivity|].
    rewrite build_fold_get. unfold dict_values. rewrite (last_built_values c1 k Hw1).
    unfold c1. rewrite merge_fold_get, Hlast. simpl.
    destruct (dict_get c0 k) as [v|] eqn:Hget; [|reflexivity].
    apply dict_get_In in Hget.
    unfold truthy_values in Ht0. rewrite List.Forall_forall in Ht0.
    specialize (Ht0 _ Hget). simpl in Ht0. now rewrite Ht0.
Qed.

(** *** Where the saved entries come from *)











(** *** Lookup in the cache *)

Lemma find_loop_first (barcode : string) (l1 l2 : list pyval) (p : pyval) :
  all_dicts l1 -> is_dict p = true ->
  Forall (fun e => key_of e <> barcode) l1 -> key_of p = barcode ->
  find_loop barcode (l1 ++ p :: l2) = Ok (Some p).
Proof.
  intros Hd Hp Hl1 Hk. induction l1 as [|e l1 IH]; simpl.
  - rewrite (py_get_barcode p Hp). simpl. fold (key_of p).
    now rewrite Hk, String.eqb_refl.
  - inversion Hd as [|? ? He Hd']; inversion Hl1 as [|? ? Hne Hl1']; subst.
    rewrite (py_get_barcode e He). simpl. fold (key_of e).
    destruct (String.eqb_spec (key_of e) (key_of p)); [contradiction|].
    now apply IH.
Qed.

(** On a miss the source of truth is queried once. *)
Lemma fetch_cache_miss (w : world) (barcode : string) :
  _find_in_cache_by_barcode (cache w) barcode = Ok None ->
  queries (snd (fetch_product_by_barcode w barcode)) = queries w ++ [barcode].
Proof.
  intros Hfind. unfold fetch_product_by_barcode. rewrite Hfind.
  unfold fetch_from_source.
  destruct (source w barcode) as [row| |e]; try reflexivity.
  destruct row as [|kv row]; [reflexivity|].
  destruct (py_truthy _); [|reflexivity].
  destruct (_merge_into_cache _ _); reflexivity.
Qed.

(** C5, as the code has it.  For a non-empty barcode whose first matching
    cache entry is [p], a truthy (non-empty) object, the entries before it
    being objects, the lookup returns [p] and leaves the world as it was:
    no query reaches the source of truth and the cache file is not
    written.  For the empty barcode the cache is not consulted: whatever
    it holds, the source of truth is queried. *)
Theorem fetch_cache_hit (w : world) (barcode : string) (l1 l2 : list pyval) (p : pyval) :
  (barcode <> "" ->
   cache_entries (cache w) = l1 ++ p :: l2 ->
   all_dicts l1 -> is_dict p = true ->
   Forall (fun e => key_of e <> barcode) l1 ->
   key_of p = barcode ->
   py_truthy p = true ->
   fetch_product_by_barcode w barcode = (Ok (Some p), w)) /\
  queries (snd (fetch_product_by_barcode w "")) = queries w ++ [""].
Proof.
  split.
  - intros Hne Hentries Hd Hp Hl1 Hk Ht.
    unfold fetch_product_by_barcode, _find_in_cache_by_barcode.
    destruct (String.eqb_spec barcode ""); [contradiction|].
    rewrite load_cache_entries, Hentries. simpl bind.
    rewrite (find_loop_first barcode l1 l2 p Hd Hp Hl1 Hk). now rewrite Ht.
  - apply fetch_cache_miss. reflexivity.
Qed.

End CacheFacts.

(** ** Transactions *)

Section TxFacts.
Import Tx.
Context {D S : Type}.
Variable run : S -> D -> D * nat.
Variable fl : faults.

Lemma pbind_assoc {A B C} (m : prog D S A) (k1 : A -> prog D S B) (k2 : B -> prog D S C)
      (c : conn D S) :
  pbind (pbind m k1) k2 c = pbind m (fun x => pbind (k1 x) k2) c.
Proof. unfold pbind. destruct (m c) as [[a|e] c']; reflexivity. Qed.

Lemma count_commits_app (l1 l2 : list (call S)) :
  count_commits (l1 ++ l2) = (count_commits l1 + count_commits l2)%nat.
Proof. unfold count_commits. now rewrite filter_app, length_app. Qed.

Lemma count_rollbacks_app (l1 l2 : list (call S)) :
  count_rollbacks (l1 ++ l2) = (count_rollbacks l1 + count_rollbacks l2)%nat.
Proof. unfold count_rollbacks. now rewrite filter_app, length_app. Qed.

Lemma count_commits_cons (x : call S) (l : list (call S)) :
  count_commits (x :: l) = ((if is_commit x then 1 else 0) + count_commits l)%nat.
Proof.
  unfold count_commits. rewrite filter_cons.
  destruct (is_commit x); [rewrite decide_True|rewrite decide_False]; auto.
Qed.

Lemma count_rollbacks_cons (x : call S) (l : list (call S)) :
  count_rollbacks (x :: l) = ((if is_rollback x then 1 else 0) + count_rollbacks l)%nat.
Proof.
  unfold count_rollbacks. rewrite filter_cons.
  destruct (is_rollback x); [rewrite decide_True|rewrite decide_False]; auto.
Qed.

Lemma count_commits_ok_calls (stmts : list S) : count_commits (ok_calls stmts) = 0%nat.
Proof. induction stmts as [|s stmts IH]; [reflexivity|exact IH]. Qed.

Lemma count_rollbacks_ok_calls (stmts : list S) : count_rollbacks (ok_calls stmts) = 0%nat.
Proof. induction stmts as [|s stmts IH]; [reflexivity|exact IH]. Qed.

(** Statements that all succeed, inside a transaction: the pending contents
    advance, the committed contents stay. *)
Lemma execute_all_ok (stmts : list S) (c : conn D S) (dp : D) :
  pending c = Some dp ->
  (forall k, (k < length stmts)%nat -> execute_fault fl (executed c + k) = None) ->
  exists n,
    execute_all run fl stmts c
    = (Ok tt, Conn (committed c) (Some (run_all run stmts dp))
                   (executed c + length stmts) n (calls c ++ ok_calls stmts)).
Proof.
  revert c dp. induction stmts as [|s stmts IH]; intros c dp Hp Hf.
  - exists (rowcount c). destruct c as [cm pd ex rc cl]. simpl in *. subst pd.
    now rewrite Nat.add_0_r, app_nil_r.
  - simpl execute_all. unfold pbind, execute.
    pose proof (Hf 0%nat ltac:(simpl; lia)) as H0. rewrite Nat.add_0_r in H0.
    rewrite H0, Hp. destruct (run s dp) as [d' n] eqn:Hrun.
    edestruct (IH (Conn (committed c) (Some d') (Datatypes.S (executed c)) n
                        (logged c (CExecute s true))) d') as [n' Hn'].
    + reflexivity.
    + intros k Hk. simpl. rewrite <- Nat.add_succ_r. apply Hf. simpl. lia.
    + exists n'. rewrite Hn'. simpl. unfold run_all at 2. simpl. rewrite Hrun. simpl.
      unfold logged. rewrite <- app_assoc, Nat.add_succ_r. reflexivity.
Qed.

(** The first failing statement: the error is raised at once, the
    committed contents stay. *)
Lemma execute_all_fault (stmts : list S) (c : conn D S) (dp : D)
      (k : nat) (msg : string) (s : S) :
  pending c = Some dp ->
  nth_error stmts k = Some s ->
  (forall j, (j < k)%nat -> execute_fault fl (executed c + j) = None) ->
  execute_fault fl (executed c + k) = Some msg ->
  exists n,
    execute_all run fl stmts c
    = (Raise (MySQLError msg),
       Conn (committed c) (Some (run_all run (firstn k stmts) dp))
            (executed c + Datatypes.S k) n
            (calls c ++ ok_calls (firstn k stmts) ++ [CExecute s false])).
Proof.
  revert c dp k. induction stmts as [|s0 stmts IH]; intros c dp k Hp Hnth Hok Hfault.
  - destruct k; discriminate.
  - destruct k as [|k].
    + injection Hnth as ->. rewrite Nat.add_0_r in Hfault.
      simpl execute_all. unfold pbind, execute. rewrite Hfault.
      exists (rowcount c). simpl. rewrite Hp, Nat.add_1_r. reflexivity.
    + simpl in Hnth. simpl execute_all. unfold pbind, execute.
      pose proof (Hok 0%nat ltac:(lia)) as H0. rewrite Nat.add_0_r in H0.
      rewrite H0, Hp. destruct (run s0 dp) as [d' n] eqn:Hrun.
      edestruct (IH (Conn (committed c) (Some d') (Datatypes.S (executed c)) n
                          (logged c (CExecute s0 true))) d' k) as [n' Hn'].
      * reflexivity.
      * exact Hnth.
      * intros j Hj. simpl. rewrite <- Nat.add_succ_r. apply Hok. lia.
      * simpl. rewrite <- Nat.add_succ_r. exact Hfault.
      * exists n'. rewrite Hn'. simpl. unfold run_all at 2. simpl. rewrite Hrun. simpl.
        unfold logged. rewrite <- app_assoc, !Nat.add_succ_r. reflexivity.
Qed.

(** Statements that returned, inside a transaction. *)
Lemma execute_all_returns (stmts : list S) (c c1 : conn D S) (dp : D) :
  pending c = Some dp ->
  execute_all run fl stmts c = (Ok tt, c1) ->
  committed c1 = committed c /\ pending c1 = Some (run_all run stmts dp).
Proof.
  revert c dp. induction stmts as [|s stmts IH]; intros c dp Hp Hex.
  - injection Hex as <-. now split.
  - simpl in Hex. unfold pbind, execute in Hex.
    destruct (execute_fault fl (executed c)); [discriminate|].
    rewrite Hp in Hex. destruct (run s dp) as [d' n] eqn:Hrun.
    apply (IH _ d') in Hex; [|reflexivity].
    unfold run_all. simpl. rewrite Hrun. exact Hex.
Qed.

(** The frame around a body that returns. *)
Lemma transaction_returns {A} (body : prog D S A) (d : D) (a : A) (c1 : conn D S) :
  connect_fault fl = None -> begin_fault fl = None ->
  body (opened d) = (Ok a, c1) ->
  transaction fl body (idle d)
  = (Ok a, Conn (committed c1) None (executed c1) (rowcount c1)
                (calls c1 ++ [CCursorClose; CClose])).
Proof.
  intros Hc Hb Hbody. unfold transaction, pbind, pool_connect, start_transaction.
  rewrite Hc, Hb. simpl. unfold try_finally, try_except. fold (@opened D S d).
  unfold logged. simpl. fold (@opened D S d). rewrite Hbody. simpl.
  unfold logged. simpl. now rewrite <- app_assoc.
Qed.

(** The frame around a body in which the driver raises: the transaction is
    rolled back, then [DatabaseError] is raised, then cursor and connection
    are closed. *)
Lemma transaction_rolls_back {A} (body : prog D S A) (d : D) (msg : string)
      (c1 : conn D S) :
  connect_fault fl = None -> begin_fault fl = None ->
  body (opened d) = (Raise (MySQLError msg), c1) ->
  transaction fl body (idle d)
  = (Raise (DatabaseError msg),
     Conn (committed c1) None (executed c1) (rowcount c1)
          (calls c1 ++ [CRollback; CCursorClose; CClose])).
Proof.
  intros Hc Hb Hbody. unfold transaction, pbind, pool_connect, start_transaction.
  rewrite Hc, Hb. simpl. unfold try_finally, try_except. fold (@opened D S d).
  unfold logged. simpl. fold (@opened D S d). rewrite Hbody. simpl.
  unfold logged. simpl. now rewrite <- !app_assoc.
Qed.

(** The frame around any body that only raises with the committed contents
    untouched: a call that raises leaves them untouched, and leaves no
    transaction open. *)
Lemma transaction_raises {A} (body : prog D S A) (d : D) (ex : exn) (c : conn D S) :
  (forall e1 c1, body (opened d) = (Raise e1, c1) -> committed c1 = d) ->
  transaction fl body (idle d) = (Raise ex, c) ->
  committed c = d /\ pending c = None.
Proof.
  intros Hbody. unfold transaction, pbind, pool_connect, start_transaction.
  destruct (connect_fault fl); simpl; [intros [= _ <-]; now split|].
  destruct (begin_fault fl); simpl; [intros [= _ <-]; now split|].
  unfold try_finally, try_except. unfold logged. simpl. fold (@opened D S d).
  destruct (body (opened d)) as [[a|e1] c1] eqn:Hb; simpl; [discriminate|].
  specialize (Hbody _ _ eq_refl).
  destruct e1; simpl; intros [= _ <-]; simpl; now split.
Qed.

(** The frame around a body that raises what the handler does not catch:
    the exception goes through, no rollback is called, cursor and
    connection are closed (which discards the transaction). *)
Lemma transaction_passes {A} (body : prog D S A) (d : D) (ex : exn) (c1 : conn D S) :
  connect_fault fl = None -> begin_fault fl = None ->
  (forall msg, ex <> MySQLError msg) ->
  body (opened d) = (Raise ex, c1) ->
  transaction fl body (idle d)
  = (Raise ex, Conn (committed c1) None (executed c1) (rowcount c1)
                    (calls c1 ++ [CCursorClose; CClose])).
Proof.
  intros Hc Hb Hex Hbody. unfold transaction, pbind, pool_connect, start_transaction.
  rewrite Hc, Hb. simpl. unfold try_finally, try_except. fold (@opened D S d).
  unfold logged. simpl. fold (@opened D S d). rewrite Hbody.
  destruct ex; simpl; try (unfold logged; simpl; now rewrite <- ?app_assoc).
  now destruct (Hex msg).
Qed.

(** What one [execute] does to the log and to the statement counter. *)
Lemma execute_inv (s : S) (c : conn D S) :
  match execute run fl s c with
  | (Ok _, c1) =>
      (execute_fault fl (executed c) = None) /\
      (executed c1 = Datatypes.S (executed c)) /\
      (calls c1 = (calls c ++ [CExecute s true])%list)
  | (Raise ex, c1) =>
      exists msg, (ex = MySQLError msg) /\
                  (execute_fault fl (executed c) = Some msg) /\
                  (calls c1 = (calls c ++ [CExecute s false])%list)
  end.
Proof.
  unfold execute. destruct (execute_fault fl (executed c)) as [msg|].
  - exists msg. now repeat split.
  - destruct (pending c) as [dp|].
    + destruct (run s dp). now repeat split.
    + destruct (run s (committed c)). now repeat split.
Qed.

Lemma count_commits_execute (l : list (call S)) (s : S) (b : bool) :
  count_commits (l ++ [CExecute s b]) = count_commits l.
Proof. rewrite count_commits_app, count_commits_cons. simpl. unfold count_commits. simpl. lia. Qed.

Lemma count_rollbacks_execute (l : list (call S)) (s : S) (b : bool) :
  count_rollbacks (l ++ [CExecute s b]) = count_rollbacks l.
Proof.
  rewrite count_rollbacks_app, count_rollbacks_cons. simpl. unfold count_rollbacks. simpl. lia.
Qed.

(** Statements that returned met no fault. *)
Lemma execute_all_faultless (stmts : list S) (c c1 : conn D S) :
  execute_all run fl stmts c = (Ok tt, c1) ->
  forall k, (k < length stmts)%nat -> execute_fault fl (executed c + k) = None.
Proof.
  revert c. induction stmts as [|s stmts IH]; intros c Hex k Hk; [simpl in Hk; lia|].
  simpl in Hex. unfold pbind in Hex.
  pose proof (execute_inv s c) as Hinv.
  destruct (execute run fl s c) as [[[]|ex] c2]; [|discriminate].
  destruct Hinv as (Hf & Hexec & _).
  destruct k as [|k]; [now rewrite Nat.add_0_r|].
  specialize (IH c2 Hex k ltac:(simpl in Hk; lia)).
  rewrite Hexec in IH. rewrite Nat.add_succ_r. exact IH.
Qed.

(** A frame that returns: its body returned. *)
Lemma transaction_returned {A} (body : prog D S A) (d : D) (a : A) (c : conn D S) :
  transaction fl body (idle d) = (Ok a, c) ->
  exists c1, body (opened d) = (Ok a, c1) /\ committed c = committed c1.
Proof.
  unfold transaction, pbind, pool_connect, start_transaction.
  destruct (connect_fault fl); simpl; [discriminate|].
  destruct (begin_fault fl); simpl; [discriminate|].
  unfold try_finally, try_except. unfold logged. simpl. fold (@opened D S d).
  destruct (body (opened d)) as [[a1|e1] c1] eqn:Hb; simpl.
  - intros [= <- <-]. now exists c1.
  - destruct e1; simpl; discriminate.
Qed.

End TxFacts.

(** ** Recording a sale *)

Section SaleFacts.
Import Tx Sale.
Context `{PyFloat} `{!PyText}.
Variable id_eq : pyval -> Z -> bool.

Local Abbreviation run := (Sale.run id_eq).
Local Abbreviation body e method items :=
  (pbind (sale_loop id_eq e method 0 items)
         (fun _ => pbind (commit (db_faults e)) (fun _ => ret true))).

Lemma record_sale_nil (e : env) (method : string) (c : conn db stmt) :
  record_sale id_eq e [] method c = (Ok false, c).
Proof. reflexivity. Qed.

Lemma record_sale_transaction (e : env) (items : list pyval) (method : string) :
  items <> [] ->
  record_sale id_eq e items method = transaction (db_faults e) (body e method items).
Proof. destruct items; [contradiction|reflexivity]. Qed.

(** When no conversion of an item raises, the loop sends the planned
    statements one after the other. *)
Lemma sale_loop_planned (e : env) (method : string) (items : list pyval) :
  forall (i : nat) (stmts : list stmt) (c : conn db stmt),
    planned e method i items = Ok stmts ->
    sale_loop id_eq e method i items c = execute_all run (db_faults e) stmts c.
Proof.
  induction items as [|item items IH]; intros i stmts c Hplan.
  - injection Hplan as <-. reflexivity.
  - simpl in Hplan.
    destruct (sale_row_of e method i item) as [r|] eqn:Hr; [|discriminate].
    destruct (stock_update_of item) as [u|] eqn:Hu; [|discriminate].
    destruct (planned e method (S i) items) as [l|] eqn:Hl; [|discriminate].
    injection Hplan as <-. simpl.
    unfold sale_item, pbind, lift. rewrite Hr, Hu.
    destruct (execute run (db_faults e) (InsertSale r) c) as [[[]|ex] c1]; [|reflexivity].
    destruct (execute run (db_faults e) u c1) as [[[]|ex] c2]; [|reflexivity].
    now apply IH.
Qed.

Lemma planned_length (e : env) (method : string) (items : list pyval) :
  forall (i : nat) (stmts : list stmt),
    planned e method i items = Ok stmts -> length stmts = (2 * length items)%nat.
Proof.
  induction items as [|item items IH]; intros i stmts Hplan.
  - now injection Hplan as <-.
  - simpl in Hplan.
    destruct (sale_row_of e method i item) as [r|]; [|discriminate].
    destruct (stock_update_of item) as [u|]; [|discriminate].
    destruct (planned e method (S i) items) as [l|] eqn:Hl; [|discriminate].
    injection Hplan as <-. simpl. rewrite (IH _ _ Hl). lia.
Qed.

(** A loop that returns has converted every item. *)
Lemma sale_loop_returns (e : env) (method : string) (items : list pyval) :
  forall (i : nat) (c c1 : conn db stmt),
    sale_loop id_eq e method i items c = (Ok tt, c1) ->
    exists stmts, planned e method i items = Ok stmts.
Proof.
  induction items as [|item items IH]; intros i c c1 Hloop.
  - now exists [].
  - simpl in *. unfold sale_item, pbind, lift in Hloop.
    destruct (sale_row_of e method i item) as [r|]; [|discriminate].
    destruct (execute run (db_faults e) (InsertSale r) c) as [[[]|ex] c2]; [|discriminate].
    destruct (stock_update_of item) as [u|]; [|discriminate].
    destruct (execute run (db_faults e) u c2) as [[[]|ex] c3]; [|discriminate].
    destruct (IH _ _ _ Hloop) as [l ->]. now eexists.
Qed.

(** One statement inside a transaction leaves the committed contents. *)
Lemma execute_keeps (e : env) (s : stmt) (c : conn db stmt) :
  is_Some (pending c) ->
  committed (snd (execute run (db_faults e) s c)) = committed c /\
  is_Some (pending (snd (execute run (db_faults e) s c))).
Proof.
  intros [dp Hp]. unfold execute.
  destruct (execute_fault (db_faults e) (executed c)); simpl.
  - split; [reflexivity|rewrite Hp; now eexists].
  - rewrite Hp. destruct (run s dp). simpl. split; [reflexivity|now eexists].
Qed.

(** Whatever the items are, the loop leaves the committed contents. *)
Lemma sale_loop_keeps (e : env) (method : string) (items : list pyval) :
  forall (i : nat) (c : conn db stmt),
    is_Some (pending c) ->
    committed (snd (sale_loop id_eq e method i items c)) = committed c /\
    is_Some (pending (snd (sale_loop id_eq e method i items c))).
Proof.
  induction items as [|item items IH]; intros i c Hp; [now split|].
  simpl. unfold sale_item, pbind, lift.
  destruct (sale_row_of e method i item) as [r|]; [|now split].
  pose proof (execute_keeps e (InsertSale r) c Hp) as [Hc1 Hp1].
  destruct (execute run (db_faults e) (InsertSale r) c) as [[[]|ex] c1]; [|now split].
  simpl in Hc1, Hp1.
  destruct (stock_update_of item) as [u|]; [|now split].
  pose proof (execute_keeps e u c1 Hp1) as [Hc2 Hp2].
  destruct (execute run (db_faults e) u c1) as [[[]|ex] c2]; simpl in Hc2, Hp2.
  - destruct (IH (S i) c2 Hp2) as [Hc3 Hp3].
    split; [now rewrite Hc3, Hc2, Hc1|assumption].
  - simpl. split; [now rewrite Hc2, Hc1|assumption].
Qed.

(** A failed sale changes nothing: whatever raises, in whatever state of
    the loop, the committed contents are those before the call and no
    transaction stays open. *)
Lemma record_sale_raise_keeps (e : env) (items : list pyval) (method : string)
      (d : db) (ex : exn) (c : conn db stmt) :
  record_sale id_eq e items method (idle d) = (Raise ex, c) ->
  committed c = d /\ pending c = None.
Proof.
  destruct items as [|item items]; [discriminate|].
  rewrite record_sale_transaction by discriminate.
  set (items' := item :: items).
  apply transaction_raises. intros e1 c1. unfold pbind.
  pose proof (sale_loop_keeps e method items' 0 (opened d) ltac:(now eexists)) as [Hk _].
  destruct (sale_loop id_eq e method 0 items' (opened d)) as [[[]|ex1] c2]; simpl in Hk.
  - unfold commit. destruct (commit_fault (db_faults e)); [|discriminate].
    intros [= _ <-]. exact Hk.
  - intros [= _ <-]. exact Hk.
Qed.

(** *** What the statements do to the two tables *)

Lemma run_all_sales (stmts : list stmt) (d : db) :
  sales (run_all run stmts d) = sales d ++ inserted_rows stmts.
Proof.
  revert d. induction stmts as [|s stmts IH]; intros d.
  - simpl. now rewrite app_nil_r.
  - unfold run_all in *. simpl. rewrite IH.
    destruct s as [r|x id]; simpl; [now rewrite <- app_assoc|reflexivity].
Qed.

Lemma run_all_products (stmts : list stmt) (d : db) :
  products (run_all run stmts d)
  = fold_left (fun ps u => update_stock id_eq (fst u) (snd u) ps)
              (stock_updates stmts) (products d).
Proof.
  revert d. induction stmts as [|s stmts IH]; intros d; [reflexivity|].
  unfold run_all in *. simpl. rewrite IH. destruct s as [r|x id]; reflexivity.
Qed.

Lemma sale_row_of_inv (e : env) (method : string) (i : nat) (item : pyval) (r : sale_row) :
  sale_row_of e method i item = Ok r ->
  sale_id r = _generate_id e i /\ method_type r = method /\
  py_get item "id" = Ok (sale_prod_id r) /\
  py_get_default item "amount" (PFloat fzero) = Ok (amount r) /\
  py_get_default item "qty" (PFloat fzero) = Ok (qty r).
Proof.
  unfold sale_row_of.
  destruct (py_get item "id") as [pid|] eqn:H1; [|discriminate].
  destruct (py_get_default item "amount" (PFloat fzero)) as [a|] eqn:H2; [|discriminate].
  destruct (py_get_default item "qty" (PFloat fzero)) as [q|] eqn:H3; [|discriminate].
  simpl. intros [= <-]. simpl. repeat split; reflexivity.
Qed.

Lemma stock_update_of_inv (item : pyval) (u : stmt) :
  stock_update_of item = Ok u ->
  exists duv qv du q pid,
    py_get item "deduct_unit" = Ok duv /\
    py_get item "qty" = Ok qv /\
    py_get item "id" = Ok pid /\
    py_float (py_or duv (PFloat fone)) = Ok du /\
    py_float (py_or qv (PFloat fzero)) = Ok q /\
    u = UpdateStock (fmul q du) pid.
Proof.
  unfold stock_update_of.
  destruct (py_get item "deduct_unit") as [duv|] eqn:H1; [|discriminate]. simpl.
  destruct (py_float (py_or duv (PFloat fone))) as [du|] eqn:H2; [|discriminate]. simpl.
  destruct (py_get item "qty") as [qv|] eqn:H3; [|discriminate]. simpl.
  destruct (py_float (py_or qv (PFloat fzero))) as [q|] eqn:H4; [|discriminate]. simpl.
  destruct (py_get item "id") as [pid|] eqn:H5; [|discriminate]. simpl.
  intros [= <-]. exists duv, qv, du, q, pid. repeat split; assumption.
Qed.

Lemma planned_rows (e : env) (method : string) (items : list pyval) :
  forall (i : nat) (stmts : list stmt),
    planned e method i items = Ok stmts ->
    Forall2 (fun item row =>
               py_get_default item "amount" (PFloat fzero) = Ok (amount row) /\
               py_get_default item "qty" (PFloat fzero) = Ok (qty row))
            items (inserted_rows stmts).
Proof.
  induction items as [|item items IH]; intros i stmts Hplan.
  - injection Hplan as <-. constructor.
  - simpl in Hplan.
    destruct (sale_row_of e method i item) as [r|] eqn:Hr; [|discriminate].
    destruct (stock_update_of item) as [u|] eqn:Hu; [|discriminate].
    destruct (planned e method (S i) items) as [l|] eqn:Hl; [|discriminate].
    injection Hplan as <-.
    apply stock_update_of_inv in Hu as (? & ? & ? & ? & ? & _ & _ & _ & _ & _ & ->).
    apply sale_row_of_inv in Hr as (_ & _ & _ & Ha & Hq).
    simpl. constructor; [now split|]. now apply (IH (S i)).
Qed.

Lemma planned_updates (e : env) (method : string) (items : list pyval) :
  forall (i : nat) (stmts : list stmt),
    planned e method i items = Ok stmts ->
    Forall2 (fun item u =>
               exists duv qv du q,
                 py_get item "deduct_unit" = Ok duv /\
                 py_get item "qty" = Ok qv /\
                 py_get item "id" = Ok (snd u) /\
                 py_float (py_or duv (PFloat fone)) = Ok du /\
                 py_float (py_or qv (PFloat fzero)) = Ok q /\
                 fst u = fmul q du)
            items (stock_updates stmts).
Proof.
  induction items as [|item items IH]; intros i stmts Hplan.
  - injection Hplan as <-. constructor.
  - simpl in Hplan.
    destruct (sale_row_of e method i item) as [r|] eqn:Hr; [|discriminate].
    destruct (stock_update_of item) as [u|] eqn:Hu; [|discriminate].
    destruct (planned e method (S i) items) as [l|] eqn:Hl; [|discriminate].
    injection Hplan as <-.
    apply stock_update_of_inv in Hu as (duv & qv & du & q & pid & H1 & H2 & H3 & H4 & H5 & ->).
    simpl. constructor; [|now apply (IH (S i))].
    exists duv, qv, du, q. simpl. repeat split; assumption.
Qed.

(** A sale that returns has returned [True], has sent the planned
    statements and has committed their effect. *)
Lemma record_sale_returns (e : env) (items : list pyval) (method : string)
      (d : db) (b : bool) (c : conn db stmt) :
  items <> [] ->
  record_sale id_eq e items method (idle d) = (Ok b, c) ->
  b = true /\
  exists stmts, planned e method 0 items = Ok stmts /\
                committed c = run_all run stmts d.
Proof.
  intros Hne. rewrite record_sale_transaction by assumption. intros Htx.
  apply transaction_returned in Htx as (c1 & Hbody & ->).
  unfold pbind in Hbody.
  destruct (sale_loop id_eq e method 0 items (opened d)) as [[[]|ex] c2] eqn:Hloop;
    [|discriminate].
  destruct (sale_loop_returns e method items _ _ _ Hloop) as [stmts Hplan].
  rewrite (sale_loop_planned e method items _ _ _ Hplan) in Hloop.
  apply (execute_all_returns run (db_faults e) stmts _ _ d) in Hloop as [Hc Hp];
    [|reflexivity].
  unfold commit in Hbody. destruct (commit_fault (db_faults e)); [discriminate|].
  injection Hbody as <- <-. simpl. split; [reflexivity|].
  exists stmts. split; [assumption|]. now rewrite Hp.
Qed.

(** *** Items that cannot be used, and outcomes of the loop *)

Local Ltac count_calls :=
  cbn [calls opened];
  rewrite ?count_commits_app, ?count_rollbacks_app, ?count_commits_cons,
    ?count_rollbacks_cons, ?count_commits_ok_calls, ?count_rollbacks_ok_calls;
  reflexivity.

Lemma py_float_raises (v : pyval) (ex : exn) :
  py_float v = Raise ex ->
  (forall msg, ex <> MySQLError msg) /\ (forall msg, ex <> DatabaseError msg).
Proof.
  destruct v as [|b|z|x|t|l|d]; simpl; try discriminate;
    try (intros [= <-]; split; discriminate).
  - destruct (float_of_Z z); [discriminate|]. intros [= <-]. split; discriminate.
  - destruct (float_of_str t); [discriminate|]. intros [= <-]. split; discriminate.
Qed.

Lemma usable_converts (e : env) (method : string) (i : nat) (item : pyval) :
  usable item = true ->
  exists r u, sale_row_of e method i item = Ok r /\ stock_update_of item = Ok u.
Proof.
  destruct item as [| | | | | |d]; try discriminate. unfold usable.
  intros Hu. apply andb_true_iff in Hu as [Hdu Hq].
  unfold sale_row_of, stock_update_of. cbn [py_get py_get_default bind].
  destruct (py_float (py_or (default PNone (dict_get d "deduct_unit")) (PFloat fone)));
    [|discriminate].
  destruct (py_float (py_or (default PNone (dict_get d "qty")) (PFloat fzero)));
    [|discriminate].
  cbn [bind]. eauto.
Qed.

Lemma sale_row_of_raises (e : env) (method : string) (i : nat) (item : pyval) (ex : exn) :
  sale_row_of e method i item = Raise ex -> usable item = false /\ ex = AttributeError.
Proof.
  destruct item; intros [= <-]; now split.
Qed.

Lemma stock_update_of_raises (item : pyval) (ex : exn) :
  stock_update_of item = Raise ex ->
  usable item = false /\
  (forall msg, ex <> MySQLError msg) /\ (forall msg, ex <> DatabaseError msg).
Proof.
  destruct item as [| | | | | |d];
    try (intros [= <-]; split; [reflexivity|split; discriminate]).
  unfold stock_update_of, usable. cbn [py_get bind].
  destruct (py_float (py_or (default PNone (dict_get d "deduct_unit")) (PFloat fone)))
    as [du|e1] eqn:Hdu; cbn [bind].
  - destruct (py_float (py_or (default PNone (dict_get d "qty")) (PFloat fzero)))
      as [q|e2] eqn:Hq; cbn [bind]; [discriminate|].
    intros [= <-]. split; [apply andb_false_r|]. exact (py_float_raises _ _ Hq).
  - intros [= <-]. split; [reflexivity|]. exact (py_float_raises _ _ Hdu).
Qed.

Lemma planned_usable (e : env) (method : string) (items : list pyval) :
  forall i, (exists stmts, planned e method i items = Ok stmts) <->
            Forall (fun item => usable item = true) items.
Proof.
  induction items as [|item items IH]; intros i.
  - split; [constructor|now exists []].
  - split.
    + intros [stmts Hplan]. simpl in Hplan.
      destruct (sale_row_of e method i item) as [r|] eqn:Hr; [|discriminate].
      destruct (stock_update_of item) as [u|ex] eqn:Hu; [|discriminate].
      destruct (planned e method (S i) items) as [l|] eqn:Hl; [|discriminate].
      constructor; [|apply (IH (S i)); now exists l].
      destruct (usable item) eqn:Hus; [reflexivity|].
      destruct item as [| | | | | |d]; try discriminate.
      unfold stock_update_of in Hu. unfold usable in Hus. cbn [py_get bind] in Hu.
      destruct (py_float (py_or (default PNone (dict_get d "deduct_unit")) (PFloat fone)));
        [|discriminate].
      cbn [bind] in Hu.
      destruct (py_float (py_or (default PNone (dict_get d "qty")) (PFloat fzero)));
        [discriminate|discriminate].
    + intros Hall. inversion Hall as [|? ? Hitem Hrest]; subst.
      destruct (usable_converts e method i item Hitem) as (r & u & Hr & Hu).
      apply (IH (S i)) in Hrest as [l Hl].
      exists (InsertSale r :: u :: l). simpl. now rewrite Hr, Hu, Hl.
Qed.

(** A loop that raises: the log has gained statements only; a driver error
    is the fault of one of the statements of the loop; any other exception
    comes from an item that cannot be used. *)
Lemma sale_loop_raises (e : env) (method : string) (items : list pyval) :
  forall (i : nat) (c c1 : conn db stmt) (ex : exn),
    sale_loop id_eq e method i items c = (Raise ex, c1) ->
    count_commits (calls c1) = count_commits (calls c) /\
    count_rollbacks (calls c1) = count_rollbacks (calls c) /\
    match ex with
    | MySQLError msg =>
        exists k, (k < 2 * length items)%nat /\
                  execute_fault (db_faults e) (executed c + k) = Some msg
    | DatabaseError _ => False
    | _ => ~ Forall (fun item => usable item = true) items
    end.
Proof.
  induction items as [|item items IH]; intros i c c1 ex Hloop; [discriminate|].
  assert (forall P : Prop, usable item = false ->
            ~ Forall (fun item => usable item = true) (item :: items)) as Hbad.
  { intros _ Hu Hall. inversion Hall; congruence. }
  simpl in Hloop. unfold sale_item, pbind, lift in Hloop.
  destruct (sale_row_of e method i item) as [r|ex0] eqn:Hr.
  2:{ injection Hloop as <- <-. apply sale_row_of_raises in Hr as [Hu ->].
      split; [reflexivity|]. split; [reflexivity|]. now apply (Hbad True). }
  pose proof (execute_inv run (db_faults e) (InsertSale r) c) as Hi1.
  destruct (execute run (db_faults e) (InsertSale r) c) as [[[]|ex1] c2].
  2:{ injection Hloop as <- <-. destruct Hi1 as (msg & -> & Hf & Hcalls).
      rewrite Hcalls, count_commits_execute, count_rollbacks_execute.
      split; [reflexivity|]. split; [reflexivity|].
      exists 0%nat. split; [simpl; lia|now rewrite Nat.add_0_r]. }
  destruct Hi1 as (Hf1 & Hex1 & Hcalls1).
  destruct (stock_update_of item) as [u|ex0] eqn:Hu.
  2:{ injection Hloop as <- <-.
      apply stock_update_of_raises in Hu as (Hus & Hnm & Hnd).
      rewrite Hcalls1, count_commits_execute, count_rollbacks_execute.
      split; [reflexivity|]. split; [reflexivity|].
      destruct ex0; try (now apply (Hbad True)); [now destruct (Hnm msg)|now destruct (Hnd msg)]. }
  pose proof (execute_inv run (db_faults e) u c2) as Hi2.
  destruct (execute run (db_faults e) u c2) as [[[]|ex2] c3].
  2:{ injection Hloop as <- <-. destruct Hi2 as (msg & -> & Hf & Hcalls).
      rewrite Hcalls, Hcalls1, !count_commits_execute, !count_rollbacks_execute.
      split; [reflexivity|]. split; [reflexivity|].
      exists 1%nat. split; [simpl; lia|]. now rewrite Nat.add_1_r, <- Hex1. }
  destruct Hi2 as (Hf2 & Hex2 & Hcalls2).
  destruct (IH _ _ _ _ Hloop) as (Hcm & Hrb & Hcase).
  rewrite Hcalls2, Hcalls1, !count_commits_execute, !count_rollbacks_execute in *.
  split; [assumption|]. split; [assumption|].
  destruct ex; try (intros Hall; inversion Hall; now apply Hcase); [|assumption].
  destruct Hcase as (k & Hk & Hfault). exists (2 + k)%nat. split; [simpl in *; lia|].
  rewrite Hex2, Hex1 in Hfault.
  now replace (executed c + (2 + k))%nat with (Datatypes.S (Datatypes.S (executed c)) + k)%nat
    by lia.
Qed.

(** *** What the statements do to the two tables *)

Lemma floored_sub_greatest (s x : flt) : floored_sub s x = greatest fzero (fsub s x).
Proof. reflexivity. Qed.

(** The updates one after the other, over the table, are the updates one
    after the other in each row. *)
Lemma fold_update_stock (updates : list (flt * pyval)) (ps : list product_row) :
  fold_left (fun ps u => update_stock id_eq (fst u) (snd u) ps) updates ps
  = products_after id_eq updates ps.
Proof.
  revert ps. induction updates as [|[x id] updates IH]; intros ps.
  - unfold products_after. simpl. induction ps as [|[pid st] ps IHp]; [reflexivity|].
    simpl. now rewrite <- IHp.
  - simpl fold_left. rewrite IH. unfold products_after, update_stock.
    rewrite map_map. apply map_ext. intros p. cbn [fst snd]. unfold stock_after at 2.
    simpl fold_left. cbn [fst snd].
    destruct (id_eq id (prod_id p)); reflexivity.
Qed.

Lemma floored_sub_nonneg (s x : flt) : fleb fzero (floored_sub s x) = true.
Proof.
  unfold floored_sub. destruct (fleb fzero (fsub s x)) eqn:Hx; [assumption|apply fleb_zero].
Qed.

(** A stock some decrement has written is not below zero. *)
Lemma stock_after_nonneg (updates : list (flt * pyval)) (pid : Z) (s : flt) :
  (fleb fzero s = true \/ exists u, In u updates /\ id_eq (snd u) pid = true) ->
  fleb fzero (stock_after id_eq updates pid s) = true.
Proof.
  revert s. induction updates as [|u updates IH]; intros s Hs.
  - destruct Hs as [Hs|(u & [] & _)]. exact Hs.
  - unfold stock_after. simpl fold_left. apply IH.
    destruct (id_eq (snd u) pid) eqn:Hid.
    + left. apply floored_sub_nonneg.
    + destruct Hs as [Hs|(u' & [->|Hin] & Hu')]; [now left|congruence|].
      right. now exists u'.
Qed.

(** The decrements of other products leave the stock. *)
Lemma stock_after_unmatched (updates : list (flt * pyval)) (pid : Z) (s : flt) :
  (forall u, In u updates -> id_eq (snd u) pid = false) ->
  stock_after id_eq updates pid s = s.
Proof.
  induction updates as [|u updates IH]; intros Hu; [reflexivity|].
  unfold stock_after. simpl fold_left. rewrite (Hu u) by now left.
  apply IH. intros u' Hin. apply Hu. now right.
Qed.

Lemma planned_sale_rows (e : env) (method : string) (items : list pyval) :
  forall (i : nat) (stmts : list stmt),
    planned e method i items = Ok stmts ->
    Forall2 (fun item row =>
               py_get item "id" = Ok (sale_prod_id row) /\
               method_type row = method /\
               py_get_default item "amount" (PFloat fzero) = Ok (amount row) /\
               py_get_default item "qty" (PFloat fzero) = Ok (qty row))
            items (inserted_rows stmts).
Proof.
  induction items as [|item items IH]; intros i stmts Hplan.
  - injection Hplan as <-. constructor.
  - simpl in Hplan.
    destruct (sale_row_of e method i item) as [r|] eqn:Hr; [|discriminate].
    destruct (stock_update_of item) as [u|] eqn:Hu; [|discriminate].
    destruct (planned e method (S i) items) as [l|] eqn:Hl; [|discriminate].
    injection Hplan as <-.
    apply stock_update_of_inv in Hu as (? & ? & ? & ? & ? & _ & _ & _ & _ & _ & ->).
    apply sale_row_of_inv in Hr as (_ & Hm & Hid & Ha & Hq).
    simpl. constructor; [now repeat split|]. now apply (IH (S i)).
Qed.

(** C2, as the code has it.  For a non-empty list of items, on a
    connection that could be taken and a transaction that could be opened,
    [record_sale] ends in one of three ways, with no transaction left open.
    It returns [True], exactly when every item can be used and the driver
    raises on none of the statements (an insert and a stock update per
    item) and not on the commit: then every row is inserted and every
    decrement applied, committed together by the one commit of the log.
    It raises [DatabaseError] with the message of the driver, which raised
    on a statement or on the commit, after one rollback, the last call
    before cursor and connection are closed.  Or it raises the exception of
    an item that cannot be used, as it is, without a rollback call.  In the
    last two cases the committed contents are those before the call: no
    sale row, no stock change. *)
Theorem record_sale_all_or_nothing (e : env) (items : list pyval) (method : string)
        (d : db) :
  items <> [] ->
  connect_fault (db_faults e) = None ->
  begin_fault (db_faults e) = None ->
  exists r c,
    record_sale id_eq e items method (idle d) = (r, c) /\
    pending c = None /\
    (r = Ok true <->
     Forall (fun item => usable item = true) items /\
     (forall k, (k < 2 * length items)%nat -> execute_fault (db_faults e) k = None) /\
     commit_fault (db_faults e) = None) /\
    match r with
    | Ok _ =>
        r = Ok true /\
        commits c = 1%nat /\ rollbacks c = 0%nat /\
        exists rows updates,
          Forall2 (fun item row =>
                     py_get item "id" = Ok (sale_prod_id row) /\
                     method_type row = method /\
                     py_get_default item "amount" (PFloat fzero) = Ok (amount row) /\
                     py_get_default item "qty" (PFloat fzero) = Ok (qty row))
                  items rows /\
          Forall2 (fun item u =>
                     exists duv qv du q,
                       py_get item "deduct_unit" = Ok duv /\
                       py_get item "qty" = Ok qv /\
                       py_get item "id" = Ok (snd u) /\
                       py_float (py_or duv (PFloat fone)) = Ok du /\
                       py_float (py_or qv (PFloat fzero)) = Ok q /\
                       fst u = fmul q du)
                  items updates /\
          sales (committed c) = sales d ++ rows /\
          products (committed c)
          = map (fun p => ProductRow (prod_id p)
                                     (stock_after id_eq updates (prod_id p) (stock p)))
                (products d)
    | Raise (DatabaseError msg) =>
        committed c = d /\
        commits c = 0%nat /\ rollbacks c = 1%nat /\
        (exists l, calls c = l ++ [CRollback; CCursorClose; CClose]) /\
        ((exists k, (k < 2 * length items)%nat /\
                    execute_fault (db_faults e) k = Some msg) \/
         commit_fault (db_faults e) = Some msg)
    | Raise _ =>
        committed c = d /\
        commits c = 0%nat /\ rollbacks c = 0%nat /\
        ~ Forall (fun item => usable item = true) items
    end.
Proof.
  intros Hne Hconn Hbegin.
  rewrite record_sale_transaction by assumption.
  pose proof (sale_loop_keeps e method items 0 (opened d) ltac:(now eexists)) as [Hkeep _].
  destruct (sale_loop id_eq e method 0 items (opened d)) as [[[]|ex] c2] eqn:Hloop.
  - (* the loop returned *)
    destruct (sale_loop_returns e method items _ _ _ Hloop) as [stmts Hplan].
    pose proof (planned_length e method items 0 stmts Hplan) as Hlen.
    rewrite (sale_loop_planned e method items _ _ _ Hplan) in Hloop.
    pose proof (execute_all_faultless run (db_faults e) stmts _ _ Hloop) as Hnofault.
    rewrite Hlen in Hnofault. cbn [executed opened Nat.add] in Hnofault.
    destruct (execute_all_ok run (db_faults e) stmts (opened d) d eq_refl) as [n Hn].
    { now rewrite Hlen. }
    rewrite Hn in Hloop. injection Hloop as <-.
    assert (Forall (fun item => usable item = true) items) as Husable
        by (apply (planned_usable e method items 0); now exists stmts).
    destruct (commit_fault (db_faults e)) as [msg|] eqn:Hcommit.
    + (* the commit fails *)
      eexists _, _. split.
      { apply transaction_rolls_back; [assumption|assumption|].
        unfold pbind. rewrite (sale_loop_planned e method items _ _ _ Hplan), Hn.
        unfold commit. rewrite Hcommit. reflexivity. }
      cbn [pending committed calls]. split; [reflexivity|]. split.
      { split; [discriminate|]. now intros (_ & _ & [=]). }
      unfold logged, commits, rollbacks. cbn [calls].
      split; [reflexivity|]. split; [|split; [|split]].
      * count_calls.
      * count_calls.
      * now eexists.
      * now right.
    + (* the sale is committed *)
      eexists _, _. split.
      { apply transaction_returns; [assumption|assumption|].
        unfold pbind. rewrite (sale_loop_planned e method items _ _ _ Hplan), Hn.
        unfold commit. rewrite Hcommit. reflexivity. }
      cbn [pending committed calls default]. split; [reflexivity|]. split.
      { split; [intros _|reflexivity]. repeat split; assumption. }
      unfold logged, commits, rollbacks. cbn [calls].
      split; [reflexivity|]. split; [|split].
      * count_calls.
      * count_calls.
      * exists (inserted_rows stmts), (stock_updates stmts).
        split; [apply (planned_sale_rows e method items 0 stmts Hplan)|].
        split; [apply (planned_updates e method items 0 stmts Hplan)|].
        split; [apply run_all_sales|].
        unfold id. rewrite run_all_products. apply fold_update_stock.
  - (* the loop raised *)
    simpl in Hkeep.
    destruct (sale_loop_raises e method items _ _ _ _ Hloop) as (Hcm & Hrb & Hcase).
    cbn [calls opened] in Hcm, Hrb. cbn [executed opened Nat.add] in Hcase.
    destruct ex as [| | | | | | |msg|msg];
      try (eexists _, _; split;
           [apply transaction_passes;
            [assumption|assumption|
            |unfold pbind; rewrite Hloop; reflexivity]; intros ?; discriminate|];
           cbn [pending committed calls]; split; [reflexivity|]; split;
           [split; [discriminate|intros (Hu & _); destruct (Hcase Hu)]|];
           unfold commits, rollbacks; cbn [calls];
           rewrite count_commits_app, count_rollbacks_app, Hcm, Hrb;
           repeat split; assumption).
    + destruct Hcase as (k & Hk & Hfault).
      eexists _, _. split.
      { apply transaction_rolls_back; [assumption|assumption|].
        unfold pbind. rewrite Hloop. reflexivity. }
      cbn [pending committed calls]. split; [reflexivity|]. split.
      { split; [discriminate|]. intros (_ & Hnone & _).
        rewrite (Hnone k Hk) in Hfault. discriminate. }
      unfold commits, rollbacks. cbn [calls].
      rewrite count_commits_app, count_rollbacks_app, Hcm, Hrb.
      split; [assumption|]. split; [reflexivity|]. split; [reflexivity|].
      split; [now eexists|]. left. now exists k.
    + destruct Hcase.
Qed.


(** *** Stock decrements *)

Lemma greatest_nonneg (x : flt) : fleb fzero (greatest fzero x) = true.
Proof.
  unfold greatest. destruct (fleb fzero x) eqn:Hx; [assumption|apply fleb_zero].
Qed.

(** The deduct unit [record_sale] multiplies by: the item's own when it is
    truthy, 1.0 when it is missing, [None] or zero. *)
Lemma effective_deduct_unit (duv : pyval) :
  py_or duv (PFloat fone) = if py_truthy duv then duv else PFloat fone.
Proof. reflexivity. Qed.

(** C4, as the code has it.  After a sale that returned, every row of
    [products] is still there, with its id, and its stock is the stock it
    had after one decrement per item whose id parameter matches the row,
    in input order: each sets the stock to [max(0, stock - qty *
    deduct_unit)], where [deduct_unit] is the item's value when truthy and
    1.0 when missing, [None] or zero, and [qty] the item's value when
    truthy and 0.0 otherwise.  A stock so written is never below zero. *)
Theorem record_sale_decrements_stock (e : env) (items : list pyval) (method : string)
        (d : db) (c : conn db stmt) :
  record_sale id_eq e items method (idle d) = (Ok true, c) ->
  exists updates : list (flt * pyval),
    Forall2 (fun item u =>
               exists duv qv du q,
                 py_get item "deduct_unit" = Ok duv /\
                 py_get item "qty" = Ok qv /\
                 py_get item "id" = Ok (snd u) /\
                 py_float (if py_truthy duv then duv else PFloat fone) = Ok du /\
                 py_float (if py_truthy qv then qv else PFloat fzero) = Ok q /\
                 fst u = fmul q du)
            items updates /\
    length (products (committed c)) = length (products d) /\
    (forall i p,
        products d !! i = Some p ->
        products (committed c) !! i
        = Some (ProductRow (prod_id p) (stock_after id_eq updates (prod_id p) (stock p)))) /\
    (forall p,
        In p (products d) ->
        (exists u, In u updates /\ id_eq (snd u) (prod_id p) = true) ->
        fleb fzero (stock_after id_eq updates (prod_id p) (stock p)) = true) /\
    (forall p,
        In p (products d) ->
        (forall u, In u updates -> id_eq (snd u) (prod_id p) = false) ->
        stock_after id_eq updates (prod_id p) (stock p) = stock p) /\
    (forall pid s x id rest,
        stock_after id_eq [] pid s = s /\
        stock_after id_eq ((x, id) :: rest) pid s
        = stock_after id_eq rest pid
                      (if id_eq id pid
                       then (if fleb fzero (fsub s x) then fsub s x else fzero)
                       else s)).
Proof.
  intros Hrec.
  assert (items <> []) as Hne by (intros ->; discriminate).
  destruct (record_sale_returns e items method d true c Hne Hrec)
    as (_ & stmts & Hplan & Hc).
  exists (stock_updates stmts).
  assert (products (committed c) = products_after id_eq (stock_updates stmts) (products d))
    as Hproducts by (rewrite Hc, run_all_products; apply fold_update_stock).
  split; [|split; [|split; [|split; [|split]]]].
  - apply (planned_updates e method items 0 stmts Hplan).
  - rewrite Hproducts. unfold products_after. apply length_map.
  - intros i p Hi. rewrite Hproducts. unfold products_after.
    change (map ?f ?l) with (f <$> l). now rewrite list_lookup_fmap, Hi.
  - intros p _ Hu. apply stock_after_nonneg. now right.
  - intros p _ Hu. now apply stock_after_unmatched.
  - intros pid s0 x id rest. split; reflexivity.
Qed.

(** *** Amounts *)

Lemma cart_item_amount (rp : gmap nat pyval) (row : nat) (r : cart_row) (item : pyval) :
  cart_item rp row r = Ok item ->
  py_get_default item "qty" (PFloat fzero) = Ok (PFloat (cell_float (qty_item r))) /\
  py_get item "price" = Ok (PFloat (cell_float (price_item r))) /\
  py_get_default item "amount" (PFloat fzero)
  = Ok (PFloat (fmul (cell_float (qty_item r)) (cell_float (price_item r)))).
Proof.
  unfold cart_item.
  destruct (py_get (default (PDict []) (rp !! row)) "id"); [|discriminate].
  destruct (py_get (default (PDict []) (rp !! row)) "name"); [|discriminate].
  destruct (py_get (default (PDict []) (rp !! row)) "barcode"); [|discriminate].
  destruct (py_get (default (PDict []) (rp !! row)) "deduct_unit"); [|discriminate].
  simpl. intros [= <-]. repeat split; reflexivity.
Qed.

(** Every item the cart yields carries [amount = qty * price], computed
    from the quantity and price cells of its row. *)
Lemma collect_rows_amount (rp : gmap nat pyval) (rows : list cart_row) :
  forall (row : nat) (items : list pyval),
    collect_rows rp row rows = Ok items ->
    Forall (fun item =>
              exists q p,
                py_get_default item "qty" (PFloat fzero) = Ok (PFloat q) /\
                py_get item "price" = Ok (PFloat p) /\
                py_get_default item "amount" (PFloat fzero) = Ok (PFloat (fmul q p)))
           items.
Proof.
  induction rows as [|r rows IH]; intros row items Hc.
  - injection Hc as <-. constructor.
  - simpl in Hc. destruct (has_description r).
    + destruct (cart_item rp row r) as [item|] eqn:Hitem; [|discriminate].
      destruct (collect_rows rp (S row) rows) as [rest|] eqn:Hrest; [|discriminate].
      injection Hc as <-. constructor; [|now apply (IH (S row))].
      destruct (cart_item_amount rp row r item Hitem) as (Hq & Hp & Ha).
      exists (cell_float (qty_item r)), (cell_float (price_item r)).
      repeat split; assumption.
    + now apply (IH (S row)).
Qed.

(** C7, as the code has it.  [record_sale] stores, for each item, the
    [amount] and [qty] the caller supplied (0.0 when the key is absent); it
    recomputes nothing.  The product [qty * price] is taken by
    [_collect_cart_items]: for a sale recorded from the items it returns,
    the stored amount of every row is the product of the quantity and the
    price read from the cart. *)
Theorem record_sale_amounts (e : env) (items : list pyval) (method : string)
        (d : db) (c : conn db stmt) :
  record_sale id_eq e items method (idle d) = (Ok true, c) ->
  exists rows,
    sales (committed c) = sales d ++ rows /\
    Forall2 (fun item row =>
               py_get_default item "amount" (PFloat fzero) = Ok (amount row) /\
               py_get_default item "qty" (PFloat fzero) = Ok (qty row))
            items rows /\
    (forall table row_products,
        _collect_cart_items table row_products = Ok items ->
        Forall2 (fun item row =>
                   exists q p,
                     py_get item "price" = Ok (PFloat p) /\
                     qty row = PFloat q /\
                     amount row = PFloat (fmul q p))
                items rows).
Proof.
  intros Hrec.
  assert (items <> []) as Hne by (intros ->; discriminate).
  destruct (record_sale_returns e items method d true c Hne Hrec)
    as (_ & stmts & Hplan & Hc).
  pose proof (planned_rows e method items 0 stmts Hplan) as Hrows.
  exists (inserted_rows stmts). split; [|split].
  - rewrite Hc. apply run_all_sales.
  - exact Hrows.
  - intros table rp Hcollect.
    pose proof (collect_rows_amount rp table 0 items Hcollect) as Hitems.
    clear -Hrows Hitems. induction Hrows as [|item row items rows [Ha Hq] _ IH].
    + constructor.
    + inversion Hitems as [|? ? (q & p & Hq' & Hp & Ha') Hrest]; subst.
      constructor; [|now apply IH].
      exists q, p. repeat split; [assumption|congruence|congruence].
Qed.

End SaleFacts.

(** ** Attendance *)

Section AttendanceFacts.
Import Tx Attendance.

Local Abbreviation body e id :=
  (pbind (execute run (db_faults e) (SetTimeOut (curtime e) id))
         (fun _ => pbind (commit (db_faults e))
                         (fun _ c => (Ok (0 <? rowcount c)%nat, c)))).

Lemma clock_out_transaction (e : env) (attendance_id : Z) :
  clock_out e attendance_id = transaction (db_faults e) (body e attendance_id).
Proof. reflexivity. Qed.

Lemma affected_none (now id : Z) (d : db) :
  ~ In id (map att_id d) -> rows_affected now id d = 0%nat.
Proof.
  unfold rows_affected. induction d as [|r d IH]; intros Hout; [reflexivity|].
  rewrite filter_cons. destruct (decide (affected now id r = true)) as [Ha|Ha].
  - exfalso. unfold affected in Ha. apply andb_true_iff in Ha as [Hid _].
    apply Z.eqb_eq in Hid. apply Hout. now left.
  - apply IH. intros Hin. apply Hout. now right.
Qed.

(** [id] being the key of the table, the update affects at most one row. *)
Lemma affected_at_most_one (now id : Z) (d : db) :
  NoDup (map att_id d) -> (rows_affected now id d <= 1)%nat.
Proof.
  unfold rows_affected. induction d as [|r d IH]; intros Hnd; [simpl; lia|].
  simpl in Hnd. apply NoDup_cons in Hnd as [Hout Hnd].
  rewrite filter_cons. destruct (decide (affected now id r = true)) as [Ha|Ha].
  - unfold affected in Ha. apply andb_true_iff in Ha as [Hid _].
    apply Z.eqb_eq in Hid. simpl.
    fold (rows_affected now id d). rewrite affected_none; [lia|].
    rewrite <- Hid. intros Hin. apply Hout. now apply list_elem_of_In.
  - now apply IH.
Qed.

(** After the update every row with the given id has the time-out set. *)
Lemma set_time_out_rows (now id : Z) (d : db) (r : attendance_row) :
  In r (fst (run (SetTimeOut now id) d)) ->
  (att_id r = id -> time_out r = Some now) /\
  (att_id r <> id -> In r d).
Proof.
  simpl. intros Hin. apply in_map_iff in Hin as (r0 & Hr & Hin).
  destruct (Z.eqb_spec (att_id r0) id) as [Heq|Hne]; subst r.
  - split; [reflexivity|]. simpl. intros Hc. contradiction.
  - split; [intros Hc; contradiction|]. now intros _.
Qed.

(** Without the key constraint: [True] exactly when some row was affected. *)
Lemma clock_out_returns (e : env) (attendance_id : Z) (d : db) :
  connect_fault (db_faults e) = None ->
  begin_fault (db_faults e) = None ->
  execute_fault (db_faults e) 0 = None ->
  commit_fault (db_faults e) = None ->
  clock_out e attendance_id (idle d)
  = (Ok (0 <? rows_affected (curtime e) attendance_id d)%nat,
     Conn (fst (run (SetTimeOut (curtime e) attendance_id) d)) None 1
          (rows_affected (curtime e) attendance_id d)
          [CConnect; CBegin; CExecute (SetTimeOut (curtime e) attendance_id) true;
           CCommit true; CCursorClose; CClose]).
Proof.
  intros Hc Hb Hx Hm. rewrite clock_out_transaction.
  rewrite (transaction_returns (db_faults e) (body e attendance_id) d
             (0 <? rows_affected (curtime e) attendance_id d)%nat
             (Conn (fst (run (SetTimeOut (curtime e) attendance_id) d)) None 1
                   (rows_affected (curtime e) attendance_id d)
                   [CConnect; CBegin;
                    CExecute (SetTimeOut (curtime e) attendance_id) true;
                    CCommit true]) Hc Hb); [reflexivity|].
  unfold pbind, execute, commit. simpl. rewrite Hx, Hm. reflexivity.
Qed.

(** A failing update: rollback, then [DatabaseError]; nothing is changed. *)
Lemma clock_out_fails (e : env) (attendance_id : Z) (d : db) (msg : string) :
  connect_fault (db_faults e) = None ->
  begin_fault (db_faults e) = None ->
  execute_fault (db_faults e) 0 = Some msg ->
  clock_out e attendance_id (idle d)
  = (Raise (DatabaseError msg),
     Conn d None 1 0
          [CConnect; CBegin; CExecute (SetTimeOut (curtime e) attendance_id) false;
           CRollback; CCursorClose; CClose]).
Proof.
  intros Hc Hb Hx. rewrite clock_out_transaction.
  rewrite (transaction_rolls_back (db_faults e) (body e attendance_id) d msg
             (Conn d (Some d) 1 0
                   [CConnect; CBegin;
                    CExecute (SetTimeOut (curtime e) attendance_id) false]) Hc Hb);
    [reflexivity|].
  unfold pbind, execute. simpl. rewrite Hx. reflexivity.
Qed.

Lemma affected_spec (now id : Z) (r : attendance_row) :
  affected now id r = true <-> att_id r = id /\ time_out r <> Some now.
Proof.
  unfold affected.
  now rewrite andb_true_iff, Z.eqb_eq, negb_true_iff, bool_decide_eq_false.
Qed.

Lemma rows_affected_changed (now id : Z) (d : db) :
  rows_affected now id d = length (changed_rows now id d).
Proof.
  unfold rows_affected, changed_rows. induction d as [|r d IH]; [reflexivity|].
  rewrite !filter_cons.
  destruct (decide (affected now id r = true)) as [Ha|Ha],
           (decide (att_id r = id /\ time_out r <> Some now)) as [Hb|Hb];
    simpl; try (now rewrite IH); exfalso.
  - apply Hb. now apply affected_spec.
  - apply Ha. now apply affected_spec.
Qed.

Lemma run_set_time_out (now id : Z) (d : db) :
  fst (run (SetTimeOut now id) d)
  = map (fun r => if Z.eqb (att_id r) id then clocked_out now r else r) d.
Proof. reflexivity. Qed.

(** The update leaves the rows of other ids. *)
Lemma set_time_out_others (now id : Z) (d : db) :
  Forall (fun r => att_id r <> id) d ->
  map (fun r => if Z.eqb (att_id r) id then clocked_out now r else r) d = d.
Proof.
  induction 1 as [|r d Hr _ IH]; [reflexivity|]. simpl.
  destruct (Z.eqb_spec (att_id r) id); [contradiction|]. now rewrite IH.
Qed.

(** C8, as the code has it.  When the driver raises nothing, [clock_out]
    sets the time-out of every row with the given id to the current time
    and leaves the other rows, commits once, and returns [True] exactly
    when at least one row was affected (changed) by the update; that is
    exactly one row when no two rows of the table have the same id. *)
Theorem clock_out_exactly_one (e : env) (attendance_id : Z) (d : db) :
  connect_fault (db_faults e) = None ->
  begin_fault (db_faults e) = None ->
  execute_fault (db_faults e) 0 = None ->
  commit_fault (db_faults e) = None ->
  exists b c,
    clock_out e attendance_id (idle d) = (Ok b, c) /\
    committed c
    = map (fun r => if Z.eqb (att_id r) attendance_id
                    then {| att_id := att_id r; staff_id := staff_id r;
                            att_date := att_date r; time_in := time_in r;
                            time_out := Some (curtime e) |}
                    else r) d /\
    pending c = None /\
    commits c = 1%nat /\
    (b = true <->
     (1 <= length (filter (fun r => att_id r = attendance_id /\
                                    time_out r <> Some (curtime e)) d))%nat) /\
    (NoDup (map att_id d) ->
     (b = true <->
      length (filter (fun r => att_id r = attendance_id /\
                               time_out r <> Some (curtime e)) d) = 1%nat)).
Proof.
  intros Hc Hb Hx Hm. eexists _, _. split; [now apply clock_out_returns|].
  cbn [committed pending]. split; [apply run_set_time_out|].
  split; [reflexivity|]. split; [reflexivity|].
  rewrite rows_affected_changed.
  change (filter (fun r => att_id r = attendance_id /\ time_out r <> Some (curtime e)) d)
    with (changed_rows (curtime e) attendance_id d).
  assert ((0 <? length (changed_rows (curtime e) attendance_id d))%nat = true
          <-> (1 <= length (changed_rows (curtime e) attendance_id d))%nat) as Hiff.
  { rewrite Nat.ltb_lt. lia. }
  split; [exact Hiff|].
  intros Hnd. rewrite Hiff.
  pose proof (affected_at_most_one (curtime e) attendance_id d Hnd) as Hle.
  rewrite rows_affected_changed in Hle. lia.
Qed.

End AttendanceFacts.

(** ** The product repository *)

Section RepositoryFacts.
Context `{PyFloat} `{!PyText} `{!PyTextOps}.
Import Cache Repository.

(** *** [_normalize_product] *)

Lemma dict_set_same (k : string) (v : pyval) (c : dict) :
  dict_get c k = Some v -> dict_set k v c = c.
Proof.
  induction c as [|[k0 v0] c IH]; [discriminate|]. simpl.
  destruct (String.eqb_spec k k0) as [->|Hk].
  - now intros [= ->].
  - intros Hget. now rewrite IH.
Qed.

Lemma dict_get_Some_In (k : string) (v : pyval) (c : dict) :
  dict_get c k = Some v -> In k (map fst c).
Proof.
  intros Hget. apply dict_get_In in Hget.
  change k with (fst (k, v)). now apply in_map.
Qed.

Lemma normalize_key_set (d : dict) (key : string) :
  normalize_key d key
  = match dict_get d key with
    | Some v => dict_set key (normalized_value v) d
    | None => d
    end.
Proof.
  unfold normalize_key, normalized_value.
  destruct (dict_get d key) as [v|] eqn:Hget; [|reflexivity].
  destruct v; try (symmetry; now apply dict_set_same);
    destruct (py_float _); try reflexivity; symmetry; now apply dict_set_same.
Qed.

Lemma normalize_key_keys (d : dict) (key : string) :
  map fst (normalize_key d key) = map fst d.
Proof.
  rewrite normalize_key_set. destruct (dict_get d key) as [v|] eqn:Hget; [|reflexivity].
  apply dict_set_keys_bound. now apply (dict_get_Some_In key v).
Qed.

Lemma normalize_key_get (d : dict) (key k : string) :
  dict_get (normalize_key d key) k
  = if String.eqb k key then option_map normalized_value (dict_get d key)
    else dict_get d k.
Proof.
  rewrite normalize_key_set.
  destruct (dict_get d key) as [v|] eqn:Hget.
  - rewrite dict_get_set. reflexivity.
  - destruct (String.eqb_spec k key) as [->|Hne]; [now rewrite Hget|reflexivity].
Qed.

Lemma normalized_value_idem (v : pyval) :
  normalized_value (normalized_value v) = normalized_value v.
Proof.
  destruct v; simpl; try reflexivity.
  - destruct (float_of_Z z) eqn:Hz; simpl; [reflexivity|now rewrite Hz].
  - destruct (float_of_str s) eqn:Hs; simpl; [reflexivity|now rewrite Hs].
Qed.

Lemma normalize_product_fold (row : dict) :
  _normalize_product row = fold_left normalize_key numeric_keys row.
Proof. destruct row; reflexivity. Qed.

Lemma normalize_product_keys (row : dict) :
  map fst (_normalize_product row) = map fst row.
Proof.
  rewrite normalize_product_fold. unfold numeric_keys. simpl fold_left.
  now rewrite !normalize_key_keys.
Qed.

Lemma normalize_product_get (row : dict) (k : string) :
  dict_get (_normalize_product row) k
  = if is_numeric_key k
    then option_map normalized_value (dict_get row k)
    else dict_get row k.
Proof.
  rewrite normalize_product_fold. unfold numeric_keys. simpl fold_left.
  rewrite !normalize_key_get.
  unfold is_numeric_key, numeric_keys. simpl existsb.
  destruct (String.eqb_spec k "gst_rate") as [->|Hk4]; [reflexivity|].
  destruct (String.eqb_spec k "sell_price") as [->|Hk3]; [reflexivity|].
  destruct (String.eqb_spec k "cost_price") as [->|Hk2]; [reflexivity|].
  destruct (String.eqb_spec k "stock") as [->|Hk1]; reflexivity.
Qed.

(** What [_normalize_product] returns: the keys of the row in their order;
    under the four numeric keys the value converted by [float], unless it
    is [None] or cannot be converted; every other value as it was. *)
Theorem normalize_product_values (row : dict) (k : string) :
  map fst (_normalize_product row) = map fst row /\
  dict_get (_normalize_product row) k
  = if is_numeric_key k
    then option_map normalized_value (dict_get row k)
    else dict_get row k.
Proof. split; [apply normalize_product_keys|apply normalize_product_get]. Qed.

(** Normalizing a normalized row changes nothing. *)
Theorem normalize_product_idempotent (row : dict) :
  _normalize_product (_normalize_product row) = _normalize_product row.
Proof.
  assert (forall k, is_numeric_key k = true ->
                    normalize_key (_normalize_product row) k = _normalize_product row)
    as Hfix.
  { intros k Hk. rewrite normalize_key_set.
    destruct (dict_get (_normalize_product row) k) as [v|] eqn:Hget; [|reflexivity].
    apply dict_set_same. rewrite Hget. f_equal.
    rewrite normalize_product_get, Hk in Hget.
    destruct (dict_get row k) as [v0|]; [|discriminate].
    injection Hget as <-. symmetry. apply normalized_value_idem. }
  rewrite (normalize_product_fold (_normalize_product row)).
  unfold numeric_keys. simpl fold_left.
  now rewrite !Hfix.
Qed.

(** *** Lookup by barcode *)

Lemma find_loop_none (barcode : string) (l : list pyval) :
  all_dicts l -> Forall (fun e => key_of e <> barcode) l ->
  find_loop barcode l = Ok None.
Proof.
  intros Hd Hl. induction l as [|e l IH]; [reflexivity|].
  inversion Hd as [|? ? He Hd']; inversion Hl as [|? ? Hne Hl']; subst. simpl.
  rewrite (py_get_barcode e He). simpl. fold (key_of e).
  destruct (String.eqb_spec (key_of e) barcode); [contradiction|]. now apply IH.
Qed.

Lemma find_loop_inv (barcode : string) (l : list pyval) (r : option pyval) :
  all_dicts l -> find_loop barcode l = Ok r ->
  match r with
  | Some p => exists l1 l2, l = l1 ++ p :: l2 /\ key_of p = barcode /\
                            Forall (fun e => key_of e <> barcode) l1
  | None => Forall (fun e => key_of e <> barcode) l
  end.
Proof.
  intros Hd. induction l as [|e l IH]; simpl.
  - intros [= <-]. constructor.
  - inversion Hd as [|? ? He Hd']; subst.
    rewrite (py_get_barcode e He). simpl. fold (key_of e).
    destruct (String.eqb_spec (key_of e) barcode) as [Heq|Hne].
    + intros [= <-]. exists [], l. repeat split; [assumption|constructor].
    + intros Hfind. specialize (IH Hd' Hfind). destruct r as [p|].
      * destruct IH as (l1 & l2 & -> & Hk & Hl1).
        exists (e :: l1), l2. repeat split; [assumption|now constructor].
      * now constructor.
Qed.

Lemma find_loop_dicts (barcode : string) (l : list pyval) :
  all_dicts l -> exists r, find_loop barcode l = Ok r.
Proof.
  intros Hd. induction l as [|e l IH]; simpl; [now eexists|].
  inversion Hd as [|? ? He Hd']; subst.
  rewrite (py_get_barcode e He). simpl.
  destruct (String.eqb _ _); [now eexists|now apply IH].
Qed.


(** What the lookup returns on a cache of objects: the first entry whose
    barcode prints as the barcode asked for; nothing when the barcode is
    empty or no entry matches. *)
Theorem find_in_cache_first_match (f : cache_file) (barcode : string) :
  all_dicts (cache_entries f) ->
  (forall p,
      get_cached_product f barcode = Ok (Some p) <->
      barcode <> "" /\
      exists l1 l2, cache_entries f = l1 ++ p :: l2 /\ key_of p = barcode /\
                    Forall (fun e => key_of e <> barcode) l1) /\
  (get_cached_product f barcode = Ok None <->
   barcode = "" \/ Forall (fun e => key_of e <> barcode) (cache_entries f)).
Proof.
  intros Hd. unfold get_cached_product, _find_in_cache_by_barcode.
  rewrite load_cache_entries. cbn [bind].
  destruct (String.eqb_spec barcode "") as [He|Hne].
  - split.
    + intros p. split; [discriminate|]. now intros [? _].
    + split; [now left|reflexivity].
  - destruct (find_loop_dicts barcode _ Hd) as [r Hr]. rewrite Hr.
    pose proof (find_loop_inv barcode _ r Hd Hr) as Hinv. split.
    + intros p. split.
      * intros [= ->]. split; assumption.
      * intros (_ & l1 & l2 & Hsplit & Hk & Hl1).
        rewrite Hsplit in Hr, Hd. unfold all_dicts in Hd.
        apply Forall_app in Hd as [Hd1 Hd2]. inversion Hd2 as [|? ? Hp _]; subst.
        rewrite (find_loop_first (key_of p) l1 l2 p Hd1 Hp Hl1 eq_refl) in Hr.
        now rewrite <- Hr.
    + split.
      * intros [= ->]. now right.
      * intros [He|Hall]; [contradiction|].
        rewrite (find_loop_none barcode _ Hd Hall) in Hr. now rewrite <- Hr.
Qed.

(** An entry of the cache file that is no object makes the lookup that
    reaches it raise [AttributeError], which [fetch_product_by_barcode]
    lets through: nothing is queried and nothing is written. *)
Theorem fetch_non_object_entry_raises (w : world) (barcode : string)
        (l1 l2 : list pyval) (v : pyval) :
  barcode <> "" ->
  cache_entries (cache w) = l1 ++ v :: l2 ->
  all_dicts l1 ->
  Forall (fun e => key_of e <> barcode) l1 ->
  is_dict v = false ->
  fetch_product_by_barcode w barcode = (Raise AttributeError, w).
Proof.
  intros Hne Hentries Hd Hl1 Hv.
  unfold fetch_product_by_barcode, _find_in_cache_by_barcode.
  destruct (String.eqb_spec barcode ""); [contradiction|].
  rewrite load_cache_entries, Hentries. cbn [bind].
  assert (find_loop barcode (l1 ++ v :: l2) = Raise AttributeError) as ->; [|reflexivity].
  clear Hentries. induction l1 as [|e l1 IH]; simpl.
  - destruct v; try discriminate; reflexivity.
  - inversion Hd as [|? ? He Hd']; inversion Hl1 as [|? ? Hk Hl1']; subst.
    rewrite (py_get_barcode e He). simpl. fold (key_of e).
    destruct (String.eqb_spec (key_of e) barcode); [contradiction|]. now apply IH.
Qed.

(** *** Merge, then look up *)



(** *** Read-through *)





(** A barcode the source of truth does not know is not remembered: every
    lookup of it queries the source of truth again and leaves the cache
    file as it was. *)
Theorem fetch_unknown_barcode_requeries (w : world) (barcode : string) :
  _find_in_cache_by_barcode (cache w) barcode = Ok None ->
  source w barcode = NoRow ->
  exists w1 w2,
    fetch_product_by_barcode w barcode = (Ok None, w1) /\
    cache w1 = cache w /\
    queries w1 = queries w ++ [barcode] /\
    fetch_product_by_barcode w1 barcode = (Ok None, w2) /\
    cache w2 = cache w /\
    queries w2 = queries w ++ [barcode; barcode].
Proof.
  intros Hmiss Hsrc.
  exists (World (cache w) (source w) (queries w ++ [barcode]) (dump w)),
         (World (cache w) (source w) ((queries w ++ [barcode]) ++ [barcode]) (dump w)).
  unfold fetch_product_by_barcode, fetch_from_source. cbn [cache source queries].
  rewrite Hmiss, Hsrc. unfold log_query. cbn [cache source queries].
  repeat split. now rewrite <- app_assoc.
Qed.

(** *** [search_cache] *)

Lemma matches_hit (q : string) (p : pyval) :
  is_dict p = true -> matches q p = Ok (hit q p).
Proof. destruct p; try discriminate. reflexivity. Qed.

Lemma search_loop_take (q : string) (limit : Z) (l results : list pyval) :
  all_dicts l ->
  (Z.of_nat (length results) < limit) ->
  search_loop q limit l results
  = Ok (results ++ take (Z.to_nat limit - length results)
                        (filter (fun p => hit q p = true) l)).
Proof.
  revert results. induction l as [|p l IH]; intros results Hd Hlen.
  - simpl search_loop. now rewrite filter_nil, take_nil, app_nil_r.
  - inversion Hd as [|? ? Hp Hd']; subst. simpl search_loop.
    rewrite (matches_hit q p Hp). cbn [bind]. rewrite filter_cons.
    destruct (hit q p) eqn:Hhit.
    + rewrite decide_True by reflexivity. rewrite length_app. simpl length.
      destruct (Z.leb_spec limit (Z.of_nat (length results + 1))) as [Hfull|Hroom].
      * replace (Z.to_nat limit - length results)%nat with 1%nat by lia.
        simpl. now rewrite take_0.
      * rewrite IH; [|assumption|rewrite length_app; simpl; lia].
        rewrite length_app. simpl length. rewrite <- app_assoc. simpl.
        replace (Z.to_nat limit - length results)%nat
          with (S (Z.to_nat limit - (length results + 1)))%nat by lia.
        reflexivity.
    + rewrite decide_False by discriminate.
      destruct (Z.leb_spec limit (Z.of_nat (length results))); [lia|].
      now apply IH.
Qed.

(** For a limit of at least one, on a cache of objects, [search_cache]
    returns the first [limit] entries that pass the test, in the order of
    the cache file. *)
Theorem search_cache_first_matches (f : cache_file) (query : string) (limit : Z) :
  query <> "" ->
  1 <= limit ->
  all_dicts (cache_entries f) ->
  search_cache f query limit
  = Ok (take (Z.to_nat limit)
             (filter (fun p => hit (str_lower query) p = true) (cache_entries f))).
Proof.
  intros Hq Hlimit Hd. unfold search_cache.
  destruct (String.eqb_spec query ""); [contradiction|].
  rewrite load_cache_entries. cbn [bind].
  rewrite search_loop_take; [|assumption|simpl; lia].
  simpl. now rewrite Nat.sub_0_r.
Qed.

(** For a limit of zero or less the loop still runs once: for a query
    that is not empty and a first entry that is an object, the result is
    the first entry of the cache when it passes the test (one entry, more
    than the limit) and is empty otherwise; the later entries are not
    looked at, whatever they are. *)
Theorem search_cache_nonpositive_limit (f : cache_file) (query : string) (limit : Z) :
  query <> "" ->
  limit <= 0 ->
  all_dicts (take 1 (cache_entries f)) ->
  search_cache f query limit
  = Ok (filter (fun p => hit (str_lower query) p = true) (take 1 (cache_entries f))).
Proof.
  intros Hq Hlimit Hd. unfold search_cache.
  destruct (String.eqb_spec query ""); [contradiction|].
  rewrite load_cache_entries. cbn [bind].
  destruct (cache_entries f) as [|p l]; [reflexivity|].
  simpl take in *. rewrite take_0 in *.
  inversion Hd as [|? ? Hp _]; subst. simpl search_loop.
  rewrite (matches_hit _ p Hp). cbn [bind].
  rewrite filter_cons, filter_nil.
  destruct (hit (str_lower query) p).
  - rewrite decide_True by reflexivity.
    now replace (Z.leb limit (Z.of_nat (length [p]))) with true
      by (symmetry; apply Z.leb_le; simpl; lia).
  - rewrite decide_False by discriminate.
    now replace (Z.leb limit (Z.of_nat (length (@nil pyval)))) with true
      by (symmetry; apply Z.leb_le; simpl; lia).
Qed.

(** *** [prime_cache], [refresh_cache] *)

(** With a cache file in place [prime_cache()] is [load_cache()]: no query
    is made and nothing is written, also when the file is unreadable or
    holds no list, in which case the result is the empty list. *)
Theorem prime_cache_existing_file (s : store) :
  file s <> Missing ->
  exists l,
    prime_cache s false = (Ok l, s) /\
    match file s with
    | Stored (PList stored) => l = stored
    | _ => l = []
    end.
Proof.
  intros Hf. exists (cache_entries (file s)). unfold prime_cache.
  rewrite load_cache_entries.
  destruct (file s) as [| |[]]; try contradiction; split; reflexivity.
Qed.




(** *** [search_products] *)

(** Cache first: when an entry of the cache passes the test for the
    stripped query, the answer is that of [search_cache]; the table is not
    queried and the cache file is not written. *)
Theorem search_products_cache_first (s : store) (query : string) (limit : Z) :
  str_strip query <> "" ->
  1 <= limit ->
  all_dicts (cache_entries (file s)) ->
  filter (fun p => hit (str_lower (str_strip query)) p = true) (cache_entries (file s))
  <> [] ->
  search_products s query limit
  = (Ok (take (Z.to_nat limit)
              (filter (fun p => hit (str_lower (str_strip query)) p = true)
                      (cache_entries (file s)))),
     s).
Proof.
  intros Hq Hlimit Hd Hfound. unfold search_products, search_cache.
  destruct (String.eqb_spec (str_strip query) ""); [contradiction|].
  rewrite load_cache_entries. cbn [bind].
  rewrite search_loop_take; [|assumption|simpl; lia].
  simpl app. rewrite Nat.sub_0_r.
  destruct (filter _ (cache_entries (file s))) as [|p found]; [contradiction|].
  replace (Z.to_nat limit) with (S (Z.to_nat limit - 1)) by lia. reflexivity.
Qed.


End RepositoryFacts.

(** ** Clocking in *)

Section StaffFacts.
Import Tx Attendance Staff.
Context `{PyFloat} `{!PyTextOps}.

Local Abbreviation new_shift e staff salary role :=
  (Shift (AttendanceRow (new_id e) staff (curdate e) (curtime e) None) 0 salary
         (json_dumps (PDict [("role", PStr role)]))).

Local Abbreviation insert e staff salary role :=
  (InsertShift staff (curtime e) (curdate e) salary
               (json_dumps (PDict [("role", PStr role)]))).

Local Abbreviation body e staff role salary :=
  (pbind (execute (Staff.run (new_id e)) (Staff.db_faults e) (insert e staff salary role))
         (fun _ => pbind (commit (Staff.db_faults e)) (fun _ => ret (new_id e)))).

Lemma clock_in_transaction (e : Staff.env) (staff : Z) (role : string) (salary : flt) :
  clock_in e staff role salary
  = transaction (Staff.db_faults e) (body e staff role salary).
Proof. reflexivity. Qed.

(** [clock_in] is all-or-nothing.  On a connection that could be taken and
    a transaction that could be opened: when the driver raises nothing, one
    row is added to [attendance] (the staff member, the server's time and
    date, [paid] 0, the salary, the role as JSON, no time-out), committed
    once, and its id is returned; when the insert or the commit fails, the
    transaction is rolled back, [DatabaseError] carries the driver's
    message, and the table is as it was. *)
Theorem clock_in_all_or_nothing (e : Staff.env) (staff : Z) (role : string)
        (salary : flt) (d : list shift) :
  connect_fault (Staff.db_faults e) = None ->
  begin_fault (Staff.db_faults e) = None ->
  clock_in e staff role salary (idle d)
  = match execute_fault (Staff.db_faults e) 0, commit_fault (Staff.db_faults e) with
    | None, None =>
        (Ok (new_id e),
         Conn (d ++ [new_shift e staff salary role]) None 1 1
              [CConnect; CBegin; CExecute (insert e staff salary role) true;
               CCommit true; CCursorClose; CClose])
    | Some msg, _ =>
        (Raise (DatabaseError msg),
         Conn d None 1 0
              [CConnect; CBegin; CExecute (insert e staff salary role) false;
               CRollback; CCursorClose; CClose])
    | None, Some msg =>
        (Raise (DatabaseError msg),
         Conn d None 1 1
              [CConnect; CBegin; CExecute (insert e staff salary role) true;
               CCommit false; CRollback; CCursorClose; CClose])
    end.
Proof.
  intros Hc Hb. rewrite clock_in_transaction.
  destruct (execute_fault (Staff.db_faults e) 0) as [msg|] eqn:Hx;
    [|destruct (commit_fault (Staff.db_faults e)) as [msg|] eqn:Hm].
  - rewrite (transaction_rolls_back (Staff.db_faults e) (body e staff role salary) d msg
               (Conn d (Some d) 1 0
                     [CConnect; CBegin; CExecute (insert e staff salary role) false])
               Hc Hb); [reflexivity|].
    unfold pbind, execute. simpl. rewrite Hx. reflexivity.
  - rewrite (transaction_rolls_back (Staff.db_faults e) (body e staff role salary) d msg
               (Conn d (Some (d ++ [new_shift e staff salary role])) 1 1
                     [CConnect; CBegin; CExecute (insert e staff salary role) true;
                      CCommit false])
               Hc Hb); [reflexivity|].
    unfold pbind, execute, commit. simpl. rewrite Hx, Hm. reflexivity.
  - rewrite (transaction_returns (Staff.db_faults e) (body e staff role salary) d
               (new_id e)
               (Conn (d ++ [new_shift e staff salary role]) None 1 1
                     [CConnect; CBegin; CExecute (insert e staff salary role) true;
                      CCommit true])
               Hc Hb); [reflexivity|].
    unfold pbind, execute, commit. simpl. rewrite Hx, Hm. reflexivity.
Qed.

(** *** The attendance of the day *)

Lemma latest_fold (l : list shift) (acc : option shift) (r : shift) :
  fold_left latest l acc = Some r ->
  (acc = Some r \/ In r l) /\
  (forall r', In r' l -> att_id (core r') <= att_id (core r)) /\
  (forall b, acc = Some b -> att_id (core b) <= att_id (core r)).
Proof.
  revert acc. induction l as [|x l IH]; intros acc Hfold; simpl in Hfold.
  - subst acc. split; [now left|]. split; [contradiction|].
    intros b [= ->]. lia.
  - destruct (IH _ Hfold) as (Hin & Hmax & Hacc). split; [|split].
    + destruct Hin as [Hin|Hin]; [|right; now right].
      destruct acc as [b|]; simpl in Hin.
      * destruct (Z.ltb_spec (att_id (core b)) (att_id (core x))).
        -- injection Hin as ->. right. now left.
        -- now left.
      * injection Hin as ->. right. now left.
    + intros r' [<-|Hr']; [|now apply Hmax].
      destruct acc as [b|]; simpl in Hacc.
      * destruct (Z.ltb_spec (att_id (core b)) (att_id (core x))).
        -- now apply Hacc.
        -- specialize (Hacc b eq_refl). lia.
      * now apply Hacc.
    + intros b ->. simpl in Hacc.
      destruct (Z.ltb_spec (att_id (core b)) (att_id (core x))).
      * specialize (Hacc x eq_refl). lia.
      * now apply Hacc.
Qed.

Lemma latest_fold_some (l : list shift) (b : shift) :
  exists r, fold_left latest l (Some b) = Some r.
Proof.
  revert b. induction l as [|x l IH]; intros b; simpl; [now eexists|].
  destruct (Z.ltb _ _); apply IH.
Qed.

Lemma latest_fold_none (l : list shift) :
  fold_left latest l None = None -> l = [].
Proof.
  destruct l as [|x l]; [reflexivity|]. simpl.
  destruct (latest_fold_some l x) as [r ->]. discriminate.
Qed.

Lemma of_today_spec (today staff : Z) (r : shift) :
  of_today today staff r = true <->
  staff_id (core r) = staff /\ att_date (core r) = today.
Proof. unfold of_today. rewrite andb_true_iff, !Z.eqb_eq. reflexivity. Qed.

(** [get_today_attendance]: when the driver raises nothing, the row
    returned is a row of the staff member dated today, and no such row has
    a greater id; nothing is returned exactly when there is no such row. *)
Theorem get_today_attendance_latest (e : Staff.env) (staff : Z) (d : list shift) :
  connect_fault (Staff.db_faults e) = None ->
  execute_fault (Staff.db_faults e) 0 = None ->
  exists r,
    get_today_attendance e staff d = Ok r /\
    match r with
    | Some row =>
        In row d /\ staff_id (core row) = staff /\ att_date (core row) = curdate e /\
        forall r', In r' d -> staff_id (core r') = staff ->
                   att_date (core r') = curdate e ->
                   att_id (core r') <= att_id (core row)
    | None =>
        forall r', In r' d ->
                   ~ (staff_id (core r') = staff /\ att_date (core r') = curdate e)
    end.
Proof.
  intros Hc Hx. unfold get_today_attendance. rewrite Hc, Hx.
  eexists. split; [reflexivity|]. unfold select_today.
  destruct (fold_left latest _ None) as [row|] eqn:Hfold.
  - apply latest_fold in Hfold as ([Hin|Hin] & Hmax & _); [discriminate|].
    apply list_elem_of_In, list_elem_of_filter in Hin as [Ht Hin].
    apply of_today_spec in Ht as [Hs Hd]. apply list_elem_of_In in Hin.
    repeat split; try assumption.
    intros r' Hr' Hs' Hd'. apply Hmax.
    apply list_elem_of_In, list_elem_of_filter. split.
    + now apply of_today_spec.
    + now apply list_elem_of_In.
  - apply latest_fold_none in Hfold. intros r' Hr' Ht.
    assert (r' ∈ filter (fun r => of_today (curdate e) staff r = true) d) as Hin.
    { apply list_elem_of_filter. split; [now apply of_today_spec|now apply list_elem_of_In]. }
    rewrite Hfold in Hin. inversion Hin.
Qed.

(** *** Clocking in, then out *)

Lemma rows_affected_app (now id : Z) (d1 d2 : list attendance_row) :
  rows_affected now id (d1 ++ d2)
  = (rows_affected now id d1 + rows_affected now id d2)%nat.
Proof. unfold rows_affected. now rewrite filter_app, length_app. Qed.

(** A clock-in followed by a clock-out.  With the id of the new row above
    every id of the table (the column is AUTO_INCREMENT) and a driver that
    raises nothing: [clock_in] returns the id of the new row; the
    attendance of the day of that staff member is then the new row, with
    no time-out; and [clock_out] of the id returned returns [True], having
    updated one row and committed once: the table is then the table before
    the clock-in followed by the new row with its time-out set to the time
    of the clock-out. *)
Theorem clock_in_then_clock_out (e : Staff.env) (staff : Z) (role : string)
        (salary : flt) (d : list shift) (e2 : Attendance.env) :
  connect_fault (Staff.db_faults e) = None ->
  begin_fault (Staff.db_faults e) = None ->
  execute_fault (Staff.db_faults e) 0 = None ->
  commit_fault (Staff.db_faults e) = None ->
  connect_fault (Attendance.db_faults e2) = None ->
  begin_fault (Attendance.db_faults e2) = None ->
  execute_fault (Attendance.db_faults e2) 0 = None ->
  commit_fault (Attendance.db_faults e2) = None ->
  Forall (fun r => att_id (core r) < new_id e) d ->
  exists c1 row c2,
    clock_in e staff role salary (idle d) = (Ok (new_id e), c1) /\
    get_today_attendance e staff (committed c1) = Ok (Some row) /\
    att_id (core row) = new_id e /\
    time_out (core row) = None /\
    clock_out e2 (new_id e) (idle (map core (committed c1))) = (Ok true, c2) /\
    commits c2 = 1%nat /\
    rowcount c2 = 1%nat /\
    committed c2
    = map core d ++ [AttendanceRow (new_id e) staff (curdate e) (curtime e)
                                   (Some (Attendance.curtime e2))].
Proof.
  intros Hc Hb Hx Hm Hc2 Hb2 Hx2 Hm2 Hfresh.
  exists (Conn (d ++ [new_shift e staff salary role]) None 1 1
               [CConnect; CBegin; CExecute (insert e staff salary role) true;
                CCommit true; CCursorClose; CClose]),
         (new_shift e staff salary role).
  assert (rows_affected (Attendance.curtime e2) (new_id e)
                        (map core (d ++ [new_shift e staff salary role])) = 1%nat) as Hone.
  { rewrite map_app, rows_affected_app. simpl map.
    rewrite affected_none.
    + unfold rows_affected. rewrite filter_cons, filter_nil.
      rewrite decide_True; [reflexivity|].
      unfold affected. simpl. rewrite Z.eqb_refl. reflexivity.
    + rewrite map_map, in_map_iff. intros (r & Hid & Hin).
      rewrite List.Forall_forall in Hfresh. specialize (Hfresh r Hin). lia. }
  eexists. split; [|split; [|split; [reflexivity|split; [reflexivity|split]]]].
  - rewrite clock_in_transaction.
    rewrite (transaction_returns (Staff.db_faults e) (body e staff role salary) d
               (new_id e)
               (Conn (d ++ [new_shift e staff salary role]) None 1 1
                     [CConnect; CBegin; CExecute (insert e staff salary role) true;
                      CCommit true])
               Hc Hb); [reflexivity|].
    unfold pbind, execute, commit. simpl. rewrite Hx, Hm. reflexivity.
  - unfold get_today_attendance. rewrite Hc, Hx. cbn [committed]. f_equal.
    unfold select_today. rewrite filter_app, fold_left_app.
    rewrite filter_cons, filter_nil.
    rewrite decide_True by (apply of_today_spec; split; reflexivity).
    simpl fold_left at 1.
    destruct (fold_left latest _ None) as [b|] eqn:Hfold; [|reflexivity].
    apply latest_fold in Hfold as ([Hin|Hin] & _ & _); [discriminate|].
    apply list_elem_of_In, list_elem_of_filter in Hin as [_ Hin].
    rewrite List.Forall_forall in Hfresh.
    specialize (Hfresh b ltac:(now apply list_elem_of_In)).
    simpl. destruct (Z.ltb_spec (att_id (core b)) (new_id e)); [reflexivity|lia].
  - rewrite clock_out_returns by assumption. cbn [committed].
    rewrite Hone. reflexivity.
  - cbn [committed rowcount]. split; [reflexivity|]. split; [reflexivity|].
    rewrite run_set_time_out, !map_app, set_time_out_others.
    + simpl. now rewrite Z.eqb_refl.
    + apply Forall_map. eapply Forall_impl; [exact Hfresh|]. simpl. intros r Hr. lia.
Qed.

End StaffFacts.

(** ** The cart *)

Section CartFacts.
Import Sale Cart.
Context `{PyFloat} `{!PyText} `{!PyFloatOps}.

Lemma cart_is_empty_described (table : list cart_row) :
  _cart_is_empty table = true <-> described table = [].
Proof.
  unfold described. induction table as [|r table IH]; [easy|].
  simpl. rewrite filter_cons. destruct (has_description r).
  - rewrite decide_True by reflexivity. easy.
  - rewrite decide_False by discriminate. exact IH.
Qed.

Lemma cart_item_dicts (rp : gmap nat pyval) (row : nat) (r : cart_row) :
  products_are_dicts rp -> exists item, cart_item rp row r = Ok item.
Proof.
  intros Hd. unfold cart_item.
  destruct (rp !! row) as [p|] eqn:Hp; simpl.
  - specialize (Hd _ _ Hp). destruct p; try discriminate. simpl. now eexists.
  - now eexists.
Qed.

Lemma collect_rows_dicts (rp : gmap nat pyval) (row : nat) (rows : list cart_row) :
  products_are_dicts rp ->
  exists items,
    collect_rows rp row rows = Ok items /\ length items = length (described rows).
Proof.
  intros Hd. revert row. unfold described.
  induction rows as [|r rows IH]; intros row; simpl; [now exists []|].
  rewrite filter_cons. destruct (IH (S row)) as (items & Hitems & Hlen).
  destruct (has_description r).
  - rewrite decide_True by reflexivity.
    destruct (cart_item_dicts rp row r Hd) as [item Hitem].
    rewrite Hitem, Hitems. simpl. exists (item :: items). split; [reflexivity|].
    simpl. now rewrite Hlen.
  - rewrite decide_False by discriminate. now exists items.
Qed.

(** The guard of [handle_payment] and the items of the sale agree: the
    cart counts as empty exactly when [_collect_cart_items] collects
    nothing; in general one item is collected per row with a description. *)
Theorem cart_is_empty_iff_no_item (table : list cart_row) (rp : gmap nat pyval) :
  products_are_dicts rp ->
  exists items,
    _collect_cart_items table rp = Ok items /\
    length items = length (described table) /\
    (_cart_is_empty table = true <-> items = []).
Proof.
  intros Hd. destruct (collect_rows_dicts rp 0 table Hd) as (items & Hitems & Hlen).
  exists items. split; [exact Hitems|]. split; [exact Hlen|].
  rewrite cart_is_empty_described. split.
  - intros He. rewrite He in Hlen. now destruct items.
  - intros ->. simpl in Hlen. now destruct (described table).
Qed.

Lemma find_empty_from_spec (row : nat) (rows : list cart_row) :
  match find_empty_from row rows with
  | Some i =>
      (row <= i)%nat /\
      (exists r, rows !! (i - row)%nat = Some r /\ has_description r = false) /\
      forall j r, (j < i - row)%nat -> rows !! j = Some r -> has_description r = true
  | None => Forall (fun r => has_description r = true) rows
  end.
Proof.
  revert row. induction rows as [|r rows IH]; intros row; simpl; [constructor|].
  destruct (has_description r) eqn:Hr.
  - specialize (IH (S row)). destruct (find_empty_from (S row) rows) as [i|].
    + destruct IH as (Hle & (r' & Hr' & Hd') & Hbefore). split; [lia|]. split.
      * exists r'. split; [|assumption].
        replace (i - row)%nat with (S (i - S row)) by lia. exact Hr'.
      * intros j r0 Hj Hlook. destruct j as [|j]; simpl in Hlook.
        -- now injection Hlook as <-.
        -- apply (Hbefore j); [lia|assumption].
    + now constructor.
  - split; [lia|]. rewrite Nat.sub_diag. split; [now exists r|]. intros j r0 Hj. lia.
Qed.

(** [_find_empty_row] returns the first row without description: every
    row before it has one; it returns [None] exactly when every row has
    one. *)
Theorem find_empty_row_first (table : list cart_row) :
  match _find_empty_row table with
  | Some i =>
      (exists r, table !! i = Some r /\ has_description r = false) /\
      forall j r, (j < i)%nat -> table !! j = Some r -> has_description r = true
  | None => Forall (fun r => has_description r = true) table
  end.
Proof.
  unfold _find_empty_row. pose proof (find_empty_from_spec 0 table) as Hspec.
  destruct (find_empty_from 0 table) as [i|]; [|assumption].
  rewrite Nat.sub_0_r in Hspec. now destruct Hspec as (_ & Hr & Hbefore).
Qed.

(** *** Voiding *)

Lemma blank_row_no_description :
  str_strip "" = "" -> has_description blank_row = false.
Proof. intros Hs. unfold has_description. simpl. now rewrite Hs. Qed.

Lemma clear_rows_table (c : cart) (k : nat) :
  (k <= length (table c))%nat ->
  table (fold_left _clear_row (seq 0 k) c) = replicate k blank_row ++ drop k (table c).
Proof.
  induction k as [|k IH]; intros Hk; [reflexivity|].
  rewrite seq_S, fold_left_app. simpl. rewrite IH by lia.
  destruct (lookup_lt_is_Some_2 (table c) k ltac:(lia)) as [r Hr].
  rewrite (drop_S _ r k Hr).
  rewrite insert_app_r_alt by (rewrite length_replicate; lia).
  rewrite length_replicate, Nat.sub_diag. cbn [insert list_insert].
  rewrite cons_middle, app_assoc. f_equal.
  now rewrite <- replicate_cons_app.
Qed.

Lemma clear_rows_products (c : cart) (k i : nat) :
  row_products (fold_left _clear_row (seq 0 k) c) !! i
  = if decide (i < k)%nat then None else row_products c !! i.
Proof.
  induction k as [|k IH]; [reflexivity|].
  rewrite seq_S, fold_left_app. simpl.
  destruct (decide (i = k)) as [->|Hne].
  - rewrite lookup_delete_eq. now rewrite decide_True by lia.
  - rewrite lookup_delete_ne by congruence. rewrite IH.
    destruct (decide (i < k)%nat); [now rewrite decide_True by lia|].
    now rewrite decide_False by lia.
Qed.

Lemma collect_rows_blank (rp : gmap nat pyval) (row : nat) (rows : list cart_row) :
  Forall (fun r => has_description r = false) rows ->
  collect_rows rp row rows = Ok [].
Proof.
  intros Hrows. revert row. induction Hrows as [|r rows Hr _ IH]; intros row; [reflexivity|].
  simpl. rewrite Hr. apply IH.
Qed.

(** After [void_all_items] every row of the table is blank, the table has
    as many rows as before, no row has a product, and the cart is empty:
    [_cart_is_empty] holds and [_collect_cart_items] collects nothing. *)
Theorem void_all_items_empties (c : cart) :
  str_strip "" = "" ->
  table (void_all_items c) = replicate (length (table c)) blank_row /\
  (forall row, (row < length (table c))%nat ->
               row_products (void_all_items c) !! row = None) /\
  _cart_is_empty (table (void_all_items c)) = true /\
  _collect_cart_items (table (void_all_items c)) (row_products (void_all_items c))
  = Ok [].
Proof.
  intros Hs. unfold void_all_items.
  assert (table (fold_left _clear_row (seq 0 (length (table c))) c)
          = replicate (length (table c)) blank_row) as Ht.
  { rewrite clear_rows_table by lia. now rewrite drop_all, app_nil_r. }
  assert (Forall (fun r => has_description r = false)
                 (replicate (length (table c)) blank_row)) as Hblank.
  { apply Forall_replicate. now apply blank_row_no_description. }
  split; [exact Ht|]. split; [|split].
  - intros row Hrow. rewrite clear_rows_products. now rewrite decide_True.
  - rewrite Ht. apply cart_is_empty_described. unfold described. clear Ht.
    induction Hblank as [|r l Hr _ IH]; [reflexivity|].
    rewrite filter_cons. now rewrite decide_False by (rewrite Hr; discriminate).
  - rewrite Ht. unfold _collect_cart_items. now apply collect_rows_blank.
Qed.

Lemma collect_rows_app (rp : gmap nat pyval) (row : nat) (l1 l2 : list cart_row) :
  collect_rows rp row (l1 ++ l2)
  = (a <- collect_rows rp row l1 ;;
     b <- collect_rows rp (row + length l1) l2 ;;
     Ok (a ++ b))%py.
Proof.
  revert row. induction l1 as [|r l1 IH]; intros row; simpl.
  - rewrite Nat.add_0_r. now destruct (collect_rows rp row l2).
  - rewrite IH. replace (S row + length l1)%nat with (row + S (length l1))%nat by lia.
    destruct (has_description r); [|reflexivity].
    destruct (cart_item rp row r); [|reflexivity]. simpl.
    destruct (collect_rows rp (S row) l1); [|reflexivity]. simpl.
    now destruct (collect_rows rp (row + S (length l1)) l2).
Qed.

Lemma collect_rows_ext (rp rp' : gmap nat pyval) (row : nat) (rows : list cart_row) :
  (forall i, (row <= i < row + length rows)%nat -> rp !! i = rp' !! i) ->
  collect_rows rp row rows = collect_rows rp' row rows.
Proof.
  revert row. induction rows as [|r rows IH]; intros row Hagree; [reflexivity|].
  simpl in *. rewrite (IH (S row)) by (intros i Hi; apply Hagree; lia).
  unfold cart_item. now rewrite (Hagree row) by lia.
Qed.

(** [void_selected_item] on a selected row takes the item of that row, and
    no other, out of what [_collect_cart_items] collects: the items of the
    rows before and after are collected as before, in the same order.
    With no row selected nothing changes. *)
Theorem void_selected_item_removes_one (c : cart) (current_row : Z) :
  str_strip "" = "" ->
  products_are_dicts (row_products c) ->
  (current_row < 0 -> void_selected_item c current_row = c) /\
  (0 <= current_row < Z.of_nat (length (table c)) ->
   exists before item after,
     collect_rows (row_products c) 0 (take (Z.to_nat current_row) (table c)) = Ok before /\
     collect_rows (row_products c) (S (Z.to_nat current_row))
                  (drop (S (Z.to_nat current_row)) (table c)) = Ok after /\
     _collect_cart_items (table c) (row_products c) = Ok (before ++ item ++ after) /\
     (length item <= 1)%nat /\
     _collect_cart_items (table (void_selected_item c current_row))
                         (row_products (void_selected_item c current_row))
     = Ok (before ++ after)).
Proof.
  intros Hs Hd. split.
  - intros Hneg. unfold void_selected_item.
    now destruct (Z.ltb_spec current_row 0); [|lia].
  - intros Hrow. unfold void_selected_item.
    destruct (Z.ltb_spec current_row 0); [lia|].
    set (i := Z.to_nat current_row).
    assert (i < length (table c))%nat as Hi by (unfold i; lia).
    destruct (lookup_lt_is_Some_2 (table c) i Hi) as [r Hr].
    destruct (collect_rows_dicts (row_products c) 0 (take i (table c)) Hd)
      as (before & Hbefore & _).
    destruct (collect_rows_dicts (row_products c) (S i) (drop (S i) (table c)) Hd)
      as (after & Hafter & _).
    destruct (collect_rows_dicts (row_products c) i [r] Hd) as (item & Hitem & Hlen).
    assert (length (take i (table c)) = i) as Htake by (rewrite length_take; lia).
    exists before, item, after. split; [exact Hbefore|]. split; [exact Hafter|].
    split; [|split].
    + unfold _collect_cart_items.
      rewrite <- (take_drop_middle (table c) i r Hr) at 1.
      rewrite collect_rows_app, Hbefore. cbn [bind]. rewrite Htake, Nat.add_0_l.
      change (r :: drop (S i) (table c)) with ([r] ++ drop (S i) (table c)).
      rewrite collect_rows_app, Hitem. cbn [bind length].
      replace (i + 1)%nat with (S i) by lia. now rewrite Hafter.
    + rewrite Hlen. unfold described. rewrite filter_cons, filter_nil.
      destruct (decide _); simpl; lia.
    + unfold _collect_cart_items, _clear_row. cbn [table row_products].
      rewrite <- (take_drop_middle (table c) i r Hr) at 1.
      rewrite insert_app_r_alt by lia. rewrite Htake, Nat.sub_diag.
      cbn [insert list_insert].
      rewrite collect_rows_app.
      rewrite (collect_rows_ext (delete i (row_products c)) (row_products c) 0
                                (take i (table c)))
        by (intros j Hj; apply lookup_delete_ne; lia).
      rewrite Hbefore. cbn [bind]. rewrite Htake, Nat.add_0_l.
      cbn [collect_rows]. rewrite (blank_row_no_description Hs).
      rewrite (collect_rows_ext (delete i (row_products c)) (row_products c) (S i)
                                (drop (S i) (table c)))
        by (intros j Hj; apply lookup_delete_ne; lia).
      now rewrite Hafter.
Qed.

(** *** The stock check *)

(** [_has_sufficient_stock] on an object never raises, and lets the
    quantity pass whenever the stock cannot be told: for the empty object,
    for a stock that is missing or [None], for a stock or a deduct unit
    that [float] cannot convert.  A deduct unit that is missing or falsy
    ([None], 0, 0.0, the empty text) counts as one. *)
Theorem has_sufficient_stock_lenient (d : dict) (qty : flt) :
  exists b,
    _has_sufficient_stock (PDict d) qty = Ok b /\
    (d = [] -> b = true) /\
    (dict_get d "stock" = None \/ dict_get d "stock" = Some PNone -> b = true) /\
    (forall v e, dict_get d "stock" = Some v -> py_float v = Raise e -> b = true) /\
    (forall v e, dict_get d "deduct_unit" = Some v -> py_truthy v = true ->
                 py_float v = Raise e -> b = true) /\
    (forall v s, dict_get d "stock" = Some v -> v <> PNone -> py_float v = Ok s ->
                 py_truthy (default PNone (dict_get d "deduct_unit")) = false ->
                 b = match fdiv s fone with
                     | Some a => fleb qty (fadd a f_1e_6)
                     | None => true
                     end).
Proof.
  destruct d as [|kv d].
  { exists true. split; [reflexivity|].
    repeat split; intros; try reflexivity; discriminate. }
  set (d' := kv :: d).
  set (stock := default PNone (dict_get d' "stock")).
  set (unit := py_or (default PNone (dict_get d' "deduct_unit")) (PFloat fone)).
  set (b := match stock with
            | PNone => true
            | _ => match available_units stock unit with
                   | Some a => fleb qty (fadd a f_1e_6)
                   | None => true
                   end
            end).
  assert (_has_sufficient_stock (PDict d') qty = Ok b) as Hb.
  { unfold _has_sufficient_stock. cbn [py_truthy negb py_get bind].
    fold stock. fold unit. unfold b.
    destruct stock; try reflexivity; destruct (available_units _ unit); reflexivity. }
  exists b. split; [exact Hb|]. split; [discriminate|].
  assert (forall v, stock = v -> available_units v unit = None -> b = true) as Hnone.
  { intros v <- Hav. unfold b. rewrite Hav. now destruct stock. }
  split; [|split; [|split]].
  - intros [Hs|Hs]; unfold b, stock; now rewrite Hs.
  - intros v e Hv Hf. apply (Hnone v); [unfold stock; now rewrite Hv|].
    unfold available_units. now rewrite Hf.
  - intros v e Hv Ht Hf. apply (Hnone stock eq_refl).
    unfold available_units, unit, py_or. rewrite Hv. simpl. rewrite Ht, Hf.
    now destruct (py_float stock).
  - intros v s Hv Hne Hf Ht. unfold b, stock. rewrite Hv. simpl.
    assert (available_units v unit = fdiv s fone) as ->.
    { unfold available_units, unit, py_or. rewrite Ht, Hf. simpl.
      now destruct (f_is_zero fone). }
    now destruct v.
Qed.

End CartFacts.

(** ** The keypad *)

Section KeypadFacts.
Import Keypad.

(** Pressing [+/-] twice gives back the buffer, except on the buffer that
    is a lone minus sign (which becomes empty and stays so) and on a buffer
    that begins with two minus signs (which loses both). *)
Theorem pad_toggle_sign_twice (p : pad) :
  _pad_toggle_sign (_pad_toggle_sign p) = p <->
  pad_buffer p <> "-" /\ forall rest, pad_buffer p <> "--" +:+ rest.
Proof.
  destruct p as [mode b]. unfold _pad_toggle_sign. cbn [pad_buffer pad_mode].
  destruct b as [|c rest]; [easy|].
  destruct (Ascii.eqb_spec c "-") as [->|Hc].
  - cbn [pad_buffer pad_mode]. destruct rest as [|c2 rest2].
    + split; [intros Heq; discriminate Heq|]. now intros [Hne _].
    + destruct (Ascii.eqb_spec c2 "-") as [->|Hc2]; cbn [pad_buffer pad_mode].
      * split.
        -- intros Heq. exfalso. apply (f_equal pad_buffer) in Heq.
           apply (f_equal String.length) in Heq. simpl in Heq. lia.
        -- intros [_ Hp]. now specialize (Hp rest2).
      * split; [|reflexivity].
        intros _. split; [discriminate|]. intros r [= Heq _]. contradiction.
  - simpl. split; [|reflexivity].
    intros _. split; [congruence|]. intros r [= Heq _]. contradiction.
Qed.

Lemma plain_app (a b : string) : plain (a +:+ b) = plain a && plain b.
Proof.
  induction a as [|c a IH]; [reflexivity|].
  simpl. rewrite IH. now rewrite andb_assoc.
Qed.

Lemma plain_no_minus (c : ascii) (rest : string) :
  plain (String c rest) = true -> Ascii.eqb c "-" = false.
Proof.
  simpl. intros Hp. apply andb_true_iff in Hp as [Hc _].
  destruct (Ascii.eqb_spec c "-") as [->|]; [discriminate|reflexivity].
Qed.

Lemma number_text_plain (text : string) :
  In text number_texts -> plain text = true /\ text <> "".
Proof.
  intros Hin. simpl in Hin.
  repeat (destruct Hin as [<-|Hin]; [split; [reflexivity|discriminate]|]).
  contradiction.
Qed.

Lemma press_keeps_number_text (p : pad) (k : key) :
  wired k -> signed_number_text (pad_buffer p) = true ->
  signed_number_text (pad_buffer (press p k)) = true.
Proof.
  intros Hk Hp. destruct p as [mode b]. destruct k; cbn [press]; try reflexivity.
  - (* a digit or the point *)
    destruct (number_text_plain text Hk) as [Htext Hne].
    unfold _pad_append. cbn [pad_buffer pad_mode] in *.
    destruct b as [|c rest].
    + destruct text as [|c t]; [contradiction|].
      change ("" +:+ String c t) with (String c t). cbn [signed_number_text].
      now rewrite (plain_no_minus c t Htext).
    + change (String c rest +:+ text) with (String c (rest +:+ text)).
      cbn [signed_number_text] in *. destruct (Ascii.eqb c "-").
      * apply andb_true_iff in Hp as [Hrest Hplain].
        rewrite plain_app, Hplain, Htext.
        destruct rest; [discriminate|reflexivity].
      * change (String c (rest +:+ text)) with (String c rest +:+ text).
        now rewrite plain_app, Hp, Htext.
  - (* the sign *)
    unfold _pad_toggle_sign. cbn [pad_buffer pad_mode] in *.
    destruct b as [|c rest]; [reflexivity|]. cbn [signed_number_text] in Hp.
    destruct (Ascii.eqb c "-") eqn:Hc; cbn [pad_buffer].
    + apply andb_true_iff in Hp as [_ Hplain].
      destruct rest as [|c2 rest2]; [reflexivity|].
      cbn [signed_number_text]. now rewrite (plain_no_minus c2 rest2 Hplain).
    + change ("-" +:+ String c rest) with (String "-" (String c rest)).
      cbn [signed_number_text]. rewrite Ascii.eqb_refl.
      now rewrite Hp.
  - (* Enter *)
    unfold _pad_apply. cbn [pad_buffer pad_mode].
    destruct mode as [m|]; [|assumption].
    destruct (String.eqb m ""); [assumption|].
    destruct (String.eqb b ""); [assumption|].
    now destruct (Z.ltb current_row 0).
Qed.

(** Whatever keys of the window are pressed, in whatever order, the buffer
    is a text of digits and points after at most one minus sign that never
    stands alone; so on every buffer the keypad can reach, pressing [+/-]
    twice gives back the buffer. *)
Theorem keypad_buffer_invariant (keys : list key) :
  Forall wired keys ->
  signed_number_text (pad_buffer (fold_left press keys initial)) = true /\
  _pad_toggle_sign (_pad_toggle_sign (fold_left press keys initial))
  = fold_left press keys initial.
Proof.
  intros Hkeys.
  assert (signed_number_text (pad_buffer (fold_left press keys initial)) = true) as Hinv.
  { assert (signed_number_text (pad_buffer initial) = true) as Hinit by reflexivity.
    revert Hinit. generalize initial.
    induction Hkeys as [|k keys Hk _ IH]; intros p Hp; [assumption|].
    simpl. apply IH. now apply press_keeps_number_text. }
  split; [exact Hinv|].
  destruct (fold_left press keys initial) as [mode b].
  unfold _pad_toggle_sign. cbn [pad_buffer pad_mode] in *.
  destruct b as [|c rest]; [reflexivity|]. simpl in Hinv.
  destruct (Ascii.eqb c "-") eqn:Hc; cbn [pad_buffer pad_mode].
  - apply Ascii.eqb_eq in Hc. subst c.
    apply andb_true_iff in Hinv as [Hrest Hplain].
    destruct rest as [|c2 rest2]; [discriminate|].
    now rewrite (plain_no_minus c2 rest2 Hplain).
  - simpl. reflexivity.
Qed.

End KeypadFacts.

(** ** The payment terminal *)

Section TerminalFacts.
Import Linkly Sale Cart Terminal.
Context `{PyFloat} `{!PyText} `{!PyFloatOps} `{!PyTextOps}.

Lemma read_loop_ends (fuel : nat) (t : terminal) (i k : nat) (chunks : list string) :
  (forall j, (j < k)%nat -> goes_on (recv t (i + j))) ->
  ends (recv t (i + k)) ->
  (k < fuel)%nat ->
  read_loop fuel t i chunks
  = Some (Chunks (chunks ++ flat_map (fun j => bytes_of (recv t j)) (seq i (S k)))).
Proof.
  revert i k chunks. induction fuel as [|fuel IH]; intros i k chunks Hgo Hend Hfuel; [lia|].
  destruct k as [|k].
  - rewrite Nat.add_0_r in Hend. cbn [read_loop seq flat_map]. rewrite app_nil_r.
    destruct (recv t i) as [|data|msg]; simpl in *.
    + now rewrite app_nil_r.
    + destruct (String.eqb_spec data "") as [->|Hne]; [now rewrite app_nil_r|].
      destruct Hend as [He|Hnl]; [contradiction|]. now rewrite Hnl.
    + contradiction.
  - destruct (Hgo 0%nat ltac:(lia)) as (data & Hdata & Hne & Hnl).
    rewrite Nat.add_0_r in Hdata. cbn [read_loop]. rewrite Hdata.
    destruct (String.eqb_spec data ""); [contradiction|]. rewrite Hnl.
    rewrite (IH (S i) k).
    + change (seq i (S (S k))) with (i :: seq (S i) (S k)).
      cbn [flat_map]. rewrite Hdata. cbn [bytes_of].
      destruct (String.eqb_spec data ""); [contradiction|].
      now rewrite <- app_assoc.
    + intros j Hj. replace (S i + j)%nat with (i + S j)%nat by lia. apply Hgo. lia.
    + now replace (S i + k)%nat with (i + S k)%nat by lia.
    + lia.
Qed.

(** [_read_linkly_response] reads up to the first line: when call [k] of
    [recv] is the first that times out, returns no bytes, or returns bytes
    with a newline, the response is the stripped concatenation of the
    chunks of the calls [0..k], and no later call of [recv] is made: a
    terminal that behaves alike on the calls [0..k] gets the same result.
    [k + 1] rounds of the loop suffice. *)
Theorem read_linkly_response_first_line (fuel : nat) (t t' : terminal) (k : nat) :
  connect_error t = None -> send_error t = None ->
  connect_error t' = None -> send_error t' = None ->
  (forall j, (j < k)%nat -> goes_on (recv t j)) ->
  ends (recv t k) ->
  (forall j, (j <= k)%nat -> recv t' j = recv t j) ->
  (k < fuel)%nat ->
  _send_linkly_payload fuel t
  = Some (Response (joined (flat_map (fun j => bytes_of (recv t j)) (seq 0 (S k))))) /\
  _send_linkly_payload fuel t' = _send_linkly_payload fuel t.
Proof.
  intros Hc Hs Hc' Hs' Hgo Hend Hsame Hfuel.
  assert (forall u, connect_error u = None -> send_error u = None ->
                    (forall j, (j <= k)%nat -> recv u j = recv t j) ->
                    _send_linkly_payload fuel u
                    = Some (Response (joined (flat_map (fun j => bytes_of (recv t j))
                                                       (seq 0 (S k)))))) as Hgen.
  { intros u Hcu Hsu Hu. unfold _send_linkly_payload. rewrite Hcu, Hsu.
    rewrite (read_loop_ends fuel u 0 k []).
    - rewrite app_nil_l. do 3 f_equal. rewrite !flat_map_concat_map. f_equal.
      apply map_ext_in. intros j Hj.
      apply in_seq in Hj. rewrite Hu by lia. reflexivity.
    - intros j Hj. simpl. rewrite Hu by lia. now apply Hgo.
    - simpl. now rewrite Hu by lia.
    - assumption. }
  split.
  - now apply Hgen.
  - rewrite (Hgen t') by assumption. symmetry. now apply Hgen.
Qed.

(** A card payment that fails always comes with a reason that is not the
    empty text, and one that succeeds comes with none: whatever the
    terminal does, if [_process_card_payment] returns [(approved, message)]
    then [message] is [None] exactly when [approved] is true. *)
Theorem process_card_payment_reason (fuel : nat) (t : terminal) (c : cart) (total : flt)
        (approved : bool) (message : option string) :
  _process_card_payment fuel t c total = Some (Ok (approved, message)) ->
  if approved then message = None
  else exists reason, message = Some reason /\ reason <> "".
Proof.
  unfold _process_card_payment.
  destruct (_collect_cart_items _ _) as [items|]; [|discriminate].
  destruct (cents total) as [amount_cents|]; [|discriminate].
  destruct (_send_linkly_payload fuel t) as [s|] eqn:Hs; [|discriminate].
  simpl. intros [= Hout]. destruct s as [response|msg]; simpl in Hout.
  - destruct (_interpret_linkly_response response) as [[ok m]|e]; [|discriminate].
    simpl in Hout. destruct ok; simpl in Hout.
    + now injection Hout as <- <-.
    + injection Hout as <- <-. eexists. split; [reflexivity|].
      destruct m as [m|]; [|discriminate].
      destruct (String.eqb_spec m ""); [discriminate|assumption].
  - injection Hout as <- <-.
    unfold _send_linkly_payload in Hs.
    assert (forall x, connection_failed x <> "") as Hne by (intros x; discriminate).
    exists msg. split; [reflexivity|].
    destruct (connect_error t); [injection Hs as <-; apply Hne|].
    destruct (send_error t); [injection Hs as <-; apply Hne|].
    destruct (read_loop fuel t 0 []) as [[chunks|x]|]; try discriminate.
    injection Hs as <-. apply Hne.
Qed.

(** A terminal that stays silent: when the first call of [recv] times out
    (or the peer closes at once), the payment fails with the reason
    "No response from Linkly." *)
Theorem silent_terminal_no_response (fuel : nat) (t : terminal) (c : cart) (total : flt) :
  bytes_strip "" = "" ->
  products_are_dicts (row_products c) ->
  is_ok (cents total) = true ->
  connect_error t = None -> send_error t = None ->
  recv t 0 = Timeout \/ recv t 0 = Data "" ->
  (0 < fuel)%nat ->
  _process_card_payment fuel t c total = Some (Ok (false, Some no_response)).
Proof.
  intros Hstrip Hd Hcents Hc Hs Hrecv Hfuel.
  unfold _process_card_payment, _send_linkly_payload.
  destruct (collect_rows_dicts (row_products c) 0 (table c) Hd) as (items & Hitems & _).
  unfold _collect_cart_items. rewrite Hitems.
  destruct (cents total); [|discriminate].
  rewrite Hc, Hs. destruct fuel as [|fuel]; [lia|]. cbn [read_loop].
  destruct Hrecv as [-> | ->]; simpl; unfold joined; simpl; now rewrite Hstrip.
Qed.

End TerminalFacts.

(** ** Totals and payment *)

Section CheckoutFacts.
Import Tx Sale Cart Terminal Checkout.
Context `{PyFloat} `{!PyText} `{!PyFloatOps} `{!PyTextOps}.
Variable id_eq : pyval -> Z -> bool.

Lemma cart_item_amount_of (rp : gmap nat pyval) (row : nat) (r : cart_row) (item : pyval) :
  cart_item rp row r = Ok item ->
  amount_of item = fmul (cell_float (qty_item r)) (cell_float (price_item r)).
Proof.
  intros Hitem. destruct (cart_item_amount rp row r item Hitem) as (_ & _ & Ha).
  unfold amount_of. now rewrite Ha.
Qed.

Lemma totals_from_items (rp : gmap nat pyval) (rows : list cart_row) :
  forall row items total item_count cells,
    collect_rows rp row rows = Ok items ->
    exists cells',
      totals_from row rows total item_count cells
      = (fold_left (fun acc item => fadd acc (amount_of item)) items total,
         item_count + Z.of_nat (length items),
         cells ++ cells') /\
      map snd cells' = map (fun item => format_2f (amount_of item)) items /\
      Forall (fun cell => exists r, rows !! (fst cell - row)%nat = Some r /\
                                    (row <= fst cell)%nat /\
                                    has_description r = true) cells'.
Proof.
  induction rows as [|r rows IH]; intros row items total item_count cells Hitems;
    simpl in *.
  - injection Hitems as <-. exists []. simpl. rewrite Z.add_0_r, app_nil_r.
    repeat split. constructor.
  - destruct (has_description r) eqn:Hdesc.
    + destruct (cart_item rp row r) as [item|] eqn:Hitem; [|discriminate].
      simpl in Hitems.
      destruct (collect_rows rp (S row) rows) as [rest|] eqn:Hrest; [|discriminate].
      injection Hitems as <-.
      destruct (IH (S row) rest (fadd total (fmul (cell_float (qty_item r))
                                                 (cell_float (price_item r))))
                   (item_count + 1)
                   (cells ++ [(row, format_2f (fmul (cell_float (qty_item r))
                                                    (cell_float (price_item r))))])
                   Hrest) as (cells' & -> & Htexts & Hrows).
      exists ((row, format_2f (fmul (cell_float (qty_item r)) (cell_float (price_item r))))
                :: cells').
      simpl. rewrite (cart_item_amount_of rp row r item Hitem), Htexts, <- app_assoc.
      split; [do 2 f_equal; lia|]. split; [reflexivity|].
      constructor.
      * exists r. simpl. rewrite Nat.sub_diag. now repeat split.
      * eapply Forall_impl; [exact Hrows|]. intros [i text] (r' & Hr' & Hle & Hd').
        simpl in *. exists r'. split; [|split; [lia|assumption]].
        replace (i - row)%nat with (S (i - S row)) by lia. exact Hr'.
    + destruct (IH (S row) items total item_count cells Hitems)
        as (cells' & -> & Htexts & Hrows).
      exists cells'. split; [reflexivity|]. split; [assumption|].
      eapply Forall_impl; [exact Hrows|]. intros [i text] (r' & Hr' & Hle & Hd').
      simpl in *. exists r'. split; [|split; [lia|assumption]].
      replace (i - row)%nat with (S (i - S row)) by lia. exact Hr'.
Qed.

(** The labels and the sale to be recorded.  When [_collect_cart_items]
    returns the items, [_recalculate_totals] writes their number to the
    items label and, to the three money labels, the dollar sign and the
    two-decimal text of the sum of their amounts (added up in row order
    from [0.0]); to column 3 of the rows that have a description it writes
    the two-decimal texts of the amounts, one per item, in order.  The
    total [_current_total] reads back for the payment is [float] of that
    text of the sum: the sum as the display rounds it, and 0.0 when the
    text is no number. *)
Theorem recalculate_totals_agree (table : list cart_row) (rp : gmap nat pyval)
        (items : list pyval) :
  _collect_cart_items table rp = Ok items ->
  items_label (_recalculate_totals table) = pretty (Z.of_nat (length items)) /\
  total_label (_recalculate_totals table) = "$" +:+ format_2f (sum_of_amounts items) /\
  amount_label (_recalculate_totals table) = "$" +:+ format_2f (sum_of_amounts items) /\
  gst_label (_recalculate_totals table) = "$" +:+ format_2f (sum_of_amounts items) /\
  map snd (amount_cells (_recalculate_totals table))
  = map (fun item => format_2f (amount_of item)) items /\
  Forall (fun cell => exists r, table !! fst cell = Some r /\ has_description r = true)
         (amount_cells (_recalculate_totals table)) /\
  _current_total (total_label (_recalculate_totals table))
  = default fzero (float_of_str (without_dollar (format_2f (sum_of_amounts items)))).
Proof.
  intros Hitems. unfold _recalculate_totals.
  destruct (totals_from_items rp table 0 items fzero 0 [] Hitems)
    as (cells & -> & Htexts & Hrows).
  cbn [items_label total_label amount_label gst_label amount_cells app].
  repeat split; try assumption.
  eapply Forall_impl; [exact Hrows|]. intros [i text] (r & Hr & _ & Hd).
  simpl in *. rewrite Nat.sub_0_r in Hr. now exists r.
Qed.

Lemma store_sale_cases (e : env) (ready : bool) (method : string) (change : flt)
      (c : cart) (shown : list notice) (db : conn Sale.db stmt)
      (r : result unit) (c' : cart) (shown' : list notice) (db' : conn Sale.db stmt) :
  store_sale id_eq e ready method change c shown db = (r, (c', shown'), db') ->
  (c' = void_all_items c /\ r = Ok tt /\ shown' = shown ++ [Paid change] /\
   ready = true /\
   exists items, _collect_cart_items (table c) (row_products c) = Ok items /\
                 record_sale id_eq e items method db = (Ok true, db')) \/
  (c' = c /\
   (exists last, shown' = shown ++ last /\
                 Forall (fun n => is_paid_notice n = false) last) /\
   ~ (ready = true /\
      exists items, _collect_cart_items (table c) (row_products c) = Ok items /\
                    fst (record_sale id_eq e items method db) = Ok true)).
Proof.
  unfold store_sale.
  destruct (_collect_cart_items (table c) (row_products c)) as [items|ex] eqn:Hitems.
  - destruct ready.
    + destruct (record_sale id_eq e items method db) as [saved db1] eqn:Hrec.
      assert (forall items', Ok items = Ok items' ->
                fst (record_sale id_eq e items' method db) = saved) as Hsaved.
      { intros items' [= <-]. now rewrite Hrec. }
      destruct saved as [[|]|ex].
      * intros [= <- <- <- <-]. left. repeat split. now exists items.
      * intros [= <- <- <- <-]. right. split; [reflexivity|]. split.
        -- exists [StoreFailed None]. split; [reflexivity|]. now repeat constructor.
        -- intros (_ & items' & Hi & Hr). rewrite (Hsaved items' Hi) in Hr. discriminate.
      * assert (~ (true = true /\
                   exists items', Ok items = Ok items' /\
                                  fst (record_sale id_eq e items' method db) = Ok true))
          as Hnot.
        { intros (_ & items' & Hi & Hr). rewrite (Hsaved items' Hi) in Hr. discriminate. }
        destruct ex; intros [= <- <- <- <-]; right; (split; [reflexivity|]);
          (split; [|exact Hnot]);
          try (exists []; split; [now rewrite app_nil_r|constructor]).
        eexists [StoreFailed (Some msg)]. split; [reflexivity|]. now repeat constructor.
    + intros [= <- <- <- <-]. right. split; [reflexivity|]. split.
      * exists [StoreFailed None]. split; [reflexivity|]. now repeat constructor.
      * now intros [[=] _].
  - intros [= <- <- <- <-]. right. split; [reflexivity|]. split.
    + exists []. split; [now rewrite app_nil_r|constructor].
    + now intros (_ & items' & [=] & _).
Qed.

Lemma store_sale_without_model (e : env) (method : string) (change : flt)
      (c : cart) (shown : list notice) (db : conn Sale.db stmt) :
  snd (store_sale id_eq e false method change c shown db) = db.
Proof.
  unfold store_sale. destruct (_collect_cart_items _ _); reflexivity.
Qed.

(** No payment, no sale: whatever [handle_payment] ends with, the database
    connection is used only after the payment went through, that is, after
    cash that is not less than the total was tendered or the terminal
    approved the card payment, for a cart that is not empty. *)
Theorem handle_payment_no_payment_no_sale
        (e : env) (ready : bool) (fuel : nat) (t : terminal) (total : flt)
        (dialog : option (string * option flt)) (c : cart) (db : conn Sale.db stmt)
        (r : result unit) (s : screen) (db' : conn Sale.db stmt) :
  handle_payment id_eq e ready fuel t total dialog c db = Some (r, s, db') ->
  db' <> db ->
  _cart_is_empty (table c) = false /\
  ready = true /\
  exists method tendered,
    dialog = Some (method, tendered) /\ paid fuel t total c method tendered.
Proof.
  unfold handle_payment. intros Hrun Hdb.
  destruct (_cart_is_empty (table c)); [now injection Hrun as _ _ <-|].
  split; [reflexivity|].
  destruct dialog as [[method tendered]|]; [|now injection Hrun as _ _ <-].
  assert (forall change shown,
             Some (store_sale id_eq e ready method change c shown db) = Some (r, s, db') ->
             ready = true) as Hready.
  { intros change shown [= Hstore]. destruct ready; [reflexivity|].
    pose proof (store_sale_without_model e method change c shown db) as Hsame.
    rewrite Hstore in Hsame. simpl in Hsame. contradiction. }
  destruct (String.eqb_spec method "cash") as [Hm|Hm].
  - destruct tendered as [x|]; [|now injection Hrun as _ _ <-].
    destruct (fltb x total) eqn:Hlt; [now injection Hrun as _ _ <-|].
    split; [now apply (Hready _ _ Hrun)|].
    exists method, (Some x). split; [reflexivity|]. left. split; [assumption|].
    now exists x.
  - destruct (_process_card_payment fuel t c total) as [[[[|] message]|ex]|] eqn:Hcard;
      try discriminate; try (now injection Hrun as _ _ <-).
    split; [now apply (Hready _ _ Hrun)|].
    exists method, tendered. split; [reflexivity|]. right. split; [assumption|].
    now exists message.
Qed.

(** The cart is emptied exactly when the sale was stored.  Either the
    sale was stored (the cart was not empty, the model is there, the dialog
    was accepted, the payment went through and [record_sale] returned
    [True] for the collected items): then [handle_payment] ends with
    "Payment successful" as its last message and every row of the cart is
    voided.  Or the sale was not stored: then the cart is left as it was
    and no "Payment successful" is shown. *)
Theorem handle_payment_empties_cart_iff_stored
        (e : env) (ready : bool) (fuel : nat) (t : terminal) (total : flt)
        (dialog : option (string * option flt)) (c : cart) (db : conn Sale.db stmt)
        (r : result unit) (c' : cart) (shown : list notice) (db' : conn Sale.db stmt) :
  handle_payment id_eq e ready fuel t total dialog c db = Some (r, (c', shown), db') ->
  (sale_stored id_eq e ready fuel t total dialog c db /\
   c' = void_all_items c /\ r = Ok tt /\
   (exists before change, shown = before ++ [Paid change] /\
                          Forall (fun n => is_paid_notice n = false) before) /\
   exists method tendered items,
     dialog = Some (method, tendered) /\
     _collect_cart_items (table c) (row_products c) = Ok items /\
     record_sale id_eq e items method db = (Ok true, db')) \/
  (~ sale_stored id_eq e ready fuel t total dialog c db /\
   c' = c /\ Forall (fun n => is_paid_notice n = false) shown).
Proof.
  unfold handle_payment. intros Hrun.
  assert (forall method tendered change before,
             _cart_is_empty (table c) = false ->
             dialog = Some (method, tendered) ->
             paid fuel t total c method tendered ->
             Forall (fun n => is_paid_notice n = false) before ->
             Some (store_sale id_eq e ready method change c before db)
             = Some (r, (c', shown), db') ->
             (sale_stored id_eq e ready fuel t total dialog c db /\
              c' = void_all_items c /\ r = Ok tt /\
              (exists before change, shown = before ++ [Paid change] /\
                   Forall (fun n => is_paid_notice n = false) before) /\
              exists method tendered items,
                dialog = Some (method, tendered) /\
                _collect_cart_items (table c) (row_products c) = Ok items /\
                record_sale id_eq e items method db = (Ok true, db')) \/
             (~ sale_stored id_eq e ready fuel t total dialog c db /\
              c' = c /\ Forall (fun n => is_paid_notice n = false) shown)) as Hstore.
  { intros method tendered change before Hfull Hdialog Hpaid Hbefore [= Hs].
    destruct (store_sale_cases e ready method change c before db r c' shown db' Hs)
      as [(Hc & Hr & Hshown & Hready & items & Hitems & Hrec)
         |(Hc & (last & Hshown & Hlast) & Hnot)].
    - left. split.
      { split; [assumption|]. split; [assumption|].
        exists method, tendered, items. repeat split; try assumption.
        now rewrite Hrec. }
      split; [assumption|]. split; [assumption|]. split.
      + now exists before, change.
      + now exists method, tendered, items.
    - right. split; [|split; [assumption|rewrite Hshown; now apply Forall_app]].
      intros (_ & Hready & method' & tendered' & items & Hd & _ & Hitems & Hrec).
      rewrite Hdialog in Hd. injection Hd as <- <-.
      apply Hnot. split; [assumption|]. now exists items. }
  destruct (_cart_is_empty (table c)) eqn:Hempty.
  { injection Hrun as _ <- <- _. right. split; [intros [Hfull _]; congruence|].
    split; [reflexivity|]. now repeat constructor. }
  destruct dialog as [[method tendered]|].
  2:{ injection Hrun as _ <- <- _. right.
      split; [now intros (_ & _ & ? & ? & ? & [=] & _)|].
      split; [reflexivity|]. constructor. }
  assert (forall P : Prop,
             ~ paid fuel t total c method tendered ->
             ~ sale_stored id_eq e ready fuel t total (Some (method, tendered)) c db)
    as Hunpaid.
  { intros _ Hnp (_ & _ & method' & tendered' & items & [= <- <-] & Hp & _).
    now apply Hnp. }
  destruct (String.eqb_spec method "cash") as [Hm|Hm].
  - destruct tendered as [x|].
    2:{ injection Hrun as _ <- <- _. right. split; [|split; [reflexivity|]].
        - apply (Hunpaid True). intros [(_ & x & [=] & _)|(Hn & _)]. contradiction.
        - now repeat constructor. }
    destruct (fltb x total) eqn:Hlt.
    { injection Hrun as _ <- <- _. right. split; [|split; [reflexivity|]].
      - apply (Hunpaid True). intros [(_ & y & [= <-] & Hy)|(Hn & _)];
          [congruence|contradiction].
      - now repeat constructor. }
    apply (Hstore method (Some x) (fsub x total) [DrawerOpened] eq_refl eq_refl);
      [|now repeat constructor|exact Hrun].
    left. split; [assumption|]. now exists x.
  - destruct (_process_card_payment fuel t c total) as [[[[|] message]|ex]|] eqn:Hcard;
      try discriminate.
    + apply (Hstore method tendered fzero [] eq_refl eq_refl); [|constructor|exact Hrun].
      right. split; [assumption|]. now exists message.
    + injection Hrun as _ <- <- _. right. split; [|split; [reflexivity|]].
      * apply (Hunpaid True). intros [(Hc & _)|(_ & m & Hp)]; [contradiction|].
        rewrite Hcard in Hp. discriminate.
      * now repeat constructor.
    + injection Hrun as _ <- <- _. right. split; [|split; [reflexivity|]].
      * apply (Hunpaid True). intros [(Hc & _)|(_ & m & Hp)]; [contradiction|].
        rewrite Hcard in Hp. discriminate.
      * constructor.
Qed.

End CheckoutFacts.

(** ** Evaluation on the concrete runtime *)

Section Evaluation.
Import Runtime Samples Tx.

#[local] Existing Instance binary64.
#[local] Existing Instance ascii_text.

(** Splits a conjunction of closed equations and evaluates the two sides of
    each on the virtual machine. *)
Local Ltac evaluate :=
  repeat match goal with |- _ /\ _ => split end;
  lazymatch goal with |- _ = ?r => vm_cast_no_check (eq_refl r) end.

(** *** Payment responses *)

(** The four responses of the specification's examples. *)
Example interpret_examples :
  Linkly._interpret_linkly_response approved_json = Ok (true, None) /\
  Linkly._interpret_linkly_response declined_json = Ok (false, Some "insufficient funds") /\
  Linkly._interpret_linkly_response declined_text = Ok (false, Some "DECLINED BY ISSUER") /\
  Linkly._interpret_linkly_response "" = Ok (false, Some "No response from Linkly.").
Proof. evaluate. Qed.

(** A JSON object with [approved] true. *)
Lemma interpret_json_object_witness :
  Linkly._interpret_linkly_response approved_json = Ok (true, None).
Proof.
  apply (interpret_json_object approved_json [("approved", PBool true)]).
  - discriminate.
  - reflexivity.
Defined.

(** A text that is not JSON, with the keyword DECLINED. *)
Lemma interpret_not_json_witness :
  Linkly._interpret_linkly_response declined_text
  = Ok (false, Some "DECLINED BY ISSUER").
Proof.
  rewrite (interpret_not_json declined_text).
  - reflexivity.
  - discriminate.
  - reflexivity.
Defined.

(** C1: on a response that is JSON but not an object (an array, [null], a
    number, a string, even the string "APPROVED") the function returns
    nothing: [parsed.get] raises [AttributeError], which nothing catches. *)
Theorem interpret_json_non_object_raises :
  Linkly._interpret_linkly_response "[]" = Raise AttributeError /\
  Linkly._interpret_linkly_response "null" = Raise AttributeError /\
  Linkly._interpret_linkly_response "1" = Raise AttributeError /\
  Linkly._interpret_linkly_response approved_as_json_string = Raise AttributeError.
Proof. evaluate. Qed.

(** *** Driver check *)

Example validate_examples :
  Driver._validate_mysql_connector "8.0.33" = Ok tt /\
  Driver._validate_mysql_connector "2.2.9"
  = Raise (DatabaseError (Driver.unsupported_message "2.2.9")) /\
  Driver._validate_mysql_connector "" = Ok tt /\
  Driver._validate_mysql_connector "abc" = Ok tt.
Proof. evaluate. Qed.

(** C10, counterexample: the version "-1.0" has the major [-1], which is
    not in [1, 8), and the check raises. *)
Lemma validate_negative_major_raises :
  int_of_str (split_head "." "-1.0") = Some (-1) /\
  ~ (1 <= -1) /\
  Driver._validate_mysql_connector "-1.0"
  = Raise (DatabaseError (Driver.unsupported_message "-1.0")).
Proof. split; [|split]; [reflexivity|lia|reflexivity]. Qed.

(** *** Product cache *)

(** A product without barcode is stored under the key "None" and dropped
    when the file is loaded again: merging the same list twice moves it to
    the end. *)
Example merge_twice_reorders :
  Cache._merge_into_cache disk_ok Cache.Missing [loose "x"; tea 5%float]
  = Ok (Cache.Stored (PList [loose "x"; tea 5%float])) /\
  Cache._merge_into_cache disk_ok (Cache.Stored (PList [loose "x"; tea 5%float]))
                          [loose "x"; tea 5%float]
  = Ok (Cache.Stored (PList [tea 5%float; loose "x"])).
Proof. split; reflexivity. Qed.




Example merge_barcodeless_example :
  Cache._merge_into_cache disk_ok (Cache.Stored (PList [loose "old"; tea 5%float]))
                          [loose "a"; loose_none "b"]
  = Ok (Cache.Stored (PList [tea 5%float; loose_none "b"])).
Proof. reflexivity. Qed.


(** C5, counterexample: the cache holds an entry for the empty barcode, and
    a lookup of the empty barcode queries the source of truth all the
    same.  And the cache holds the milk under its barcode, behind an entry
    that is no object: the lookup of that barcode raises. *)
Lemma fetch_empty_barcode_queries :
  Cache.cache bag_world = Cache.Stored (PList [bag]) /\
  Cache.key_of bag = "" /\
  Cache.queries bag_world = [] /\
  Cache.queries (snd (Cache.fetch_product_by_barcode bag_world "")) = [""] /\
  Cache.cache MoreSamples.broken_world
  = Cache.Stored (PList [tea 5%float; PStr "oops"; milk]) /\
  Cache.key_of milk = "b2" /\
  fst (Cache.fetch_product_by_barcode MoreSamples.broken_world "b2")
  = Raise AttributeError.
Proof. evaluate. Qed.

(** C5, witness: the milk is the second entry of the cache. *)
Lemma fetch_cache_hit_witness :
  Cache.fetch_product_by_barcode shelf_world "b2" = (Ok (Some milk), shelf_world) /\
  Cache.queries (snd (Cache.fetch_product_by_barcode shelf_world "")) = [""].
Proof.
  destruct (fetch_cache_hit shelf_world "b2" [tea 5%float] [] milk) as [Hhit Hempty].
  split; [|exact Hempty]. apply Hhit.
  - discriminate.
  - reflexivity.
  - repeat constructor.
  - reflexivity.
  - repeat constructor. discriminate.
  - reflexivity.
  - reflexivity.
Defined.

(** *** Sales *)

(** The specification's example: a sale of three items whose second insert
    fails leaves the two tables as they were. *)
Example record_sale_second_insert_fails :
  exists c,
    Sale.record_sale id_eq_int (sale_env third_fails) three_items "cash" (idle shop)
    = (Raise (DatabaseError "1062 (23000): Duplicate entry"), c) /\
    committed c = shop /\ pending c = None /\
    rollbacks c = 1%nat /\ commits c = 0%nat.
Proof.
  exists (snd (Sale.record_sale id_eq_int (sale_env third_fails) three_items "cash"
                                (idle shop))).
  evaluate.
Qed.

Example record_sale_three_items :
  exists c,
    Sale.record_sale id_eq_int (sale_env no_faults) three_items "cash" (idle shop)
    = (Ok true, c) /\
    Sale.products (committed c)
    = [Sale.ProductRow 1 0%float; Sale.ProductRow 2 0%float] /\
    map Sale.amount (Sale.sales (committed c))
    = [PFloat 6%float; PFloat 15%float; PFloat 3%float] /\
    commits c = 1%nat.
Proof.
  exists (snd (Sale.record_sale id_eq_int (sale_env no_faults) three_items "cash"
                                (idle shop))).
  evaluate.
Qed.

(** A quantity that is no number raises [ValueError] after the first item
    was sent: nothing is committed, although no rollback is called. *)
Lemma record_sale_raise_keeps_witness :
  exists c,
    Sale.record_sale id_eq_int (sale_env no_faults) items_bad_qty "cash" (idle shop)
    = (Raise ValueError, c) /\
    committed c = shop /\ pending c = None.
Proof.
  set (rc := Sale.record_sale id_eq_int (sale_env no_faults) items_bad_qty "cash"
                              (idle shop)).
  assert (rc = (Raise ValueError, snd rc)) as Hrec by reflexivity.
  exists (snd rc). split; [exact Hrec|].
  exact (record_sale_raise_keeps id_eq_int _ _ _ _ _ _ Hrec).
Defined.

(** C2, counterexample: the quantity of the second item is no number.
    Its insert has been sent when [float] raises; [ValueError] leaves the
    call as it is, not as [DatabaseError], and the log has no rollback. *)
Lemma record_sale_unusable_item_not_rolled_back :
  Sale.record_sale id_eq_int (sale_env no_faults) items_bad_qty "cash" (idle shop)
  = (Raise ValueError,
     Conn shop None 3 1
          [CConnect; CBegin;
           CExecute (Sale.InsertSale
                       (Sale.SaleRow 1700000000001 (PInt 1) "cash"
                                     (PFloat 6%float) (PFloat 2%float))) true;
           CExecute (Sale.UpdateStock 4%float (PInt 1)) true;
           CExecute (Sale.InsertSale
                       (Sale.SaleRow 1700000000002 (PInt 2) "cash"
                                     (PFloat 1%float) (PStr "abc"))) true;
           CCursorClose; CClose]).
Proof. evaluate. Qed.

(** C2, witness: the three items without fault; the three items with the
    insert of the second item failing; and the two items of which the
    second has a quantity that is no number. *)
Lemma record_sale_all_or_nothing_witness :
  (exists c,
      Sale.record_sale id_eq_int (sale_env no_faults) three_items "cash" (idle shop)
      = (Ok true, c) /\
      commits c = 1%nat /\ rollbacks c = 0%nat /\
      length (Sale.sales (committed c)) = 3%nat) /\
  (exists c,
      Sale.record_sale id_eq_int (sale_env third_fails) three_items "cash" (idle shop)
      = (Raise (DatabaseError "1062 (23000): Duplicate entry"), c) /\
      committed c = shop /\ rollbacks c = 1%nat) /\
  (exists c,
      Sale.record_sale id_eq_int (sale_env no_faults) items_bad_qty "cash" (idle shop)
      = (Raise ValueError, c) /\
      committed c = shop /\ rollbacks c = 0%nat).
Proof.
  split; [|split].
  - destruct (record_sale_all_or_nothing id_eq_int (sale_env no_faults) three_items
                "cash" shop) as (r & c & Hrec & _ & Hiff & Hcase);
      [discriminate|reflexivity|reflexivity|].
    assert (r = Ok true) as ->.
    { apply Hiff. split; [repeat constructor|]. split; [intros k _|]; reflexivity. }
    destruct Hcase as (_ & Hcommits & Hrollbacks & rows & updates & Hrows & _ & Hsales & _).
    exists c. split; [exact Hrec|]. split; [exact Hcommits|]. split; [exact Hrollbacks|].
    rewrite Hsales, length_app, <- (Forall2_length _ _ _ Hrows). reflexivity.
  - set (rc := Sale.record_sale id_eq_int (sale_env third_fails) three_items "cash"
                                (idle shop)).
    assert (rc = (Raise (DatabaseError "1062 (23000): Duplicate entry"), snd rc)) as Hrc
        by vm_cast_no_check (eq_refl rc).
    destruct (record_sale_all_or_nothing id_eq_int (sale_env third_fails) three_items
                "cash" shop) as (r & c & Hrec & _ & _ & Hcase);
      [discriminate|reflexivity|reflexivity|].
    fold rc in Hrec. rewrite Hrc in Hrec. injection Hrec as <- <-.
    destruct Hcase as (Hsame & _ & Hrollbacks & _).
    exists (snd rc). split; [exact Hrc|]. split; assumption.
  - set (rc := Sale.record_sale id_eq_int (sale_env no_faults) items_bad_qty "cash"
                                (idle shop)).
    assert (rc = (Raise ValueError, snd rc)) as Hrc by vm_cast_no_check (eq_refl rc).
    destruct (record_sale_all_or_nothing id_eq_int (sale_env no_faults) items_bad_qty
                "cash" shop) as (r & c & Hrec & _ & _ & Hcase);
      [discriminate|reflexivity|reflexivity|].
    fold rc in Hrec. rewrite Hrc in Hrec. injection Hrec as <- <-.
    destruct Hcase as (Hsame & _ & Hrollbacks & _).
    exists (snd rc). split; [exact Hrc|]. split; assumption.
Defined.

(** C4, counterexample: an item with deduct unit 0.0 and quantity 2.0
    takes 2.0 from the stock of 5.0, where [qty * deduct_unit] is 0.0. *)
Lemma zero_deduct_unit_decrements :
  Sale.products
    (committed
       (snd (Sale.record_sale id_eq_int (sale_env no_faults)
               [item 1 2%float 3%float 6%float (PFloat 0%float)] "cash" (idle shop))))
  = [Sale.ProductRow 1 3%float; Sale.ProductRow 2 3%float] /\
  Sale.greatest 0%float (5 - 2 * 0)%float = 5%float.
Proof. evaluate. Qed.

(** C4, witness: the sale of the three items; the first and the third are
    of the product of id 1, whose stock was 5.0. *)
Lemma record_sale_decrements_stock_witness :
  exists c updates,
    Sale.record_sale id_eq_int (sale_env no_faults) three_items "cash" (idle shop)
    = (Ok true, c) /\
    length updates = 3%nat /\
    length (Sale.products (committed c)) = 2%nat /\
    Sale.products (committed c) !! 0%nat
    = Some (Sale.ProductRow 1 (Sale.stock_after id_eq_int updates 1 5%float)).
Proof.
  set (rc := Sale.record_sale id_eq_int (sale_env no_faults) three_items "cash"
                              (idle shop)).
  assert (rc = (Ok true, snd rc)) as Hrec by vm_cast_no_check (eq_refl rc).
  destruct (record_sale_decrements_stock id_eq_int _ _ _ _ _ Hrec)
    as (updates & Hall & Hlen & Hrows & _).
  exists (snd rc), updates. split; [exact Hrec|]. split; [|split].
  - symmetry. apply (Forall2_length _ _ _ Hall).
  - exact Hlen.
  - exact (Hrows 0%nat (Sale.ProductRow 1 5%float) eq_refl).
Defined.

(** C7, counterexample: an item of quantity 2.0 and price 3.0 supplied with
    the amount 100.0 is stored with the amount 100.0. *)
Lemma record_sale_trusts_amount :
  map Sale.amount
      (Sale.sales
         (committed
            (snd (Sale.record_sale id_eq_int (sale_env no_faults)
                    [item 1 2%float 3%float 100%float (PFloat 1%float)] "cash"
                    (idle shop)))))
  = [PFloat 100%float] /\
  (2 * 3)%float = 6%float.
Proof. evaluate. Qed.

(** C7, witness: a sale of the items of the sample cart. *)
Lemma record_sale_amounts_witness :
  exists items c rows,
    Sale._collect_cart_items cart_table cart_products = Ok items /\
    Sale.record_sale id_eq_int (sale_env no_faults) items "card" (idle shop)
    = (Ok true, c) /\
    Sale.sales (committed c) = Sale.sales shop ++ rows /\
    Forall2 (fun item row =>
               exists q p,
                 py_get item "price" = Ok (PFloat p) /\
                 Sale.qty row = PFloat q /\
                 Sale.amount row = PFloat (fmul q p))
            items rows.
Proof.
  set (items := match Sale._collect_cart_items cart_table cart_products with
                | Ok l => l
                | Raise _ => []
                end).
  assert (Sale._collect_cart_items cart_table cart_products = Ok items) as Hitems
      by reflexivity.
  set (rc := Sale.record_sale id_eq_int (sale_env no_faults) items "card" (idle shop)).
  assert (rc = (Ok true, snd rc)) as Hrec by vm_cast_no_check (eq_refl rc).
  destruct (record_sale_amounts id_eq_int _ _ _ _ _ Hrec) as (rows & Hsales & _ & Hcart).
  exists items, (snd rc), rows. split; [exact Hitems|]. split; [exact Hrec|].
  split; [exact Hsales|]. exact (Hcart cart_table cart_products Hitems).
Defined.

(** *** Attendance *)

Example clock_out_examples :
  fst (Attendance.clock_out staff_env 2 (idle shifts)) = Ok true /\
  fst (Attendance.clock_out staff_env 5 (idle shifts)) = Ok false /\
  committed (snd (Attendance.clock_out staff_env 5 (idle shifts))) = shifts.
Proof. evaluate. Qed.

(** A lost connection during the update. *)
Lemma clock_out_fails_witness :
  Attendance.clock_out staff_env_down 2 (idle shifts)
  = (Raise (DatabaseError "2013: Lost connection"),
     Conn shifts None 1 0
          [CConnect; CBegin; CExecute (Attendance.SetTimeOut 63000 2) false;
           CRollback; CCursorClose; CClose]).
Proof.
  apply (clock_out_fails staff_env_down 2 shifts "2013: Lost connection");
    reflexivity.
Defined.

(** C8, counterexample: two rows have the id 2; the update affects both
    and [clock_out] returns [True]. *)
Lemma clock_out_two_rows_affected :
  Attendance.clock_out staff_env 2 (idle twins)
  = (Ok true,
     Conn [Attendance.AttendanceRow 2 11 19700 30600 (Some 63000);
           Attendance.AttendanceRow 2 12 19700 30700 (Some 63000)]
          None 1 2
          [CConnect; CBegin; CExecute (Attendance.SetTimeOut 63000 2) true;
           CCommit true; CCursorClose; CClose]) /\
  length (filter (fun r => Attendance.att_id r = 2 /\
                           Attendance.time_out r <> Some 63000) twins) = 2%nat.
Proof. split; reflexivity. Qed.

(** C8, witness: the second shift is open and is closed at 17:30. *)
Lemma clock_out_exactly_one_witness :
  exists c,
    Attendance.clock_out staff_env 2 (idle shifts) = (Ok true, c) /\
    committed c = [Attendance.AttendanceRow 1 10 19700 28800 (Some 61200);
                   Attendance.AttendanceRow 2 11 19700 30600 (Some 63000)] /\
    commits c = 1%nat.
Proof.
  destruct (clock_out_exactly_one staff_env 2 shifts)
    as (b & c & Hrun & Htable & _ & Hcommits & Hiff & _).
  - reflexivity.
  - reflexivity.
  - reflexivity.
  - reflexivity.
  - exists c. assert (b = true) as Hb by (apply Hiff; vm_compute; lia).
    rewrite Hb in Hrun. split; [exact Hrun|]. split; [exact Htable|exact Hcommits].
Defined.

(** *** The product repository *)

Import RuntimeMore MoreSamples.
#[local] Existing Instance binary64_ops.
#[local] Existing Instance ascii_ops.

Lemma find_in_cache_first_match_witness :
  Repository.get_cached_product shelf "b2" = Ok (Some milk).
Proof.
  destruct (find_in_cache_first_match shelf "b2") as [Hsome _].
  - repeat constructor.
  - apply Hsome. split; [discriminate|].
    exists [tea 5%float], []. repeat split. repeat constructor. discriminate.
Defined.

Lemma fetch_non_object_entry_raises_witness :
  Cache.fetch_product_by_barcode broken_world "b2" = (Raise AttributeError, broken_world).
Proof.
  apply (fetch_non_object_entry_raises broken_world "b2" [tea 5%float] [milk] (PStr "oops")).
  - discriminate.
  - reflexivity.
  - repeat constructor.
  - repeat constructor. discriminate.
  - reflexivity.
Defined.



Lemma fetch_unknown_barcode_requeries_witness :
  exists w1 w2,
    Cache.fetch_product_by_barcode soap_world "b9" = (Ok None, w1) /\
    Cache.cache w1 = shelf /\
    Cache.queries w1 = ["b9"] /\
    Cache.fetch_product_by_barcode w1 "b9" = (Ok None, w2) /\
    Cache.cache w2 = shelf /\
    Cache.queries w2 = ["b9"; "b9"].
Proof.
  apply (fetch_unknown_barcode_requeries soap_world "b9"); reflexivity.
Defined.

Lemma search_cache_first_matches_witness :
  Repository.search_cache shelf "MI" 10 = Ok [milk].
Proof.
  rewrite (search_cache_first_matches shelf "MI" 10).
  - reflexivity.
  - discriminate.
  - lia.
  - repeat constructor.
Defined.

(** The second entry of the file is no object, and is not looked at. *)
Lemma search_cache_nonpositive_limit_witness :
  Repository.search_cache (Cache.cache broken_world) "b" 0 = Ok [tea 5%float].
Proof.
  rewrite (search_cache_nonpositive_limit (Cache.cache broken_world) "b" 0).
  - reflexivity.
  - discriminate.
  - lia.
  - repeat constructor.
Defined.

Lemma prime_cache_existing_file_witness :
  exists l, Repository.prime_cache unreadable_store false = (Ok l, unreadable_store) /\ l = [].
Proof. apply (prime_cache_existing_file unreadable_store). discriminate. Defined.

Lemma search_products_cache_first_witness :
  Repository.search_products soap_store " Tea " 10 = (Ok [tea 5%float], soap_store).
Proof.
  rewrite (search_products_cache_first soap_store " Tea " 10).
  - reflexivity.
  - discriminate.
  - lia.
  - repeat constructor.
  - discriminate.
Defined.


(** *** Attendance *)

Lemma clock_in_all_or_nothing_witness :
  (exists c, Staff.clock_in (crew_env no_faults) 11 "cashier" 80%float (idle crew)
             = (Ok 4, c) /\ length (committed c) = 4%nat /\ commits c = 1%nat) /\
  (exists c, Staff.clock_in (crew_env insert_fails) 11 "cashier" 80%float (idle crew)
             = (Raise (DatabaseError "1048 (23000): Column cannot be null"), c) /\
             committed c = crew /\ rollbacks c = 1%nat).
Proof.
  split.
  - rewrite (clock_in_all_or_nothing (H := binary64) (crew_env no_faults) 11 "cashier" 80%float crew);
      [|reflexivity|reflexivity].
    eexists. split; [reflexivity|]. split; reflexivity.
  - rewrite (clock_in_all_or_nothing (H := binary64) (crew_env insert_fails) 11 "cashier" 80%float crew);
      [|reflexivity|reflexivity].
    eexists. split; [reflexivity|]. split; reflexivity.
Defined.

Lemma get_today_attendance_latest_witness :
  exists r,
    Staff.get_today_attendance (crew_env no_faults) 10 crew = Ok r /\
    match r with
    | Some row =>
        In row crew /\ Attendance.staff_id (Staff.core row) = 10 /\
        Attendance.att_date (Staff.core row) = 19700 /\
        forall r', In r' crew -> Attendance.staff_id (Staff.core r') = 10 ->
                   Attendance.att_date (Staff.core r') = 19700 ->
                   Attendance.att_id (Staff.core r') <= Attendance.att_id (Staff.core row)
    | None =>
        forall r', In r' crew ->
                   ~ (Attendance.staff_id (Staff.core r') = 10 /\
                      Attendance.att_date (Staff.core r') = 19700)
    end.
Proof.
  apply (get_today_attendance_latest (crew_env no_faults) 10 crew); reflexivity.
Defined.

Lemma clock_in_then_clock_out_witness :
  exists c1 row c2,
    Staff.clock_in (crew_env no_faults) 11 "cashier" 80%float (idle crew) = (Ok 4, c1) /\
    Staff.get_today_attendance (crew_env no_faults) 11 (committed c1) = Ok (Some row) /\
    Attendance.att_id (Staff.core row) = 4 /\
    Attendance.time_out (Staff.core row) = None /\
    Attendance.clock_out staff_env 4 (idle (map Staff.core (committed c1))) = (Ok true, c2) /\
    commits c2 = 1%nat /\
    rowcount c2 = 1%nat /\
    committed c2
    = map Staff.core crew ++ [Attendance.AttendanceRow 4 11 19700 70000 (Some 63000)].
Proof.
  apply (clock_in_then_clock_out (H := binary64) (crew_env no_faults) 11 "cashier" 80%float crew staff_env);
    try reflexivity.
  repeat constructor.
Defined.

(** *** The cart *)

Lemma cart_is_empty_iff_no_item_witness :
  exists items,
    Sale._collect_cart_items cart_table cart_products = Ok items /\
    length items = 2%nat /\
    (Cart._cart_is_empty cart_table = true <-> items = []).
Proof.
  destruct (cart_is_empty_iff_no_item cart_table cart_products)
    as (items & Hitems & Hlen & Hiff).
  - intros row p Hp. unfold cart_products in Hp.
    apply lookup_insert_Some in Hp as [[_ <-]|[_ Hp]]; [reflexivity|].
    apply lookup_singleton_Some in Hp as [_ <-]. reflexivity.
  - exists items. split; [exact Hitems|]. split; [|exact Hiff].
    rewrite Hlen. reflexivity.
Defined.

Lemma void_all_items_empties_witness :
  Cart.table (Cart.void_all_items basket) = replicate 3 Cart.blank_row /\
  Cart._cart_is_empty (Cart.table (Cart.void_all_items basket)) = true /\
  Sale._collect_cart_items (Cart.table (Cart.void_all_items basket))
                           (Cart.row_products (Cart.void_all_items basket))
  = Ok [].
Proof.
  destruct (void_all_items_empties basket) as (Ht & _ & He & Hc); [reflexivity|].
  split; [exact Ht|]. split; [exact He|exact Hc].
Defined.

Lemma void_selected_item_removes_one_witness :
  exists before item after,
    Sale._collect_cart_items (Cart.table basket) (Cart.row_products basket)
    = Ok (before ++ item ++ after) /\
    (length item <= 1)%nat /\
    Sale._collect_cart_items (Cart.table (Cart.void_selected_item basket 0))
                             (Cart.row_products (Cart.void_selected_item basket 0))
    = Ok (before ++ after).
Proof.
  destruct (void_selected_item_removes_one basket 0) as [_ Hsel].
  - reflexivity.
  - intros row p Hp. unfold basket, cart_products in Hp. cbn [Cart.row_products] in Hp.
    apply lookup_insert_Some in Hp as [[_ <-]|[_ Hp]]; [reflexivity|].
    apply lookup_singleton_Some in Hp as [_ <-]. reflexivity.
  - destruct Hsel as (before & item & after & _ & _ & Hall & Hlen & Hvoid);
      [simpl; lia|].
    exists before, item, after. split; [exact Hall|]. split; [exact Hlen|exact Hvoid].
Defined.

(** *** The keypad *)

Lemma keypad_buffer_invariant_witness :
  Keypad.pad_buffer (fold_left Keypad.press some_keys Keypad.initial) = "-1.5." /\
  Keypad._pad_toggle_sign
    (Keypad._pad_toggle_sign (fold_left Keypad.press some_keys Keypad.initial))
  = fold_left Keypad.press some_keys Keypad.initial.
Proof.
  destruct (keypad_buffer_invariant some_keys) as [_ Htwice].
  - repeat constructor; simpl; tauto.
  - split; [reflexivity|exact Htwice].
Defined.

(** *** The payment terminal *)

Lemma read_linkly_response_first_line_witness :
  Terminal._send_linkly_payload 5 slow_terminal
  = Some (Terminal.Response "DECLINED BY ISSUER") /\
  Terminal._send_linkly_payload 5 slow_terminal'
  = Terminal._send_linkly_payload 5 slow_terminal.
Proof.
  destruct (read_linkly_response_first_line 5 slow_terminal slow_terminal' 1)
    as [Hread Hsame]; try reflexivity.
  - intros [|j] Hj; [|lia]. exists "DECLINED BY". repeat split. discriminate.
  - right. reflexivity.
  - intros [|[|j]] Hj; [reflexivity|reflexivity|lia].
  - lia.
  - split; [|exact Hsame]. rewrite Hread. reflexivity.
Defined.

Lemma process_card_payment_reason_witness :
  exists reason,
    Terminal._process_card_payment 5 slow_terminal basket 10.5%float
    = Some (Ok (false, Some reason)) /\
    reason <> "".
Proof.
  destruct (process_card_payment_reason 5 slow_terminal basket 10.5%float false
                                        (Some "DECLINED BY ISSUER"))
    as (reason & Hr & Hne).
  - reflexivity.
  - exists reason. split; [|exact Hne]. now rewrite <- Hr.
Defined.

Lemma silent_terminal_no_response_witness :
  Terminal._process_card_payment 1 silent_terminal basket 10.5%float
  = Some (Ok (false, Some "No response from Linkly.")).
Proof.
  apply (silent_terminal_no_response 1 silent_terminal basket 10.5%float);
    try reflexivity.
  - intros row p Hp. unfold basket, cart_products in Hp. cbn [Cart.row_products] in Hp.
    apply lookup_insert_Some in Hp as [[_ <-]|[_ Hp]]; [reflexivity|].
    apply lookup_singleton_Some in Hp as [_ <-]. reflexivity.
  - now left.
  - lia.
Defined.

(** *** Totals and payment *)

Lemma basket_products_are_dicts : Cart.products_are_dicts cart_products.
Proof.
  intros row p Hp. unfold cart_products in Hp.
  apply lookup_insert_Some in Hp as [[_ <-]|[_ Hp]]; [reflexivity|].
  apply lookup_singleton_Some in Hp as [_ <-]. reflexivity.
Qed.

Lemma recalculate_totals_agree_witness :
  Checkout.items_label (Checkout._recalculate_totals cart_table) = "2" /\
  Checkout.total_label (Checkout._recalculate_totals cart_table) = "$8.25" /\
  map snd (Checkout.amount_cells (Checkout._recalculate_totals cart_table))
  = ["7.00"; "1.25"] /\
  Checkout._current_total (Checkout.total_label (Checkout._recalculate_totals cart_table))
  = 8.25%float.
Proof.
  set (items := match Sale._collect_cart_items cart_table cart_products with
                | Ok l => l
                | Raise _ => []
                end).
  assert (Sale._collect_cart_items cart_table cart_products = Ok items) as Hitems
      by reflexivity.
  destruct (recalculate_totals_agree cart_table cart_products items Hitems)
    as (Hcount & Htotal & _ & _ & Hcells & _ & Hcurrent).
  rewrite Hcurrent, Hcount, Htotal, Hcells. evaluate.
Defined.

(** A cash payment of 20.00 for the sample cart. *)
Lemma handle_payment_no_payment_no_sale_witness :
  Cart._cart_is_empty cart_table = false /\
  exists method tendered,
    cash_20 = Some (method, tendered) /\
    Checkout.paid 1 silent_terminal 8.25%float basket method tendered.
Proof.
  set (run := Checkout.handle_payment id_eq_int (sale_env no_faults) true 1 silent_terminal
                8.25%float cash_20 basket (idle shop)).
  set (out := match run with
              | Some o => o
              | None => (Ok tt, (basket, []), idle shop)
              end).
  assert (run = Some (fst (fst out), snd (fst out), snd out)) as Hrun
      by (vm_cast_no_check (eq_refl run)).
  assert (length (calls (snd out)) = 9%nat) as Hcalls
      by (vm_cast_no_check (eq_refl 9%nat)).
  destruct (handle_payment_no_payment_no_sale id_eq_int _ _ _ _ _ _ _ _ _ _ _ Hrun)
    as (Hcart & _ & Hpaid).
  - intros Hsame. rewrite Hsame in Hcalls. discriminate Hcalls.
  - split; [exact Hcart|exact Hpaid].
Defined.

(** The same payment: the sale is stored and the cart is voided. *)
Lemma handle_payment_empties_cart_iff_stored_witness :
  exists r c' shown db',
    Checkout.handle_payment id_eq_int (sale_env no_faults) true 1 silent_terminal
      8.25%float cash_20 basket (idle shop)
    = Some (r, (c', shown), db') /\
    c' = Cart.void_all_items basket /\ r = Ok tt /\
    exists before change, shown = before ++ [Checkout.Paid change].
Proof.
  set (run := Checkout.handle_payment id_eq_int (sale_env no_faults) true 1 silent_terminal
                8.25%float cash_20 basket (idle shop)).
  set (out := match run with
              | Some o => o
              | None => (Ok tt, (basket, []), idle shop)
              end).
  assert (run = Some (fst (fst out), (fst (snd (fst out)), snd (snd (fst out))), snd out))
    as Hrun by (vm_cast_no_check (eq_refl run)).
  assert (Cart._cart_is_empty (Cart.table (fst (snd (fst out)))) = true) as Hvoided
      by (vm_cast_no_check (eq_refl true)).
  assert (Cart._cart_is_empty (Cart.table basket) = false) as Hfull by reflexivity.
  exists (fst (fst out)), (fst (snd (fst out))), (snd (snd (fst out))), (snd out).
  split; [exact Hrun|].
  destruct (handle_payment_empties_cart_iff_stored id_eq_int _ _ _ _ _ _ _ _ _ _ _ _ Hrun)
    as [(_ & Hc & Hr & (before & change & Hshown & _) & _)|(_ & Hc & _)].
  - split; [exact Hc|]. split; [exact Hr|]. now exists before, change.
  - rewrite Hc, Hfull in Hvoided. discriminate Hvoided.
Defined.

End Evaluation.
